(** * NeuraMorphosis Chat: session lifecycle, stream reconciliation, persistence

    A shallow embedding of the TypeScript sources

    - [services/localStorageService.ts]   (persistence adapter),
    - [services/geminiService.ts]         (backend gateway, SDK variant),
    - the proxy variant of the gateway    ([sendMessageToChatStream] with
                                           history, model and budget),
    - [SummarizationEditorPage]           ([handleAskFollowUp]),
    - [App]                               ([handleSendMessage], [switchChat], ...),

    followed by the properties proved about them.

    Conventions.  JavaScript strings are sequences of UTF-16 code units; the
    embedding uses [string] and reads each character as a code unit below 256.
    A value that may be [undefined]/[null] is an [option].  Exceptions are
    explicit: a computation that may throw returns an [outcome].  React state
    is threaded explicitly; every [setX] call is recorded as an [Update] and
    applied in program order. *)

From Stdlib Require Import Ascii String ZArith.
From stdpp Require Import base option list strings gmap pretty.

Open Scope string_scope.
Open Scope list_scope.

(* ================================================================== *)
(** * JavaScript primitives used by the sources *)
(* ================================================================== *)

Module JS.

(** Exceptions: [Throw e] carries the [message] of the thrown [Error]. *)
Inductive outcome (A : Type) : Type :=
| Return (a : A)
| Throw (e : string).
Arguments Return {A} a.
Arguments Throw {A} e.

Definition bind {A B} (m : outcome A) (k : A → outcome B) : outcome B :=
  match m with
  | Return a => k a
  | Throw e => Throw e
  end.

(** [try { m } catch (error) { h error }] *)
Definition try_catch {A} (m : outcome A) (h : string → outcome A) : outcome A :=
  match m with
  | Return a => Return a
  | Throw e => h e
  end.

Definition LF : string := String (ascii_of_nat 10) "".
Definition DQUOTE : ascii := ascii_of_nat 34.
Definition SQUOTE : ascii := ascii_of_nat 39.
Definition SPACE : ascii := ascii_of_nat 32.

(** Truthiness of a string: only the empty string is falsy. *)
Definition truthy (s : string) : bool :=
  match s with
  | "" => false
  | String _ _ => true
  end.

(** [a || b] on strings. *)
Definition or_else (a b : string) : string := if truthy a then a else b.

(** [a || b] where [a] may be [null]. *)
Definition or_default (a : option string) (b : string) : string :=
  match a with
  | Some s => or_else s b
  | None => b
  end.

(** WhiteSpace and LineTerminator code units below 256: TAB, LF, VT, FF,
    CR, SP and NBSP. *)
Definition isWhiteSpace (c : ascii) : bool :=
  let n := nat_of_ascii c in
  ((9 <=? n)%nat && (n <=? 13)%nat) || (n =? 32)%nat || (n =? 160)%nat.

Fixpoint trimStart (s : string) : string :=
  match s with
  | "" => ""
  | String c s' => if isWhiteSpace c then trimStart s' else s
  end.

Fixpoint trimEnd (s : string) : string :=
  match s with
  | "" => ""
  | String c s' =>
      match trimEnd s' with
      | "" => if isWhiteSpace c then "" else String c ""
      | r => String c r
      end
  end.

Definition trim (s : string) : string := trimEnd (trimStart s).

(** [s.startsWith(p)] *)
Fixpoint startsWith (s p : string) : bool :=
  match p with
  | "" => true
  | String b p' =>
      match s with
      | "" => false
      | String a s' => if Ascii.eqb a b then startsWith s' p' else false
      end
  end.

(** [s.indexOf(t)]: [None] stands for -1. *)
Fixpoint indexOf (s t : string) : option nat :=
  if startsWith s t then Some 0
  else match s with
       | "" => None
       | String _ s' => S <$> indexOf s' t
       end.

(** [s.includes(t)] *)
Definition includes (s t : string) : bool :=
  match indexOf s t with
  | Some _ => true
  | None => false
  end.

(** [s.substring(n)] for [0 <= n]. *)
Fixpoint substring (n : nat) (s : string) : string :=
  match n, s with
  | 0, _ => s
  | S n', String _ s' => substring n' s'
  | S _, "" => ""
  end.

(** [s.split(sep)] for a one-character separator. *)
Fixpoint split (sep : ascii) (s : string) : list string :=
  match s with
  | "" => [""]
  | String c s' =>
      if Ascii.eqb c sep then "" :: split sep s'
      else match split sep s' with
           | w :: ws => String c w :: ws
           | [] => [String c ""]
           end
  end.

(** [l.join(sep)] *)
Definition join (sep : string) (l : list string) : string := String.concat sep l.

(** [l.slice(0, n)] *)
Definition slice0 {A} (n : nat) (l : list A) : list A := take n l.

(** [l.slice(0, -1)] *)
Definition dropLast {A} (l : list A) : list A := take (length l - 1) l.

(** [c.toLowerCase()] on code units below 256. *)
Definition lowerChar (c : ascii) : ascii :=
  let n := nat_of_ascii c in
  if ((65 <=? n)%nat && (n <=? 90)%nat)
     || ((192 <=? n)%nat && (n <=? 222)%nat && negb (n =? 215)%nat)
  then ascii_of_nat (n + 32) else c.

Fixpoint toLowerCase (s : string) : string :=
  match s with
  | "" => ""
  | String c s' => String (lowerChar c) (toLowerCase s')
  end.

Definition isQuote (c : ascii) : bool := Ascii.eqb c DQUOTE || Ascii.eqb c SQUOTE.

(** Removes one trailing quote character (the end-anchored alternative of
    the regular expression in the title clean-up). *)
Fixpoint stripTrailingQuote (s : string) : string :=
  match s with
  | "" => ""
  | String c "" => if isQuote c then "" else s
  | String c s' => String c (stripTrailingQuote s')
  end.

(** The title clean-up [replace] with the global regular expression
    "leading quote or trailing quote": one leading and one trailing quote
    character (double or single) are removed; a lone quote is consumed by
    the first alternative. *)
Definition stripQuotes (s : string) : string :=
  match s with
  | "" => ""
  | String c s' =>
      if isQuote c then stripTrailingQuote s' else stripTrailingQuote s
  end.

End JS.

Import JS.

(* ================================================================== *)
(** * types.ts *)
(* ================================================================== *)

Inductive Sender := User | AI.

Definition Sender_eqb (a b : Sender) : bool :=
  match a, b with
  | User, User | AI, AI => true
  | _, _ => false
  end.

Record ThinkingDetails := {
  enabled : bool;
  budget : option Z;
  modelUsed : option string;
  reasoningSupportedByModel : bool;
}.

Record ChatMessageContent := {
  id : string;
  text : string;
  sender : Sender;
  isStreaming : option bool;
  isError : option bool;
  thinkingDetails : option ThinkingDetails;
}.

(** A history part is either text or inline data; only text parts are ever
    built by the sources embedded here. *)
Inductive Part :=
| TextPart (t : string)
| InlineData (data mimeType : string).

Inductive Role := RoleUser | RoleModel.

Record ChatMessageHistoryItem := {
  role : Role;
  parts : list Part;
}.

Module StoredChat.
Record t := {
  id : string;
  title : string;
  createdAt : string;
  messages : list ChatMessageContent;
  aiMessagesSinceLastTitleUpdate : option nat;
}.
End StoredChat.

Inductive AppView := ViewChat | ViewSettings | ViewSummarizer.

(** An asynchronous stream of text chunks as its consumer sees it: the chunks
    delivered in arrival order and then either normal termination or the
    message of the error raised (opening the stream included: no chunk, then
    the error). *)
Record Stream := {
  delivered : list string;
  failure : option string;
}.

(* ================================================================== *)
(** * SummarizationEditorPage: the follow-up reconciler *)
(* ================================================================== *)

Module Summarizer.

Definition REPLACE_SUMMARY_COMMAND : string := "[replace_summary_with_new_text]".

(** Component state read or written by [handleAskFollowUp]. *)
Record State := {
  aiInstance : bool;
  displayText : string;
  isSummaryComplete : bool;
  followUpQuestion : string;
  followUpResponse : string;
  isAskingFollowUp : bool;
  followUpError : option string;
  didFollowUpActAsReplacement : bool;
  isReplacingSummaryRef : bool;
}.

(** The two local accumulators of [handleAskFollowUp]. *)
Record Locals := {
  revisedSummaryAccumulator : string;
  currentFollowUpTextAccumulator : string;
}.

Definition setDisplayText (t : string) (s : State) : State :=
  {| aiInstance := aiInstance s; displayText := t;
     isSummaryComplete := isSummaryComplete s;
     followUpQuestion := followUpQuestion s;
     followUpResponse := followUpResponse s;
     isAskingFollowUp := isAskingFollowUp s;
     followUpError := followUpError s;
     didFollowUpActAsReplacement := didFollowUpActAsReplacement s;
     isReplacingSummaryRef := isReplacingSummaryRef s |}.

Definition setFollowUpResponse (t : string) (s : State) : State :=
  {| aiInstance := aiInstance s; displayText := displayText s;
     isSummaryComplete := isSummaryComplete s;
     followUpQuestion := followUpQuestion s;
     followUpResponse := t;
     isAskingFollowUp := isAskingFollowUp s;
     followUpError := followUpError s;
     didFollowUpActAsReplacement := didFollowUpActAsReplacement s;
     isReplacingSummaryRef := isReplacingSummaryRef s |}.

Definition setIsAskingFollowUp (b : bool) (s : State) : State :=
  {| aiInstance := aiInstance s; displayText := displayText s;
     isSummaryComplete := isSummaryComplete s;
     followUpQuestion := followUpQuestion s;
     followUpResponse := followUpResponse s;
     isAskingFollowUp := b;
     followUpError := followUpError s;
     didFollowUpActAsReplacement := didFollowUpActAsReplacement s;
     isReplacingSummaryRef := isReplacingSummaryRef s |}.

Definition setFollowUpError (e : option string) (s : State) : State :=
  {| aiInstance := aiInstance s; displayText := displayText s;
     isSummaryComplete := isSummaryComplete s;
     followUpQuestion := followUpQuestion s;
     followUpResponse := followUpResponse s;
     isAskingFollowUp := isAskingFollowUp s;
     followUpError := e;
     didFollowUpActAsReplacement := didFollowUpActAsReplacement s;
     isReplacingSummaryRef := isReplacingSummaryRef s |}.

Definition setDidFollowUpActAsReplacement (b : bool) (s : State) : State :=
  {| aiInstance := aiInstance s; displayText := displayText s;
     isSummaryComplete := isSummaryComplete s;
     followUpQuestion := followUpQuestion s;
     followUpResponse := followUpResponse s;
     isAskingFollowUp := isAskingFollowUp s;
     followUpError := followUpError s;
     didFollowUpActAsReplacement := b;
     isReplacingSummaryRef := isReplacingSummaryRef s |}.

Definition setIsReplacingSummaryRef (b : bool) (s : State) : State :=
  {| aiInstance := aiInstance s; displayText := displayText s;
     isSummaryComplete := isSummaryComplete s;
     followUpQuestion := followUpQuestion s;
     followUpResponse := followUpResponse s;
     isAskingFollowUp := isAskingFollowUp s;
     followUpError := followUpError s;
     didFollowUpActAsReplacement := didFollowUpActAsReplacement s;
     isReplacingSummaryRef := b |}.

(** The text of the chunk after the command, [trimStart]ed
    ([indexOf] yields -1 when the command is absent). *)
Definition textAfterCommand (textChunk : string) : string :=
  match indexOf textChunk REPLACE_SUMMARY_COMMAND with
  | Some i => trimStart (substring (i + String.length REPLACE_SUMMARY_COMMAND) textChunk)
  | None => trimStart (substring (String.length REPLACE_SUMMARY_COMMAND - 1) textChunk)
  end.

(** Body of [for await (const chunk of stream)]; a chunk whose [text] is
    [undefined] is the same as one whose text is empty. *)
Definition followUpChunk (textChunk : string) (sl : State * Locals) : State * Locals :=
  let '(s, l) := sl in
  if negb (truthy textChunk) then sl
  else if negb (isReplacingSummaryRef s) && includes textChunk REPLACE_SUMMARY_COMMAND then
    let s := setDidFollowUpActAsReplacement true (setIsReplacingSummaryRef true s) in
    let after := textAfterCommand textChunk in
    if truthy after then
      let revised := revisedSummaryAccumulator l +:+ after in
      (setDisplayText revised s,
       {| revisedSummaryAccumulator := revised;
          currentFollowUpTextAccumulator := currentFollowUpTextAccumulator l |})
    else (s, l)
  else if isReplacingSummaryRef s then
    let revised := revisedSummaryAccumulator l +:+ textChunk in
    (setDisplayText revised s,
     {| revisedSummaryAccumulator := revised;
        currentFollowUpTextAccumulator := currentFollowUpTextAccumulator l |})
  else
    let current := currentFollowUpTextAccumulator l +:+ textChunk in
    (setFollowUpResponse current s,
     {| revisedSummaryAccumulator := revisedSummaryAccumulator l;
        currentFollowUpTextAccumulator := current |}).

Definition followUpLoop (chunks : list string) (sl : State * Locals) : State * Locals :=
  fold_left (fun acc c => followUpChunk c acc) chunks sl.

(** The statement after the loop, reached only when the stream ended
    normally. *)
Definition afterLoop (sl : State * Locals) : State * Locals :=
  let '(s, l) := sl in
  if isReplacingSummaryRef s && negb (truthy (revisedSummaryAccumulator l))
  then (setDisplayText "" s, l) else sl.

Definition followUpFailed (e : string) : string :=
  "Follow-up failed: " +:+ or_else e "Unknown error".

(** [handleAskFollowUp] run against the stream the backend produces. *)
Definition handleAskFollowUp (stream : Stream) (s : State) : State * Locals :=
  let noLocals := {| revisedSummaryAccumulator := ""; currentFollowUpTextAccumulator := "" |} in
  if negb (aiInstance s) || negb (truthy (trim (followUpQuestion s)))
     || negb (truthy (trim (displayText s))) || negb (isSummaryComplete s)
  then
    (setFollowUpError
       (Some "Cannot ask follow-up: AI service not ready, question is empty, or no summary context available.") s,
     noLocals)
  else
    let s := setIsReplacingSummaryRef false
               (setDidFollowUpActAsReplacement false
                  (setFollowUpResponse ""
                     (setFollowUpError None (setIsAskingFollowUp true s)))) in
    let '(s, l) := followUpLoop (delivered stream) (s, noLocals) in
    let '(s, l) :=
      match failure stream with
      | None => afterLoop (s, l)
      | Some e => (setFollowUpError (Some (followUpFailed e)) s, l)
      end in
    (setIsAskingFollowUp false s, l).

(** A page on which the summary is complete and a question is typed. *)
Definition ready (summary question : string) : State :=
  {| aiInstance := true; displayText := summary; isSummaryComplete := true;
     followUpQuestion := question; followUpResponse := "";
     isAskingFollowUp := false; followUpError := None;
     didFollowUpActAsReplacement := false; isReplacingSummaryRef := false |}.

End Summarizer.

(* ================================================================== *)
(** * services/localStorageService.ts *)
(* ================================================================== *)

Module LocalStorage.

Definition ALL_CHATS_KEY : string := "neuramorphosis_allChats".
Definition ACTIVE_CHAT_ID_KEY : string := "neuramorphosis_activeChatId".
Definition CUSTOM_CSS_KEY : string := "neuramorphosis_customCSS".
Definition BASE_THEME_KEY : string := "neuramorphosis_baseTheme".
Definition ACCENT_THEME_KEY : string := "neuramorphosis_accentTheme".
Definition TARGET_LANGUAGE_KEY : string := "neuramorphosis_targetLanguage".

(** The browser's [localStorage]: the stored items, and whether reading
    and writing are permitted (a denied read raises a SecurityError, a
    refused write a QuotaExceededError). *)
Record Storage := {
  items : gmap string string;
  readable : bool;
  writable : bool;
}.

Definition getItem (k : string) (ls : Storage) : outcome (option string) :=
  if readable ls then Return (items ls !! k) else Throw "SecurityError".

Definition setItem (k v : string) (ls : Storage) : outcome Storage :=
  if writable ls
  then Return {| items := <[k := v]> (items ls);
                 readable := readable ls; writable := writable ls |}
  else Throw "QuotaExceededError".

Definition removeItem (k : string) (ls : Storage) : outcome Storage :=
  if writable ls
  then Return {| items := delete k (items ls);
                 readable := readable ls; writable := writable ls |}
  else Throw "SecurityError".

(** What a read of [k] yields once the adapter has caught a refusal. *)
Definition stored (k : string) (ls : Storage) : option string :=
  if readable ls then items ls !! k else None.

(** The storage after a successful write of [v] under [k]. *)
Definition put (k v : string) (ls : Storage) : Storage :=
  {| items := <[k := v]> (items ls); readable := readable ls; writable := writable ls |}.

(** The [catch] of every save: log and carry on with the storage as it is. *)
Definition swallow (ls : Storage) (_ : string) : outcome Storage := Return ls.

Definition saveActiveChatId (id : option string) (ls : Storage) : outcome Storage :=
  try_catch
    (match id with
     | Some i => if truthy i then setItem ACTIVE_CHAT_ID_KEY i ls
                 else removeItem ACTIVE_CHAT_ID_KEY ls
     | None => removeItem ACTIVE_CHAT_ID_KEY ls
     end)
    (swallow ls).

Definition loadActiveChatId (ls : Storage) : outcome (option string) :=
  try_catch (getItem ACTIVE_CHAT_ID_KEY ls) (fun _ => Return None).

Definition saveCustomCSS (css : string) (ls : Storage) : outcome Storage :=
  try_catch (setItem CUSTOM_CSS_KEY css ls) (swallow ls).

Definition loadCustomCSS (ls : Storage) : outcome string :=
  try_catch
    (bind (getItem CUSTOM_CSS_KEY ls) (fun css => Return (or_default css "")))
    (fun _ => Return "").

Definition saveBaseTheme (theme : string) (ls : Storage) : outcome Storage :=
  try_catch (setItem BASE_THEME_KEY theme ls) (swallow ls).

Definition loadBaseTheme (ls : Storage) : outcome (option string) :=
  try_catch (getItem BASE_THEME_KEY ls) (fun _ => Return None).

Definition saveAccentTheme (theme : string) (ls : Storage) : outcome Storage :=
  try_catch (setItem ACCENT_THEME_KEY theme ls) (swallow ls).

Definition loadAccentTheme (ls : Storage) : outcome (option string) :=
  try_catch (getItem ACCENT_THEME_KEY ls) (fun _ => Return None).

Definition saveTargetLanguage (languageCode : string) (ls : Storage) : outcome Storage :=
  try_catch (setItem TARGET_LANGUAGE_KEY languageCode ls) (swallow ls).

Definition loadTargetLanguage (ls : Storage) : outcome (option string) :=
  try_catch (getItem TARGET_LANGUAGE_KEY ls) (fun _ => Return None).

Section Chats.

(** [JSON.parse] and [JSON.stringify] on chat lists.  [JSON_parse] throws
    a SyntaxError on text that is not JSON; the value it returns is used
    at the type the adapter declares for it. *)
Variable JSON_parse : string → outcome (list StoredChat.t).
Variable JSON_stringify : list StoredChat.t → outcome string.

Definition saveChats (chats : list StoredChat.t) (ls : Storage) : outcome Storage :=
  try_catch
    (bind (JSON_stringify chats) (fun j => setItem ALL_CHATS_KEY j ls))
    (swallow ls).

Definition loadChats (ls : Storage) : outcome (list StoredChat.t) :=
  try_catch
    (bind (getItem ALL_CHATS_KEY ls) (fun chatsJson =>
       match chatsJson with
       | Some j => if truthy j then JSON_parse j else Return []
       | None => Return []
       end))
    (fun _ => Return []).

End Chats.

End LocalStorage.

(* ================================================================== *)
(** * services/geminiService.ts: constants shared by both gateway variants *)
(* ================================================================== *)

Definition AVAILABLE_CHAT_MODELS : list string :=
  ["gemini-2.5-flash"; "gemini-2.5-pro"; "gemini-2.5-flash-lite"].

Definition MODEL_FRIENDLY_NAMES : list (string * string) :=
  [("gemini-2.5-flash", "Flash (Fast & Efficient)");
   ("gemini-2.5-pro", "Pro (Advanced & Powerful)");
   ("gemini-2.5-flash-lite", "Flash Lite (Ultra Fast)")].

Fixpoint lookupName (k : string) (l : list (string * string)) : option string :=
  match l with
  | [] => None
  | (k', v) :: l' => if String.eqb k k' then Some v else lookupName k l'
  end.

Definition getFriendlyModelName (modelId : string) : string :=
  or_default (lookupName modelId MODEL_FRIENDLY_NAMES) modelId.

Definition DEFAULT_CHAT_MODEL : string := "gemini-2.5-flash".

Definition THINKING_CONFIG_SUPPORTED_MODELS : list string := ["gemini-2.5-flash"].

(** [l.includes(x)] on a list of strings. *)
Definition listIncludes (l : list string) (x : string) : bool :=
  existsb (String.eqb x) l.

Record ChatConfig := {
  systemInstruction : string;
  thinkingConfig : option Z;
}.

Definition chatSystemInstruction (friendlyModelName : string) : string :=
  "You are NeuraMorphosis AI, a helpful and independent text-based chat assistant. You are currently operating as the '"
  +:+ friendlyModelName +:+ "' model configuration." +:+ LF
  +:+ "Provide helpful text-based responses." +:+ LF
  +:+ "If asked about your capabilities, mention you are a text-based assistant." +:+ LF
  +:+ "Respond in the language of the user's input if it is clear, otherwise default to English." +:+ LF.

(** [mapAppMessagesToGeminiHistoryForTitle] *)
Definition keptForTitle (initialWelcomeTextBase : string) (msg : ChatMessageContent) : bool :=
  match sender msg with
  | User => true
  | AI => negb (startsWith (text msg) "AI is viewing the image")
          && negb (startsWith (text msg) "NeuraMorphosis AI is thinking deeply...")
          && negb (startsWith (text msg) initialWelcomeTextBase)
  end.

Definition roleOf (s : Sender) : Role :=
  match s with User => RoleUser | AI => RoleModel end.

Definition mapAppMessagesToGeminiHistoryForTitle
    (msgs : list ChatMessageContent) (initialWelcomeTextBase : string)
    : list ChatMessageHistoryItem :=
  map (fun msg => {| role := roleOf (sender msg); parts := [TextPart (text msg)] |})
      (List.filter (keptForTitle initialWelcomeTextBase) msgs).

(** [words] of [generateFallbackTitle]: the trimmed text split at every
    single space. *)
Definition fallbackWords (t : string) : list string := split SPACE (trim t).

Definition generateFallbackTitle (chatMessages : list ChatMessageContent) : string :=
  match List.find (fun msg => Sender_eqb (sender msg) User) chatMessages with
  | Some firstUserMsg =>
      if truthy (text firstUserMsg) then
        let words := fallbackWords (text firstUserMsg) in
        join " " (slice0 (Nat.min (length words) 4) words)
        +:+ (if (4 <? length words)%nat then "..." else "")
      else "Chat Conversation"
  | None => "Chat Conversation"
  end.

Definition roleString (r : Role) : string :=
  match r with RoleUser => "user" | RoleModel => "model" end.

Definition partText (p : Part) : string :=
  match p with TextPart t => t | InlineData _ _ => "" end.

Definition conversationContextOf (historyForTitle : list ChatMessageHistoryItem) : string :=
  let ctx := join LF (map (fun item =>
                 roleString (role item) +:+ ": " +:+ join "" (map partText (parts item)))
               historyForTitle) in
  if (1500 <? String.length ctx)%nat
  then "..." +:+ substring (String.length ctx - 1500) ctx
  else ctx.

Definition titlePromptOf (conversationContext : string) : string :=
  "Based on the following conversation snippet, generate a concise and descriptive title (strictly 3-7 words long) that summarizes the main topic or theme. The title should sound like a podcast episode title. Do not include any prefixes like "
  +:+ String DQUOTE "Title:" +:+ String DQUOTE
  " or quotation marks around the title. Just provide the title itself."
  +:+ LF +:+ LF +:+ "Conversation:" +:+ LF +:+ conversationContext
  +:+ LF +:+ LF +:+ "Title:".

(** The clean-up of a non-blank response text; [None] when nothing is left
    ([!cleanTitle]). *)
Definition cleanTitleOf (responseText : string) : option string :=
  let cleanTitle := stripQuotes (trim responseText) in
  let cleanTitle :=
    if startsWith (toLowerCase cleanTitle) "title:"
    then trim (substring (String.length "title:") cleanTitle)
    else cleanTitle in
  let wordsInTitle := split SPACE cleanTitle in
  let cleanTitle :=
    if (7 <? length wordsInTitle)%nat
    then join " " (slice0 7 wordsInTitle) +:+ "..."
    else cleanTitle in
  if truthy cleanTitle then Some cleanTitle else None.

(* ================================================================== *)
(** * services/geminiService.ts: the SDK-backed gateway *)
(* ================================================================== *)

Module GeminiService.

Definition TITLE_GENERATION_MODEL_NAME : string := "gemini-2.5-flash".

(** [process.env]. *)
Record Env := { API_KEY : option string }.

Record GoogleGenAI := { apiKey : string }.

(** A chat created by [ai.chats.create]. *)
Record Chat := {
  chatModel : string;
  config : ChatConfig;
  history : list ChatMessageHistoryItem;
}.

(** The argument of [ai.models.generateContent]; the sampling temperature
    0.3 is kept in tenths. *)
Record GenerateContentParameters := {
  model : string;
  contents : string;
  temperatureTenths : Z;
  maxOutputTokens : Z;
}.

Record GenerateContentResponse := {
  blockReason : option string;        (* promptFeedback?.blockReason *)
  responseText : option string;       (* response.text *)
}.

(** Module state: the two module-level variables, and the calls made on
    the SDK client so far (sessions created, content requests sent). *)
Record Service := {
  ai : option GoogleGenAI;
  chatSessionInstance : option Chat;
  chatsCreated : list Chat;
  contentRequests : list GenerateContentParameters;
}.

Definition fresh : Service :=
  {| ai := None; chatSessionInstance := None; chatsCreated := []; contentRequests := [] |}.

(** Computations over the module state that may throw. *)
Definition M (A : Type) : Type := Service → outcome A * Service.

Definition ret {A} (a : A) : M A := fun s => (Return a, s).
Definition throw {A} (e : string) : M A := fun s => (Throw e, s).
Definition mbind {A B} (m : M A) (k : A → M B) : M B :=
  fun s => match m s with
           | (Return a, s') => k a s'
           | (Throw e, s') => (Throw e, s')
           end.
Definition catch {A} (m : M A) (h : string → M A) : M A :=
  fun s => match m s with
           | (Return a, s') => (Return a, s')
           | (Throw e, s') => h e s'
           end.

Declare Scope gateway_scope.
Delimit Scope gateway_scope with gateway.
Notation "'let*' x ':=' m 'in' k" := (mbind m (fun x => k))
  (at level 10, x name, m at level 100, k at level 200) : gateway_scope.
Notation "'do' m 'then' k" := (mbind m (fun _ => k))
  (at level 10, m at level 100, k at level 200) : gateway_scope.
Local Open Scope gateway_scope.

Definition hasKey (env : Env) : bool :=
  match API_KEY env with
  | Some k => truthy k
  | None => false
  end.

Definition initializeAI (env : Env) : M unit :=
  fun s =>
    match API_KEY env with
    | Some k =>
        if truthy k then
          match ai s with
          | Some _ => (Return (), s)
          | None =>
              (Return (),
               {| ai := Some {| apiKey := k |};
                  chatSessionInstance := chatSessionInstance s;
                  chatsCreated := chatsCreated s;
                  contentRequests := contentRequests s |})
          end
        else (Throw "API_KEY environment variable not set. Please ensure it is configured.", s)
    | None => (Throw "API_KEY environment variable not set. Please ensure it is configured.", s)
    end.

(** [ai.chats.create(...)]: a local operation of the client, recorded. *)
Definition chats_create (c : Chat) : M Chat :=
  fun s => (Return c,
            {| ai := ai s; chatSessionInstance := chatSessionInstance s;
               chatsCreated := chatsCreated s ++ [c];
               contentRequests := contentRequests s |}).

Definition setChatSessionInstance (c : option Chat) : M unit :=
  fun s => (Return (),
            {| ai := ai s; chatSessionInstance := c;
               chatsCreated := chatsCreated s;
               contentRequests := contentRequests s |}).

(** [await ai.models.generateContent(...)]: the request is recorded and
    the backend answers or the call throws. *)
Definition models_generateContent
    (backend : GenerateContentParameters → outcome GenerateContentResponse)
    (p : GenerateContentParameters) : M GenerateContentResponse :=
  fun s => (backend p,
            {| ai := ai s; chatSessionInstance := chatSessionInstance s;
               chatsCreated := chatsCreated s;
               contentRequests := contentRequests s ++ [p] |}).

(** The thinking configuration is set when the model used is
    gemini-2.5-flash and the budget is not [undefined]: it then holds the
    budget given. *)
Definition initializeChatSession (env : Env) (modelName : string)
    (history : option (list ChatMessageHistoryItem))
    (thinkingBudgetUiValue : option Z) : M Chat :=
  do initializeAI env then
  let friendlyModelName := getFriendlyModelName modelName in
  let currentModelToUse :=
    if listIncludes AVAILABLE_CHAT_MODELS modelName then modelName else DEFAULT_CHAT_MODEL in
  let chatConfig :=
    {| systemInstruction := chatSystemInstruction friendlyModelName;
       thinkingConfig :=
         if String.eqb currentModelToUse "gemini-2.5-flash"
         then thinkingBudgetUiValue else None |} in
  let* c := chats_create {| chatModel := currentModelToUse; config := chatConfig;
                            history := default [] history |} in
  do setChatSessionInstance (Some c) then
  ret c.

Definition resetChatSession : M unit := setChatSessionInstance None.

(** The session [initializeChatSession] creates. *)
Definition sessionFor (modelName : string) (history : option (list ChatMessageHistoryItem))
    (budget : option Z) : Chat :=
  let used := if listIncludes AVAILABLE_CHAT_MODELS modelName
              then modelName else DEFAULT_CHAT_MODEL in
  {| chatModel := used;
     config := {| systemInstruction := chatSystemInstruction (getFriendlyModelName modelName);
                  thinkingConfig := if String.eqb used "gemini-2.5-flash"
                                    then budget else None |};
     history := default [] history |}.


Definition titleRequest (titlePrompt : string) : GenerateContentParameters :=
  {| model := TITLE_GENERATION_MODEL_NAME; contents := titlePrompt;
     temperatureTenths := 3; maxOutputTokens := 60 |}.

(** What [generateChatTitleWithAI] returns for a response of the backend. *)
Definition titleFromResponse (chatMessages : list ChatMessageContent)
    (response : GenerateContentResponse) : string :=
  if truthy (default "" (blockReason response))
  then generateFallbackTitle chatMessages
  else match responseText response with
       | Some responseText =>
           if truthy (trim responseText) then
             match cleanTitleOf responseText with
             | Some cleanTitle => cleanTitle
             | None => generateFallbackTitle chatMessages
             end
           else generateFallbackTitle chatMessages
       | None => generateFallbackTitle chatMessages
       end.

Definition generateChatTitleWithAI (env : Env)
    (backend : GenerateContentParameters → outcome GenerateContentResponse)
    (chatMessages : option (list ChatMessageContent))
    (initialWelcomeTextBase : string) : M string :=
  do initializeAI env then
  match chatMessages with
  | None | Some [] => ret "New Chat"
  | Some chatMessages =>
      let historyForTitle :=
        mapAppMessagesToGeminiHistoryForTitle chatMessages initialWelcomeTextBase in
      if (length historyForTitle =? 0)%nat
      then ret (generateFallbackTitle chatMessages)
      else
        let titlePrompt := titlePromptOf (conversationContextOf historyForTitle) in
        catch
          (let* response := models_generateContent backend (titleRequest titlePrompt) in
           ret (titleFromResponse chatMessages response))
          (fun _ => ret (generateFallbackTitle chatMessages))
  end.

End GeminiService.

(* ================================================================== *)
(** * The proxy-backed gateway: request built by [sendMessageToChatStream] *)
(* ================================================================== *)

Module ProxyService.

(** Body of the POST to [/api/proxy] for a chat turn. *)
Record ChatPayload := {
  history : list ChatMessageHistoryItem;
  messageParts : list Part;
  model : string;
  config : ChatConfig;
}.

(** [sendMessageToChatStream(message, history, model, thinkingBudget)] up
    to the [fetch]: the payload of the request of type [chat].  The budget
    is tested against [undefined], hence the [option]. *)
Definition chatPayload (message : string + list Part)
    (history : list ChatMessageHistoryItem) (model : string)
    (thinkingBudget : option Z) : ChatPayload :=
  let friendlyModelName := getFriendlyModelName model in
  let chatConfig :=
    {| systemInstruction := chatSystemInstruction friendlyModelName;
       thinkingConfig :=
         if String.eqb model "gemini-2.5-flash" then thinkingBudget else None |} in
  let partsForMessage :=
    match message with
    | inl s => [TextPart s]
    | inr ps => ps
    end in
  {| history := history; messageParts := partsForMessage;
     model := model; config := chatConfig |}.

End ProxyService.

(* ================================================================== *)
(** * App: settings, conversation store and the chat turn *)
(* ================================================================== *)

Module App.

Definition INITIAL_AI_WELCOME_TEXT_BASE : string := "Hello! I'm NeuraMorphosis AI.".

Definition createAppInitialWelcomeText (modelIdForWelcome : string) : string :=
  INITIAL_AI_WELCOME_TEXT_BASE +:+ " You are currently the '"
  +:+ getFriendlyModelName modelIdForWelcome
  +:+ "' model. How can I help you today? You can use **Markdown** for *formatting*! "
  +:+ LF +:+ LF +:+ "I am a text-based assistant.".

(** [Date.now()] is the argument [now]. *)
Definition createNewWelcomeMessage (now : N) (modelIdForWelcome : string) : ChatMessageContent :=
  {| id := "ai-welcome-" +:+ pretty now;
     text := createAppInitialWelcomeText modelIdForWelcome;
     sender := AI; isStreaming := Some false; isError := None;
     thinkingDetails := None |}.

Definition isWelcome (msg : ChatMessageContent) : bool :=
  Sender_eqb (sender msg) AI && startsWith (text msg) INITIAL_AI_WELCOME_TEXT_BASE.

Definition mapMessagesToGeminiHistory (msgs : list ChatMessageContent)
    : list ChatMessageHistoryItem :=
  flat_map (fun msg =>
    if isWelcome msg then []
    else if negb (truthy (trim (text msg))) then []
    else [{| role := roleOf (sender msg); parts := [TextPart (text msg)] |}]) msgs.

Definition TITLE_UPDATE_MESSAGE_THRESHOLD : nat := 3.

Record ChatContextForTitleUpdate := {
  ctxId : string;
  isNew : bool;
  messagesForContext : list ChatMessageContent;
}.

Definition DEFAULT_TARGET_LANGUAGE : string := "none".

(** The six settings held in component state. *)
Record Settings := {
  baseTheme : string;
  accentTheme : string;
  customCSS : string;
  targetLanguage : string;
  thinkingBudget : Z;
  currentChatModel : string;
}.

(** Component state of [App] (the settings apart) and its refs. *)
Record AppState := {
  messages : list ChatMessageContent;
  isLoading : bool;
  error : option string;
  isSidebarOpen : bool;
  currentView : AppView;
  textToSummarizeForEditor : option string;
  currentChatId : option string;
  allChats : list StoredChat.t;
  settings : Settings;
  appInitialWelcomeTextRef : string;
  titleUpdateQueue : option ChatContextForTitleUpdate;
  titleUpdateTimeout : bool;
}.

(** One call of a state setter (or one write to a ref), as queued by a
    handler.  The updater given to [setAllChats] may schedule a title
    update while it runs: [effect] is that side effect, computed from the
    chats the updater receives. *)
Inductive Update :=
| SetMessages (f : list ChatMessageContent → list ChatMessageContent)
| SetAllChats (f : list StoredChat.t → list StoredChat.t)
              (effect : list StoredChat.t → option ChatContextForTitleUpdate)
| SetIsLoading (b : bool)
| SetError (e : option string)
| SetCurrentView (v : AppView)
| SetCurrentChatId (c : option string)
| SetIsSidebarOpen (b : bool)
| SetTextToSummarizeForEditor (t : option string)
| SetWelcomeTextRef (t : string)
| ArmTitleUpdate (job : option ChatContextForTitleUpdate).

Definition withMessages (v : list ChatMessageContent) (s : AppState) : AppState :=
  {| messages := v; isLoading := isLoading s; error := error s;
     isSidebarOpen := isSidebarOpen s; currentView := currentView s;
     textToSummarizeForEditor := textToSummarizeForEditor s;
     currentChatId := currentChatId s; allChats := allChats s;
     settings := settings s;
     appInitialWelcomeTextRef := appInitialWelcomeTextRef s;
     titleUpdateQueue := titleUpdateQueue s;
     titleUpdateTimeout := titleUpdateTimeout s |}.

Definition withAllChats (v : list StoredChat.t) (s : AppState) : AppState :=
  {| messages := messages s; isLoading := isLoading s; error := error s;
     isSidebarOpen := isSidebarOpen s; currentView := currentView s;
     textToSummarizeForEditor := textToSummarizeForEditor s;
     currentChatId := currentChatId s; allChats := v;
     settings := settings s;
     appInitialWelcomeTextRef := appInitialWelcomeTextRef s;
     titleUpdateQueue := titleUpdateQueue s;
     titleUpdateTimeout := titleUpdateTimeout s |}.

Definition withTitleJob (job : option ChatContextForTitleUpdate) (s : AppState) : AppState :=
  match job with
  | None => s
  | Some j =>
      {| messages := messages s; isLoading := isLoading s; error := error s;
         isSidebarOpen := isSidebarOpen s; currentView := currentView s;
         textToSummarizeForEditor := textToSummarizeForEditor s;
         currentChatId := currentChatId s; allChats := allChats s;
         settings := settings s;
         appInitialWelcomeTextRef := appInitialWelcomeTextRef s;
         titleUpdateQueue := Some j;
         titleUpdateTimeout := true |}
  end.

Definition applyUpdate (u : Update) (s : AppState) : AppState :=
  match u with
  | SetMessages f => withMessages (f (messages s)) s
  | SetAllChats f effect =>
      withTitleJob (effect (allChats s)) (withAllChats (f (allChats s)) s)
  | SetIsLoading b =>
      {| messages := messages s; isLoading := b; error := error s;
         isSidebarOpen := isSidebarOpen s; currentView := currentView s;
         textToSummarizeForEditor := textToSummarizeForEditor s;
         currentChatId := currentChatId s; allChats := allChats s;
         settings := settings s;
         appInitialWelcomeTextRef := appInitialWelcomeTextRef s;
         titleUpdateQueue := titleUpdateQueue s;
         titleUpdateTimeout := titleUpdateTimeout s |}
  | SetError e =>
      {| messages := messages s; isLoading := isLoading s; error := e;
         isSidebarOpen := isSidebarOpen s; currentView := currentView s;
         textToSummarizeForEditor := textToSummarizeForEditor s;
         currentChatId := currentChatId s; allChats := allChats s;
         settings := settings s;
         appInitialWelcomeTextRef := appInitialWelcomeTextRef s;
         titleUpdateQueue := titleUpdateQueue s;
         titleUpdateTimeout := titleUpdateTimeout s |}
  | SetCurrentView v =>
      {| messages := messages s; isLoading := isLoading s; error := error s;
         isSidebarOpen := isSidebarOpen s; currentView := v;
         textToSummarizeForEditor := textToSummarizeForEditor s;
         currentChatId := currentChatId s; allChats := allChats s;
         settings := settings s;
         appInitialWelcomeTextRef := appInitialWelcomeTextRef s;
         titleUpdateQueue := titleUpdateQueue s;
         titleUpdateTimeout := titleUpdateTimeout s |}
  | SetCurrentChatId c =>
      {| messages := messages s; isLoading := isLoading s; error := error s;
         isSidebarOpen := isSidebarOpen s; currentView := currentView s;
         textToSummarizeForEditor := textToSummarizeForEditor s;
         currentChatId := c; allChats := allChats s;
         settings := settings s;
         appInitialWelcomeTextRef := appInitialWelcomeTextRef s;
         titleUpdateQueue := titleUpdateQueue s;
         titleUpdateTimeout := titleUpdateTimeout s |}
  | SetIsSidebarOpen b =>
      {| messages := messages s; isLoading := isLoading s; error := error s;
         isSidebarOpen := b; currentView := currentView s;
         textToSummarizeForEditor := textToSummarizeForEditor s;
         currentChatId := currentChatId s; allChats := allChats s;
         settings := settings s;
         appInitialWelcomeTextRef := appInitialWelcomeTextRef s;
         titleUpdateQueue := titleUpdateQueue s;
         titleUpdateTimeout := titleUpdateTimeout s |}
  | SetTextToSummarizeForEditor t =>
      {| messages := messages s; isLoading := isLoading s; error := error s;
         isSidebarOpen := isSidebarOpen s; currentView := currentView s;
         textToSummarizeForEditor := t;
         currentChatId := currentChatId s; allChats := allChats s;
         settings := settings s;
         appInitialWelcomeTextRef := appInitialWelcomeTextRef s;
         titleUpdateQueue := titleUpdateQueue s;
         titleUpdateTimeout := titleUpdateTimeout s |}
  | SetWelcomeTextRef t =>
      {| messages := messages s; isLoading := isLoading s; error := error s;
         isSidebarOpen := isSidebarOpen s; currentView := currentView s;
         textToSummarizeForEditor := textToSummarizeForEditor s;
         currentChatId := currentChatId s; allChats := allChats s;
         settings := settings s;
         appInitialWelcomeTextRef := t;
         titleUpdateQueue := titleUpdateQueue s;
         titleUpdateTimeout := titleUpdateTimeout s |}
  | ArmTitleUpdate job => withTitleJob job s
  end.

(** The queued updates are applied in the order of the calls. *)
Definition commit (us : list Update) (s : AppState) : AppState :=
  fold_left (fun acc u => applyUpdate u acc) us s.

(** [isEffectivelyNewChat] *)
Definition isEffectivelyNewChat (s : AppState) : bool :=
  (length (messages s) <=? 1)%nat
  && match messages s with
     | [] => true
     | m :: _ => isWelcome m
     end
  && negb (isLoading s).

(** [id] is a conversation id equal to the (possibly null) current one. *)
Definition isCurrent (current : option string) (chatIdToUpdate : string) : bool :=
  match current with
  | Some c => String.eqb chatIdToUpdate c
  | None => false
  end.

(** [if (currentChatId)]: neither null nor empty. *)
Definition truthyId (current : option string) : option string :=
  match current with
  | Some c => if truthy c then Some c else None
  | None => None
  end.

Definition findChat (chatId : string) (chats : list StoredChat.t) : option StoredChat.t :=
  List.find (fun c => String.eqb (StoredChat.id c) chatId) chats.

(** [scheduleTitleUpdate], as captured by the render [r]: the job queued,
    if any. *)
Definition scheduleTitleUpdate (r : AppState) (chatIdToUpdate : string) (isNewChat : bool)
    : option ChatContextForTitleUpdate :=
  let messagesForContext :=
    if isCurrent (currentChatId r) chatIdToUpdate then messages r
    else match findChat chatIdToUpdate (allChats r) with
         | Some c => StoredChat.messages c
         | None => []
         end in
  if (length messagesForContext =? 0)%nat && negb isNewChat then None
  else Some {| ctxId := chatIdToUpdate; isNew := isNewChat;
               messagesForContext := messagesForContext |}.

(** [startNewChat]; [now] and [nowWelcome] are the two readings of
    [Date.now()] and [iso] is [new Date().toISOString()]. *)
Definition startNewChat (now nowWelcome : N) (iso : string) (r : AppState) : list Update :=
  let newChatId := "chat-" +:+ pretty now in
  let model := currentChatModel (settings r) in
  let welcomeMessage := createNewWelcomeMessage nowWelcome model in
  let newChat :=
    {| StoredChat.id := newChatId; StoredChat.title := "New Chat";
       StoredChat.createdAt := iso; StoredChat.messages := [welcomeMessage];
       StoredChat.aiMessagesSinceLastTitleUpdate := Some 0 |} in
  [ SetWelcomeTextRef (createAppInitialWelcomeText model);
    SetMessages (fun _ => [welcomeMessage]);
    SetCurrentChatId (Some newChatId);
    SetAllChats (fun prev =>
                   newChat :: List.filter (fun c => negb (String.eqb (StoredChat.id c) newChatId)) prev)
                (fun _ => None);
    SetError None;
    SetIsLoading false;
    SetCurrentView ViewChat;
    SetTextToSummarizeForEditor None ]
  ++ (if isSidebarOpen r then [SetIsSidebarOpen false] else []).

(** [switchChat] *)
Definition switchChat (chatId : string) (r : AppState) : list Update :=
  match findChat chatId (allChats r) with
  | Some chatToLoad =>
      [ SetMessages (fun _ => StoredChat.messages chatToLoad);
        SetCurrentChatId (Some chatId);
        SetWelcomeTextRef
          (match StoredChat.messages chatToLoad with
           | m :: _ => if isWelcome m then text m
                       else createAppInitialWelcomeText (currentChatModel (settings r))
           | [] => createAppInitialWelcomeText (currentChatModel (settings r))
           end);
        SetError None;
        SetIsLoading false;
        SetIsSidebarOpen false;
        SetCurrentView ViewChat;
        SetTextToSummarizeForEditor None ]
  | None => []
  end.

(** What one call of [handleSendMessage] keeps in its closure: the render
    it was created in, and the constants it computes before the stream is
    opened. *)
Record Turn := {
  render : AppState;
  userMessage : ChatMessageContent;
  updatedMessagesWithUser : list ChatMessageContent;
  aiResponseId : string;
  thinkingDetailsForMessage : option ThinkingDetails;
  request : ProxyService.ChatPayload;
}.

(** [prev.map(msg => msg.id === aiResponseId ? f(msg) : msg)] *)
Definition patchMessage (aiResponseId : string) (f : ChatMessageContent → ChatMessageContent)
    (prev : list ChatMessageContent) : list ChatMessageContent :=
  map (fun msg => if String.eqb (id msg) aiResponseId then f msg else msg) prev.

Definition storeMessages (chatId : string) (msgs : list ChatMessageContent)
    (prevChats : list StoredChat.t) : list StoredChat.t :=
  map (fun chat =>
         if String.eqb (StoredChat.id chat) chatId then
           {| StoredChat.id := StoredChat.id chat; StoredChat.title := StoredChat.title chat;
              StoredChat.createdAt := StoredChat.createdAt chat;
              StoredChat.messages := msgs;
              StoredChat.aiMessagesSinceLastTitleUpdate :=
                StoredChat.aiMessagesSinceLastTitleUpdate chat |}
         else chat) prevChats.

(** The constants [handleSendMessage] computes before it opens the
    stream.  [nowUser] and [nowAi] are the two readings of [Date.now()]. *)
Definition turnOf (inputText : string) (nowUser nowAi : N) (r : AppState) : Turn :=
  let userMessage :=
    {| id := "user-" +:+ pretty nowUser; text := inputText; sender := User;
       isStreaming := None; isError := None; thinkingDetails := None |} in
  let baseMessagesForThisTurn := if isEffectivelyNewChat r then [] else messages r in
  let updatedMessagesWithUser := baseMessagesForThisTurn ++ [userMessage] in
  let model := currentChatModel (settings r) in
  let budget := thinkingBudget (settings r) in
  let thinkingDetailsForMessage :=
    if listIncludes THINKING_CONFIG_SUPPORTED_MODELS model
    then Some {| enabled := (0 <? budget)%Z; budget := Some budget;
                 modelUsed := Some model; reasoningSupportedByModel := true |}
    else None in
  let historyForChatApi := mapMessagesToGeminiHistory updatedMessagesWithUser in
  {| render := r; userMessage := userMessage;
     updatedMessagesWithUser := updatedMessagesWithUser;
     aiResponseId := "ai-" +:+ pretty nowAi;
     thinkingDetailsForMessage := thinkingDetailsForMessage;
     request := ProxyService.chatPayload (inl inputText) (dropLast historyForChatApi)
                  model (Some budget) |}.

(** The assistant message appended before the stream is opened. *)
Definition placeholder (t : Turn) : ChatMessageContent :=
  {| id := aiResponseId t; text := ""; sender := AI; isStreaming := Some true;
     isError := None; thinkingDetails := thinkingDetailsForMessage t |}.

(** The updates queued by [handleSendMessage] before the stream is opened. *)
Definition beginUpdates (t : Turn) : list Update :=
  let r := render t in
  [ SetError None; SetIsLoading true; SetCurrentView ViewChat;
    SetMessages (fun _ => updatedMessagesWithUser t) ]
  ++ match truthyId (currentChatId r) with
     | Some cid =>
         SetAllChats (storeMessages cid (updatedMessagesWithUser t)) (fun _ => None)
         :: (if isEffectivelyNewChat r
             then [ArmTitleUpdate (scheduleTitleUpdate r cid true)] else [])
     | None => []
     end
  ++ [ SetMessages (fun prev => prev ++ [placeholder t]) ].

(** [handleSendMessage] up to the opening of the stream.  [None]: the
    guard returned at once. *)
Definition beginTurn (inputText : string) (nowUser nowAi : N) (r : AppState)
    : option (Turn * list Update) :=
  if negb (truthy (trim inputText)) || isLoading r then None
  else let t := turnOf inputText nowUser nowAi r in Some (t, beginUpdates t).

Definition withText (t : string) (msg : ChatMessageContent) : ChatMessageContent :=
  {| id := id msg; text := t; sender := sender msg; isStreaming := isStreaming msg;
     isError := isError msg; thinkingDetails := thinkingDetails msg |}.

(** Body of [for await (const chunk of stream)]: the new value of
    [accumulatedRegularText] and the update queued. *)
Definition onChunk (t : Turn) (accumulatedRegularText textContent : string)
    : string * list Update :=
  if truthy textContent then
    let acc := accumulatedRegularText +:+ textContent in
    (acc, [SetMessages (patchMessage (aiResponseId t) (withText acc))])
  else (accumulatedRegularText, []).

(** The [finally] block. *)
Definition finallyBlock (t : Turn) (accumulatedRegularText : string) : list Update :=
  [SetMessages (patchMessage (aiResponseId t) (fun msg =>
     {| id := id msg; text := accumulatedRegularText; sender := sender msg;
        isStreaming := Some false; isError := isError msg;
        thinkingDetails := thinkingDetails msg |}))].

Definition errorMessageOf (e : string) : string :=
  "Error: " +:+ or_else e "Failed to get response from AI.".

(** The [catch] block, which returns, and the [finally] block that runs
    before the function is left. *)
Definition onStreamError (t : Turn) (accumulatedRegularText e : string) : list Update :=
  let errorMessage := errorMessageOf e in
  [ SetError (Some errorMessage);
    SetMessages (patchMessage (aiResponseId t) (fun msg =>
      {| id := id msg; text := errorMessage; sender := sender msg;
         isStreaming := Some false; isError := Some true;
         thinkingDetails := thinkingDetails msg |}));
    SetIsLoading false ]
  ++ finallyBlock t accumulatedRegularText.

Definition finalAiMessage (t : Turn) (accumulatedRegularText : string) : ChatMessageContent :=
  {| id := aiResponseId t; text := accumulatedRegularText; sender := AI;
     isStreaming := Some false; isError := None;
     thinkingDetails := thinkingDetailsForMessage t |}.

Definition finalMessagesForStorage (t : Turn) (accumulatedRegularText : string)
    : list ChatMessageContent :=
  List.filter (fun m => negb (String.eqb (id m) (aiResponseId t))) (updatedMessagesWithUser t)
  ++ [finalAiMessage t accumulatedRegularText].

Definition newAiMessageCount (chat : StoredChat.t) : nat :=
  default 0 (StoredChat.aiMessagesSinceLastTitleUpdate chat) + 1.

(** The updater given to [setAllChats] when the stream has ended. *)
Definition finalizeChats (t : Turn) (cid : string) (accumulatedRegularText : string)
    (prevChats : list StoredChat.t) : list StoredChat.t :=
  map (fun chat =>
         if String.eqb (StoredChat.id chat) cid then
           {| StoredChat.id := StoredChat.id chat; StoredChat.title := StoredChat.title chat;
              StoredChat.createdAt := StoredChat.createdAt chat;
              StoredChat.messages := finalMessagesForStorage t accumulatedRegularText;
              StoredChat.aiMessagesSinceLastTitleUpdate := Some (newAiMessageCount chat) |}
         else chat) prevChats.

(** The title update that updater schedules while it runs. *)
Definition finalizeSchedules (t : Turn) (cid : string) (prevChats : list StoredChat.t)
    : option ChatContextForTitleUpdate :=
  if existsb (fun chat =>
                String.eqb (StoredChat.id chat) cid
                && (TITLE_UPDATE_MESSAGE_THRESHOLD <=? newAiMessageCount chat)%nat
                && negb (String.eqb (StoredChat.title chat) "New Chat")) prevChats
  then scheduleTitleUpdate (render t) cid false
  else None.

(** Normal end of the stream: the [finally] block, then the rest of
    [handleSendMessage]. *)
Definition onStreamEnd (t : Turn) (accumulatedRegularText : string) : list Update :=
  finallyBlock t accumulatedRegularText
  ++ [ SetMessages (patchMessage (aiResponseId t)
                      (fun _ => finalAiMessage t accumulatedRegularText)) ]
  ++ match truthyId (currentChatId (render t)) with
     | Some cid => [ SetAllChats (finalizeChats t cid accumulatedRegularText)
                                 (finalizeSchedules t cid) ]
     | None => []
     end
  ++ [ SetIsLoading false ].

(** Things that happen while a stream is open: a chunk arrives, or the
    user switches to another conversation or starts a new one. *)
Inductive Event :=
| Chunk (textContent : string)
| SwitchChat (chatId : string)
| NewChat (now nowWelcome : N) (iso : string).

(** A turn in flight: the local [accumulatedRegularText] and the state. *)
Definition InFlight : Type := string * AppState.

Definition step (t : Turn) (c : InFlight) (ev : Event) : InFlight :=
  match ev with
  | Chunk textContent =>
      let '(acc, us) := onChunk t (fst c) textContent in (acc, commit us (snd c))
  | SwitchChat chatId => (fst c, commit (switchChat chatId (snd c)) (snd c))
  | NewChat now nowWelcome iso =>
      (fst c, commit (startNewChat now nowWelcome iso (snd c)) (snd c))
  end.

Definition during (t : Turn) (evs : list Event) (c : InFlight) : InFlight :=
  fold_left (step t) evs c.

Definition streamEnds (t : Turn) (c : InFlight) : AppState :=
  commit (onStreamEnd t (fst c)) (snd c).

Definition streamFails (t : Turn) (e : string) (c : InFlight) : AppState :=
  commit (onStreamError t (fst c) e) (snd c).

(** The updates one stream makes [handleSendMessage] queue after the
    stream is opened, in order. *)
Fixpoint chunkUpdates (t : Turn) (acc : string) (chunks : list string)
    : string * list Update :=
  match chunks with
  | [] => (acc, [])
  | c :: rest =>
      let '(acc1, us1) := onChunk t acc c in
      let '(acc2, us2) := chunkUpdates t acc1 rest in
      (acc2, us1 ++ us2)
  end.

Definition streamUpdates (t : Turn) (stream : Stream) : list Update :=
  let '(acc, us) := chunkUpdates t "" (delivered stream) in
  us ++ match failure stream with
        | None => onStreamEnd t acc
        | Some e => onStreamError t acc e
        end.

(** A whole call of [handleSendMessage] with nothing else happening. *)
Definition handleSendMessage (inputText : string) (nowUser nowAi : N)
    (stream : Stream) (s : AppState) : AppState :=
  match beginTurn inputText nowUser nowAi s with
  | None => s
  | Some (t, us) => commit (streamUpdates t stream) (commit us s)
  end.

(** The assistant message of the turn is the last displayed message; its
    text and streaming flag after each [setMessages] of a list of updates. *)
Definition lastMessage (s : AppState) : option ChatMessageContent := last (messages s).

Fixpoint messageUpdates (us : list Update) (s : AppState)
    : list (option ChatMessageContent) :=
  match us with
  | [] => []
  | u :: rest =>
      let s' := applyUpdate u s in
      match u with
      | SetMessages _ => lastMessage s' :: messageUpdates rest s'
      | _ => messageUpdates rest s'
      end
  end.

(** ** Settings and their persistence *)

Import LocalStorage.

(** The [useState] initialisers. *)
Definition initialSettings (ls : Storage) : outcome Settings :=
  bind (loadBaseTheme ls) (fun bt =>
  bind (loadAccentTheme ls) (fun act =>
  bind (loadCustomCSS ls) (fun css =>
  bind (loadTargetLanguage ls) (fun tl =>
  Return {| baseTheme := or_default bt "dark";
            accentTheme := or_default act "default";
            customCSS := css;
            targetLanguage := or_default tl DEFAULT_TARGET_LANGUAGE;
            thinkingBudget := 0;
            currentChatModel := DEFAULT_CHAT_MODEL |})))).

Definition Session : Type := Settings * Storage.

(** Mounting the component: the initialisers, then the two theme effects. *)
Definition mount (ls : Storage) : outcome Session :=
  bind (initialSettings ls) (fun p =>
  bind (saveBaseTheme (baseTheme p) ls) (fun ls =>
  bind (saveAccentTheme (accentTheme p) ls) (fun ls =>
  Return (p, ls)))).

(** [setBaseTheme] and the effect that depends on [baseTheme]. *)
Definition setBaseTheme (v : string) (c : Session) : outcome Session :=
  let p := fst c in
  bind (saveBaseTheme v (snd c)) (fun ls =>
  Return ({| baseTheme := v; accentTheme := accentTheme p; customCSS := customCSS p;
             targetLanguage := targetLanguage p; thinkingBudget := thinkingBudget p;
             currentChatModel := currentChatModel p |}, ls)).

(** [setAccentTheme] and the effect that depends on [accentTheme]. *)
Definition setAccentTheme (v : string) (c : Session) : outcome Session :=
  let p := fst c in
  bind (saveAccentTheme v (snd c)) (fun ls =>
  Return ({| baseTheme := baseTheme p; accentTheme := v; customCSS := customCSS p;
             targetLanguage := targetLanguage p; thinkingBudget := thinkingBudget p;
             currentChatModel := currentChatModel p |}, ls)).

Definition setAndSaveCustomCSS (css : string) (c : Session) : outcome Session :=
  let p := fst c in
  bind (saveCustomCSS css (snd c)) (fun ls =>
  Return ({| baseTheme := baseTheme p; accentTheme := accentTheme p; customCSS := css;
             targetLanguage := targetLanguage p; thinkingBudget := thinkingBudget p;
             currentChatModel := currentChatModel p |}, ls)).

Definition setAndSaveTargetLanguage (langCode : string) (c : Session) : outcome Session :=
  let p := fst c in
  bind (saveTargetLanguage langCode (snd c)) (fun ls =>
  Return ({| baseTheme := baseTheme p; accentTheme := accentTheme p; customCSS := customCSS p;
             targetLanguage := langCode; thinkingBudget := thinkingBudget p;
             currentChatModel := currentChatModel p |}, ls)).



(** Closing the tab and opening the application again on the same storage. *)
Definition reload (c : Session) : outcome Session := mount (snd c).

End App.

(* ================================================================== *)
(** * Concrete inputs and the properties under study *)
(* ================================================================== *)

Module Sample.

Import App.

Definition userSays (i t : string) : ChatMessageContent :=
  {| id := i; text := t; sender := User; isStreaming := None; isError := None;
     thinkingDetails := None |}.

Definition aiSays (i t : string) : ChatMessageContent :=
  {| id := i; text := t; sender := AI; isStreaming := Some false; isError := None;
     thinkingDetails := None |}.

Definition defaults : Settings :=
  {| baseTheme := "dark"; accentTheme := "default"; customCSS := "";
     targetLanguage := "none"; thinkingBudget := 0;
     currentChatModel := DEFAULT_CHAT_MODEL |}.

(** Conversation A: opened earlier, one exchange so far. *)
Definition chatA : StoredChat.t :=
  {| StoredChat.id := "chat-100"; StoredChat.title := "Greetings";
     StoredChat.createdAt := "2025-01-01T00:00:00.000Z";
     StoredChat.messages := [userSays "user-101" "Hi"; aiSays "ai-102" "Hello there"];
     StoredChat.aiMessagesSinceLastTitleUpdate := Some 1 |}.

(** Conversation B. *)
Definition chatB : StoredChat.t :=
  {| StoredChat.id := "chat-50"; StoredChat.title := "Rome";
     StoredChat.createdAt := "2024-12-31T00:00:00.000Z";
     StoredChat.messages := [userSays "user-51" "Plan my trip to Rome";
                             aiSays "ai-52" "Gladly."];
     StoredChat.aiMessagesSinceLastTitleUpdate := Some 1 |}.

(** The application showing conversation A, idle. *)
Definition showingA : AppState :=
  {| messages := StoredChat.messages chatA; isLoading := false; error := None;
     isSidebarOpen := false; currentView := ViewChat;
     textToSummarizeForEditor := None;
     currentChatId := Some "chat-100"; allChats := [chatA; chatB];
     settings := defaults;
     appInitialWelcomeTextRef := createAppInitialWelcomeText DEFAULT_CHAT_MODEL;
     titleUpdateQueue := None; titleUpdateTimeout := false |}.

Definition helloDeltas : list string := ["Hel"; "lo "; "world"].

Definition splitMarkerDeltas : list string :=
  ["answer: [replace_summary_with_"; "new_text]" +:+ LF +:+ "New body"].

Definition emptyStorage : LocalStorage.Storage :=
  {| LocalStorage.items := ∅; LocalStorage.readable := true;
     LocalStorage.writable := true |}.

Definition withKey : GeminiService.Env := {| GeminiService.API_KEY := Some "k" |}.
Definition withoutKey : GeminiService.Env := {| GeminiService.API_KEY := None |}.

(** A backend on which every content request fails in transport. *)
Definition unreachable (_ : GeminiService.GenerateContentParameters)
    : outcome GeminiService.GenerateContentResponse := Throw "fetch failed".

Definition romeChat : list ChatMessageContent :=
  [userSays "user-51" "Plan my trip to Rome"].

(** The user asks something in conversation A: the turn, and the
    application once the stream is open. *)
Definition turnA : Turn := turnOf "Say hello" 201 202 showingA.
Definition streamingA : AppState := commit (beginUpdates turnA) showingA.

End Sample.

(** Notions used to state how a turn proceeds. *)
Module Trace.

Import App.

(** The displayed list ends with message [m]. *)
Definition endsWith (s : AppState) (m : ChatMessageContent) : Prop :=
  ∃ l, messages s = l ++ [m].

(** The values [accumulatedRegularText] takes, one per non-empty chunk. *)
Fixpoint accumulations (acc : string) (chunks : list string) : list string :=
  match chunks with
  | [] => []
  | c :: rest =>
      if truthy c then (acc +:+ c) :: accumulations (acc +:+ c) rest
      else accumulations acc rest
  end.

(** [m'] is [m] with possibly another text. *)
Definition sameButText (m m' : ChatMessageContent) : Prop :=
  id m' = id m ∧ sender m' = sender m ∧ isStreaming m' = isStreaming m
  ∧ isError m' = isError m ∧ thinkingDetails m' = thinkingDetails m.



End Trace.

(** The properties as the specification words them, for the places where
    the code is compared against them. *)
Module Stated.

Import App.

(** The messages stored for conversation [chatId]. *)
Definition storedMessages (chatId : string) (s : AppState)
    : option (list ChatMessageContent) :=
  StoredChat.messages <$> findChat chatId (allChats s).


(** The text and streaming flag of the assistant message after each
    update of the message list that a stream causes. *)
Definition view (m : option ChatMessageContent) : option (string * option bool) :=
  (fun m => (text m, isStreaming m)) <$> m.

Definition foldTrace (inputText : string) (nowUser nowAi : N) (stream : Stream)
    (s : AppState) : list (option (string * option bool)) :=
  match beginTurn inputText nowUser nowAi s with
  | Some (t, us) => map view (messageUpdates (streamUpdates t stream) (commit us s))
  | None => []
  end.

Definition isTerminal (v : option (string * option bool)) : bool :=
  match v with
  | Some (_, Some false) => true
  | _ => false
  end.

(** Exactly one update with [streaming = false]. *)
Definition exactlyOneTerminalUpdate (trace : list (option (string * option bool))) : Prop :=
  length (List.filter isTerminal trace) = 1.

(** Rebuilding the session a second time with the same arguments leaves
    the gateway exactly as the first call left it. *)
Definition rebuildIsNoOp (env : GeminiService.Env) (modelName : string)
    (history : option (list ChatMessageHistoryItem)) (budget : option Z)
    (s : GeminiService.Service) : Prop :=
  let once := snd (GeminiService.initializeChatSession env modelName history budget s) in
  snd (GeminiService.initializeChatSession env modelName history budget once) = once.

(** C6 as stated, on the SDK gateway: for a model name outside the
    thinking-supported set, no session created carries a thinking budget. *)
Definition budgetOmittedForName (env : GeminiService.Env) (modelName : string)
    (history : option (list ChatMessageHistoryItem)) (budget : option Z) : Prop :=
  listIncludes THINKING_CONFIG_SUPPORTED_MODELS modelName = false →
  Forall (fun c => thinkingConfig (GeminiService.config c) = None)
         (GeminiService.chatsCreated
            (snd (GeminiService.initializeChatSession env modelName history budget
                    GeminiService.fresh))).



(** The empty list yields "New Chat". *)
Definition emptyListYieldsNewChat (env : GeminiService.Env)
    (backend : GeminiService.GenerateContentParameters
               → outcome GeminiService.GenerateContentResponse)
    (s : GeminiService.Service) : Prop :=
  fst (GeminiService.generateChatTitleWithAI env backend (Some [])
         INITIAL_AI_WELCOME_TEXT_BASE s) = Return "New Chat".


Import LocalStorage.






End Stated.

(* ================================================================== *)
(** * Words *)
(* ================================================================== *)

Module Words.

(** A text without a space. *)
Fixpoint spaceFree (s : string) : bool :=
  match s with
  | "" => true
  | String c s' => negb (Ascii.eqb c SPACE) && spaceFree s'
  end.

(** The text of a title answer before the cut to seven words: trimmed,
    without one quote at either end, without a leading "title:". *)
Definition titleText (responseText : string) : string :=
  let cleanTitle := stripQuotes (trim responseText) in
  if startsWith (toLowerCase cleanTitle) "title:"
  then trim (substring (String.length "title:") cleanTitle)
  else cleanTitle.

(** The transcript of the history kept for the title, one line per item,
    before it is cut to its last 1500 characters. *)
Definition transcriptOf (historyForTitle : list ChatMessageHistoryItem) : string :=
  join LF (map (fun item =>
                  roleString (role item) +:+ ": " +:+ join "" (map partText (parts item)))
               historyForTitle).

End Words.

(* ================================================================== *)
(** * services/geminiService.ts: sending on the live session *)
(* ================================================================== *)

Module GeminiChat.

Import GeminiService.

(** The messages of the two errors the gateway throws by itself. *)
Definition notConfigured : string :=
  "API_KEY environment variable not set. Please ensure it is configured.".

Definition notActive : string :=
  "Chat session is not active. Please ensure the chat is properly initialized before sending messages.".

(** [sendMessageToChatStream] of the SDK gateway: it throws when no session
    is live; otherwise the stream is the one the live session opens for the
    message parts.  The call is identified by that session and those parts. *)
Definition sendMessageToChatStream (message : string + list Part) : M (Chat * list Part) :=
  fun s =>
    match chatSessionInstance s with
    | None =>
        (Throw "Chat session is not active. Please ensure the chat is properly initialized before sending messages.", s)
    | Some c =>
        let partsForMessage :=
          match message with
          | inl t => [TextPart t]
          | inr ps => ps
          end in
        (Return (c, partsForMessage), s)
    end.

End GeminiChat.

(* ================================================================== *)
(** * The proxy-backed gateway: titles and the chat stream *)
(* ================================================================== *)

Module ProxyGateway.

(** The body of a title answer of [/api/proxy] once parsed:
    [error] and [text], each possibly absent ([text] is [None] also when it
    is not a string). *)
Record TitleJson := {
  errorField : option string;
  textField : option string;
}.

(** What [fetch] resolves to for a title request; [json] is the outcome of
    [await apiResponse.json()]. *)
Record TitleResponse := {
  ok : bool;
  statusText : string;
  json : outcome TitleJson;
}.

(** [generateChatTitleWithAI] of the proxy gateway, run against what
    [fetch] does for the prompt posted: the title returned (or the error
    thrown), and the prompts posted. *)
Definition generateChatTitleWithAI (fetch : string → outcome TitleResponse)
    (chatMessages : option (list ChatMessageContent)) (initialWelcomeTextBase : string)
    : outcome string * list string :=
  match chatMessages with
  | None | Some [] => (Return "New Chat", [])
  | Some chatMessages =>
      let historyForTitle :=
        mapAppMessagesToGeminiHistoryForTitle chatMessages initialWelcomeTextBase in
      if (length historyForTitle =? 0)%nat
      then (Return (generateFallbackTitle chatMessages), [])
      else
        let titlePrompt := titlePromptOf (conversationContextOf historyForTitle) in
        (try_catch
           (bind (fetch titlePrompt) (fun apiResponse =>
              if negb (ok apiResponse) then
                bind (json apiResponse) (fun errorData =>
                  Throw (or_default (errorField errorData)
                           ("API Error: " +:+ statusText apiResponse)))
              else
                bind (json apiResponse) (fun body =>
                  match textField body with
                  | Some responseText =>
                      if truthy (trim responseText) then
                        match cleanTitleOf responseText with
                        | Some cleanTitle => Return cleanTitle
                        | None => Return (generateFallbackTitle chatMessages)
                        end
                      else Return (generateFallbackTitle chatMessages)
                  | None => Return (generateFallbackTitle chatMessages)
                  end)))
           (fun _ => Return (generateFallbackTitle chatMessages)),
         [titlePrompt])
  end.

(** What [fetch] resolves to for a chat request: [body] is absent or is
    the text chunks the reader yields, followed by the end of the body or by
    a read error; [errorJson] is the outcome of reading the [error] field of
    [await response.json()]. *)
Record ChatResponse := {
  chatOk : bool;
  status : N;
  body : option Stream;
  errorJson : outcome (option string);
}.

(** The error text of a refused chat request. *)
Definition errorTextOf (r : ChatResponse) : string :=
  let errorText := "API request failed with status " +:+ pretty (status r) in
  match errorJson r with
  | Return e => or_default e errorText
  | Throw _ => errorText
  end.

(** The generator [sendMessageToChatStream] as its consumer sees it, for
    what [fetch] does. *)
Definition sendMessageToChatStream (fetched : outcome ChatResponse) : Stream :=
  match fetched with
  | Throw e => {| delivered := []; failure := Some e |}
  | Return r =>
      match body r with
      | Some chunks => if chatOk r then chunks
                       else {| delivered := []; failure := Some (errorTextOf r) |}
      | None => {| delivered := []; failure := Some (errorTextOf r) |}
      end
  end.

(** A title request that does not succeed: [fetch] throws, the answer is
    not ok, or its body cannot be read. *)
Definition refused (fetch : string → outcome TitleResponse) : Prop :=
  ∀ p, match fetch p with
       | Throw _ => True
       | Return r => ok r = false ∨ ∃ e, json r = Throw e
       end.

End ProxyGateway.

(* ================================================================== *)
(** * SummarizationEditorPage: the summary itself *)
(* ================================================================== *)

Module Summarize.

(** Component state read or written by [handleSummarize]; [originalText]
    is a prop. *)
Record Page := {
  aiInstance : bool;
  originalText : string;
  displayText : string;
  isSummarizing : bool;
  summaryError : option string;
  isSummaryComplete : bool;
}.

Definition setDisplayText (t : string) (p : Page) : Page :=
  {| aiInstance := aiInstance p; originalText := originalText p; displayText := t;
     isSummarizing := isSummarizing p; summaryError := summaryError p;
     isSummaryComplete := isSummaryComplete p |}.

Definition setSummaryError (e : option string) (p : Page) : Page :=
  {| aiInstance := aiInstance p; originalText := originalText p;
     displayText := displayText p; isSummarizing := isSummarizing p;
     summaryError := e; isSummaryComplete := isSummaryComplete p |}.

Definition setIsSummarizing (b : bool) (p : Page) : Page :=
  {| aiInstance := aiInstance p; originalText := originalText p;
     displayText := displayText p; isSummarizing := b;
     summaryError := summaryError p; isSummaryComplete := isSummaryComplete p |}.

Definition setIsSummaryComplete (b : bool) (p : Page) : Page :=
  {| aiInstance := aiInstance p; originalText := originalText p;
     displayText := displayText p; isSummarizing := isSummarizing p;
     summaryError := summaryError p; isSummaryComplete := b |}.

(** The locals [firstChunkReceived] and [currentSummaryAccumulator]. *)
Definition Locals : Type := bool * string.

(** Body of [for await (const chunk of stream)]. *)
Definition summaryChunk (pl : Page * Locals) (chunkText : string) : Page * Locals :=
  let '(p, (firstChunkReceived, currentSummaryAccumulator)) := pl in
  if truthy chunkText then
    if negb firstChunkReceived
    then (setDisplayText chunkText p, (true, chunkText))
    else let acc := currentSummaryAccumulator +:+ chunkText in
         (setDisplayText acc p, (firstChunkReceived, acc))
  else pl.

Definition summaryFailed (e : string) : string :=
  "Summarization failed: " +:+ or_else e "Unknown error".

(** [handleSummarize] run against the stream the backend produces. *)
Definition handleSummarize (stream : Stream) (p : Page) : Page :=
  if negb (aiInstance p) || negb (truthy (trim (originalText p))) || isSummarizing p then
    if negb (truthy (trim (originalText p)))
    then setSummaryError (Some "Original text is empty, nothing to summarize.") p
    else if negb (aiInstance p)
         then setSummaryError (Some "AI service not initialized.") p
         else p
  else
    let p := setIsSummaryComplete false (setSummaryError None (setIsSummarizing true p)) in
    let '(p, (firstChunkReceived, acc)) :=
      fold_left summaryChunk (delivered stream) (p, (false, "")) in
    let p :=
      match failure stream with
      | None =>
          if negb firstChunkReceived && negb (truthy acc)
          then setSummaryError (Some "AI returned an empty summary.") (setDisplayText "" p)
          else p
      | Some e => setSummaryError (Some (summaryFailed e)) p
      end in
    setIsSummaryComplete true (setIsSummarizing false p).

End Summarize.

(* ================================================================== *)
(** * App: deleting conversations and refreshing titles *)
(* ================================================================== *)

Module Conversations.

Import App.

(** [deleteChat]; the clock readings are those of [startNewChat], which
    runs when the last conversation is deleted. *)
Definition deleteChat (chatIdToDelete : string) (now nowWelcome : N) (iso : string)
    (r : AppState) : list Update :=
  let updatedChats :=
    List.filter (fun c => negb (String.eqb (StoredChat.id c) chatIdToDelete)) (allChats r) in
  SetAllChats (fun _ => updatedChats) (fun _ => None)
  :: (if isCurrent (currentChatId r) chatIdToDelete
      then match updatedChats with
           | c :: _ => switchChat (StoredChat.id c) r
           | [] => startNewChat now nowWelcome iso r
           end
      else []).

(** The current conversation, if there is one, is in the store. *)
Definition currentInStore (s : AppState) : Prop :=
  match currentChatId s with
  | Some c => is_Some (findChat c (allChats s))
  | None => True
  end.

(** Updates that leave [currentChatId] alone. *)
Definition keepsCurrent (u : Update) : bool :=
  match u with
  | SetCurrentChatId _ => false
  | _ => true
  end.

(** [isTitleLoading] beside the rest of the component state. *)
Record TitleState := {
  app : AppState;
  isTitleLoading : bool;
}.

Definition clearTitleQueue (s : AppState) : AppState :=
  {| messages := messages s; isLoading := isLoading s; error := error s;
     isSidebarOpen := isSidebarOpen s; currentView := currentView s;
     textToSummarizeForEditor := textToSummarizeForEditor s;
     currentChatId := currentChatId s; allChats := allChats s;
     settings := settings s;
     appInitialWelcomeTextRef := appInitialWelcomeTextRef s;
     titleUpdateQueue := None;
     titleUpdateTimeout := titleUpdateTimeout s |}.

Definition retitle (chatId newTitle : string) (resetCount : bool)
    (prevChats : list StoredChat.t) : list StoredChat.t :=
  map (fun chat =>
         if String.eqb (StoredChat.id chat) chatId then
           {| StoredChat.id := StoredChat.id chat; StoredChat.title := newTitle;
              StoredChat.createdAt := StoredChat.createdAt chat;
              StoredChat.messages := StoredChat.messages chat;
              StoredChat.aiMessagesSinceLastTitleUpdate :=
                if resetCount then Some 0
                else StoredChat.aiMessagesSinceLastTitleUpdate chat |}
         else chat) prevChats.

(** [messagesForContext.some(m => m.sender === Sender.User && m.text.trim() !== "")] *)
Definition hasUserMessage (messagesForContext : list ChatMessageContent) : bool :=
  existsb (fun m => Sender_eqb (sender m) User && truthy (trim (text m))) messagesForContext.

(** The snapshot holds nothing, or only a welcome text. *)
Definition nothingToSummarize (messagesForContext : list ChatMessageContent) : bool :=
  match messagesForContext with
  | [] => true
  | [m] => startsWith (text m) INITIAL_AI_WELCOME_TEXT_BASE
  | _ => false
  end.

(** [processTitleUpdateQueue] as the timer runs it: [captured] is the
    [currentChatId] of the render that created the callback, [generate] is
    what awaiting [generateChatTitleWithAI] gives for a snapshot.  The
    result is the state afterwards and the snapshots for which
    [generateChatTitleWithAI] was called. *)
Definition processTitleUpdateQueue (captured : option string)
    (generate : list ChatMessageContent → string → outcome string)
    (ts : TitleState) : TitleState * list (list ChatMessageContent) :=
  match titleUpdateQueue (app ts) with
  | None => (ts, [])
  | Some job =>
      let s := clearTitleQueue (app ts) in
      if negb (isCurrent captured (ctxId job)) && negb (isNew job)
      then ({| app := s; isTitleLoading := isTitleLoading ts |}, [])
      else if negb (hasUserMessage (messagesForContext job))
              && nothingToSummarize (messagesForContext job)
      then ({| app := if isNew job
                      then withAllChats (retitle (ctxId job) "New Chat" false (allChats s)) s
                      else s;
               isTitleLoading := isTitleLoading ts |}, [])
      else
        (match generate (messagesForContext job) INITIAL_AI_WELCOME_TEXT_BASE with
         | Return newTitle =>
             {| app := withAllChats (retitle (ctxId job) newTitle true (allChats s)) s;
                isTitleLoading := false |}
         | Throw _ => {| app := s; isTitleLoading := false |}
         end, [messagesForContext job])
  end.

(** Every stored conversation with the current id has the title it was
    created with. *)
Definition untitled (s : AppState) : bool :=
  forallb (fun chat => negb (isCurrent (currentChatId s) (StoredChat.id chat))
                       || String.eqb (StoredChat.title chat) "New Chat") (allChats s).

(** Updates made by [setMessages]. *)
Definition isSetMessages (u : Update) : bool :=
  match u with
  | SetMessages _ => true
  | _ => false
  end.

End Conversations.

(* ================================================================== *)
(** * Opening the application on stored conversations *)
(* ================================================================== *)

Module Reopen.

Import App LocalStorage.

(** The storage after a successful [removeItem] of [k]. *)
Definition removed (k : string) (ls : Storage) : Storage :=
  {| items := delete k (items ls); readable := readable ls; writable := writable ls |}.

(** The body of the effect that runs on mount (and again when the model
    changes), given what [loadChats] and [loadActiveChatId] returned; [r]
    is the render whose [startNewChat] it calls. *)
Definition restoreChats (loadedChats : list StoredChat.t) (activeId : option string)
    (now nowWelcome : N) (iso : string) (r : AppState) : list Update :=
  SetAllChats (fun _ => loadedChats) (fun _ => None)
  :: match truthyId activeId with
     | Some a =>
         if existsb (fun chat => String.eqb (StoredChat.id chat) a) loadedChats then
           match findChat a loadedChats with
           | Some activeChat =>
               [ SetMessages (fun _ => StoredChat.messages activeChat);
                 SetCurrentChatId (Some (StoredChat.id activeChat));
                 SetWelcomeTextRef
                   (match StoredChat.messages activeChat with
                    | m :: _ => if isWelcome m then text m
                                else createAppInitialWelcomeText (currentChatModel (settings r))
                    | [] => createAppInitialWelcomeText (currentChatModel (settings r))
                    end) ]
           | None => []
           end
         else startNewChat now nowWelcome iso r
     | None => startNewChat now nowWelcome iso r
     end.

Section Json.

Variable JSON_parse : string → outcome (list StoredChat.t).
Variable JSON_stringify : list StoredChat.t → outcome string.

(** The two effects that follow [allChats] and [currentChatId]. *)
Definition persist (s : AppState) (ls : Storage) : outcome Storage :=
  bind (saveChats JSON_stringify (allChats s) ls) (fun ls =>
  saveActiveChatId (currentChatId s) ls).

(** The mount effect on a storage. *)
Definition restore (now nowWelcome : N) (iso : string) (r : AppState) (ls : Storage)
    : outcome (list Update) :=
  bind (loadChats JSON_parse ls) (fun loadedChats =>
  bind (loadActiveChatId ls) (fun activeId =>
  Return (restoreChats loadedChats activeId now nowWelcome iso r))).

End Json.

End Reopen.

(* ================================================================== *)
(** * The server side of the proxy *)
(* ================================================================== *)

Module ApiProxy.

Import ProxyService.

(** A stream of the SDK: the [text] of each chunk (possibly undefined), and
    how the iteration ends (normally, or with the message of the error
    raised). *)
Record SdkStream := {
  chunks : list (option string);
  broken : option string;
}.

(** [geminiStreamToWebStream(stream, chunk => chunk.text)]: the chunks
    enqueued on the web stream, then its close or its error. *)
Definition geminiStreamToWebStream (stream : SdkStream) : Stream :=
  {| delivered :=
       flat_map (fun text => match text with
                             | Some t => if truthy t then [t] else []
                             | None => []
                             end) (chunks stream);
     failure := broken stream |}.

(** The body of a request once [req.json()] has resolved and [type] and
    [payload] are taken apart; [OtherType] stands for every [type] outside
    the four the handler knows. *)
Inductive ProxyRequest :=
| ChatType (payload : ChatPayload)
| GenerateTitleType (titlePrompt : string)
| SummarizeType (followUp : bool) (prompt model : string)
| OtherType (type : string).

(** A request: its method, and the outcome of reading its body ([Throw]
    when the body is not JSON or its payload cannot be taken apart). *)
Record Request := {
  method : string;
  json : outcome ProxyRequest;
}.

(** The calls the handler makes on the SDK client. *)
Inductive Call :=
| SendMessageStream (payload : ChatPayload)
| GenerateContent (params : GeminiService.GenerateContentParameters)
| GenerateContentStream (model contents : string).

(** The SDK client, for what each call resolves to or throws. *)
Record Sdk := {
  sendMessageStream : ChatPayload → outcome SdkStream;
  generateContent : GeminiService.GenerateContentParameters → outcome (option string);
  generateContentStream : string → string → outcome SdkStream;
}.

Inductive ResponseBody :=
| ErrorJson (error : string)
| TextJson (text : option string)
| WebStream (s : Stream).

Record Response := {
  status : N;
  contentType : string;
  body : ResponseBody;
}.

Definition jsonError (status : N) (error : string) : Response :=
  {| status := status; contentType := "application/json"; body := ErrorJson error |}.

Definition streamed (s : SdkStream) : Response :=
  {| status := 200; contentType := "text/plain; charset=utf-8";
     body := WebStream (geminiStreamToWebStream s) |}.

(** The message of the [catch] block; [nestedMessage] is
    [JSON.parse(error.message)] followed by the read of [error.message] in
    the parsed value ([None] when there is no such field). *)
Definition errorMessageOf (nestedMessage : string → outcome (option string))
    (e : string) : string :=
  if truthy e then
    match nestedMessage e with
    | Return (Some m) => if truthy m then m else e
    | Return None => e
    | Throw _ => e
    end
  else "An internal server error occurred".

(** [handler(req)]: the response, and the calls made on the SDK client. *)
Definition handler (API_KEY : option string) (sdk : Sdk)
    (nestedMessage : string → outcome (option string)) (req : Request)
    : Response * list Call :=
  if negb (String.eqb (method req) "POST") then
    (jsonError 405 "Method not allowed", [])
  else if negb (truthy (or_default API_KEY "")) then
    (jsonError 500 "API key not configured on the server", [])
  else
    let caught e := jsonError 500 (errorMessageOf nestedMessage e) in
    match json req with
    | Throw e => (caught e, [])
    | Return (ChatType payload) =>
        (match sendMessageStream sdk payload with
         | Return stream => streamed stream
         | Throw e => caught e
         end, [SendMessageStream payload])
    | Return (GenerateTitleType titlePrompt) =>
        let params :=
          {| GeminiService.model := "gemini-2.5-flash";
             GeminiService.contents := titlePrompt;
             GeminiService.temperatureTenths := 3;
             GeminiService.maxOutputTokens := 60 |} in
        (match generateContent sdk params with
         | Return text =>
             {| status := 200; contentType := "application/json"; body := TextJson text |}
         | Throw e => caught e
         end, [GenerateContent params])
    | Return (SummarizeType _ prompt model) =>
        (match generateContentStream sdk model prompt with
         | Return stream => streamed stream
         | Throw e => caught e
         end, [GenerateContentStream model prompt])
    | Return (OtherType _) => (jsonError 400 "Invalid proxy type", [])
    end.

(** The text of a chunk, the empty text when it is undefined. *)
Definition textOf (chunk : option string) : string := default "" chunk.

End ApiProxy.

(* ================================================================== *)
(** * The follow-up reconciler and the replace command *)
(* ================================================================== *)

Section FollowUp.

Import Summarizer.

Lemma append_nil_l (a : string) : "" +:+ a = a.
Proof. reflexivity. Qed.

Lemma append_cons (x : ascii) (a b : string) : String x a +:+ b = String x (a +:+ b).
Proof. reflexivity. Qed.

Lemma append_assoc (a b c : string) : (a +:+ b) +:+ c = a +:+ (b +:+ c).
Proof.
  induction a as [|x a IH]; [reflexivity |].
  rewrite !append_cons. now rewrite IH.
Qed.

Lemma append_empty_r (a : string) : a +:+ "" = a.
Proof.
  induction a as [|x a IH]; [reflexivity |].
  rewrite append_cons. now rewrite IH.
Qed.

Lemma concat_cons (c : string) (chunks : list string) :
  String.concat "" (c :: chunks) = c +:+ String.concat "" chunks.
Proof. destruct chunks; simpl; [now rewrite append_empty_r | reflexivity]. Qed.

Lemma truthy_false (s : string) : truthy s = false → s = "".
Proof. destruct s; [reflexivity | discriminate]. Qed.

(** Once replacing, every further chunk goes to the revised summary. *)
Lemma followUpLoop_replacing (chunks : list string) (s : State) (l : Locals) :
  isReplacingSummaryRef s = true →
  let '(s', l') := followUpLoop chunks (s, l) in
  isReplacingSummaryRef s' = true
  ∧ didFollowUpActAsReplacement s' = didFollowUpActAsReplacement s
  ∧ followUpResponse s' = followUpResponse s
  ∧ revisedSummaryAccumulator l'
    = revisedSummaryAccumulator l +:+ String.concat "" chunks.
Proof.
  revert s l. induction chunks as [|c chunks IH]; intros s l Hrep.
  - simpl. rewrite append_empty_r. auto.
  - unfold followUpLoop in *. cbn [fold_left].
    rewrite concat_cons. unfold followUpChunk at 2. rewrite Hrep.
    destruct (truthy c) eqn:Ht; cbn [negb andb].
    + specialize (IH (setDisplayText (revisedSummaryAccumulator l +:+ c) s)
                     {| revisedSummaryAccumulator := revisedSummaryAccumulator l +:+ c;
                        currentFollowUpTextAccumulator := currentFollowUpTextAccumulator l |}
                     Hrep).
      destruct (fold_left _ chunks _) as [s' l'].
      cbn in IH. rewrite append_assoc in IH. exact IH.
    + apply truthy_false in Ht. subst c. specialize (IH s l Hrep).
      destruct (fold_left _ chunks _) as [s' l']. exact IH.
Qed.

(** Before the command is seen, chunks without it go to the answer. *)
Lemma followUpLoop_plain (chunks : list string) (s : State) (l : Locals) :
  isReplacingSummaryRef s = false →
  Forall (fun c => includes c REPLACE_SUMMARY_COMMAND = false) chunks →
  let '(s', l') := followUpLoop chunks (s, l) in
  isReplacingSummaryRef s' = false
  ∧ revisedSummaryAccumulator l' = revisedSummaryAccumulator l
  ∧ currentFollowUpTextAccumulator l'
    = currentFollowUpTextAccumulator l +:+ String.concat "" chunks
  ∧ displayText s' = displayText s
  ∧ didFollowUpActAsReplacement s' = didFollowUpActAsReplacement s.
Proof.
  revert s l. induction chunks as [|c chunks IH]; intros s l Hrep Hall.
  - simpl. rewrite append_empty_r. auto.
  - unfold followUpLoop in *. cbn [fold_left].
    rewrite concat_cons. inversion Hall as [|? ? Hin Hrest]; subst.
    unfold followUpChunk at 2. rewrite Hrep, Hin.
    destruct (truthy c) eqn:Ht; cbn [negb andb].
    + specialize (IH (setFollowUpResponse (currentFollowUpTextAccumulator l +:+ c) s)
                     {| revisedSummaryAccumulator := revisedSummaryAccumulator l;
                        currentFollowUpTextAccumulator := currentFollowUpTextAccumulator l +:+ c |}
                     Hrep Hrest).
      destruct (fold_left _ chunks _) as [s' l'].
      cbn in IH. rewrite append_assoc in IH. exact IH.
    + apply truthy_false in Ht. subst c. specialize (IH s l Hrep Hrest).
      destruct (fold_left _ chunks _) as [s' l']. exact IH.
Qed.

Lemma followUpLoop_app (xs ys : list string) (sl : State * Locals) :
  followUpLoop (xs ++ ys) sl = followUpLoop ys (followUpLoop xs sl).
Proof. unfold followUpLoop. apply fold_left_app. Qed.

(** What the reconciler does by design: when one delta holds the whole
    command, the run ends replacing, and the replacement is the rest of
    that delta with leading white space removed, followed by all later
    deltas. *)
Lemma command_within_one_delta (before after : list string) (chunk : string)
    (summary question : string) (s : State) (l : Locals) :
  Forall (fun c => includes c REPLACE_SUMMARY_COMMAND = false) before →
  includes chunk REPLACE_SUMMARY_COMMAND = true →
  followUpLoop (before ++ chunk :: after)
    (ready summary question,
     {| revisedSummaryAccumulator := ""; currentFollowUpTextAccumulator := "" |}) = (s, l) →
  isReplacingSummaryRef s = true
  ∧ didFollowUpActAsReplacement s = true
  ∧ revisedSummaryAccumulator l = textAfterCommand chunk +:+ String.concat "" after.
Proof.
  intros Hbefore Hchunk Hrun.
  rewrite followUpLoop_app in Hrun.
  pose proof (followUpLoop_plain before (ready summary question)
                {| revisedSummaryAccumulator := ""; currentFollowUpTextAccumulator := "" |}
                eq_refl Hbefore) as Hp.
  destruct (followUpLoop before _) as [s0 l0].
  destruct Hp as (Hrep0 & Hrev0 & _ & Hdisp0 & Hdid0). cbn in Hrev0.
  change (followUpLoop (chunk :: after) (s0, l0))
    with (followUpLoop after (followUpChunk chunk (s0, l0))) in Hrun.
  unfold followUpChunk in Hrun. rewrite Hrep0, Hchunk in Hrun.
  assert (Htc : truthy chunk = true).
  { destruct chunk; [discriminate Hchunk | reflexivity]. }
  rewrite Htc in Hrun. cbn [negb andb] in Hrun. rewrite Hrev0 in Hrun.
  destruct (truthy (textAfterCommand chunk)) eqn:Hafter.
  - pose proof (followUpLoop_replacing after
                  (setDisplayText ("" +:+ textAfterCommand chunk)
                     (setDidFollowUpActAsReplacement true (setIsReplacingSummaryRef true s0)))
                  {| revisedSummaryAccumulator := "" +:+ textAfterCommand chunk;
                     currentFollowUpTextAccumulator := currentFollowUpTextAccumulator l0 |}
                  eq_refl) as Hr.
    rewrite Hrun in Hr. destruct Hr as (H1 & H2 & _ & H4). cbn in H2, H4. auto.
  - apply truthy_false in Hafter.
    pose proof (followUpLoop_replacing after
                  (setDidFollowUpActAsReplacement true (setIsReplacingSummaryRef true s0))
                  l0 eq_refl) as Hr.
    rewrite Hrun in Hr. destruct Hr as (H1 & H2 & _ & H4).
    rewrite Hafter, Hrev0 in *. cbn in H2. auto.
Qed.

(** C1 (the code at the failing input).  The follow-up answer arrives as
    the two deltas "answer: [replace_summary_with_" and
    "new_text]\nNew body": the command straddles the boundary, neither
    delta contains it, and the run ends with the replacing flag unset, the
    summary untouched, no replacement text, and the command itself shown
    in the answer. *)
Theorem split_command_is_missed :
  let '(s, l) :=
    handleAskFollowUp {| delivered := Sample.splitMarkerDeltas; failure := None |}
      (ready "Old summary" "Make it shorter") in
  isReplacingSummaryRef s = false
  ∧ didFollowUpActAsReplacement s = false
  ∧ revisedSummaryAccumulator l = ""
  ∧ displayText s = "Old summary"
  ∧ followUpResponse s = "answer: [replace_summary_with_new_text]" +:+ LF +:+ "New body".
Proof. vm_compute. repeat split. Qed.

(** The same answer in one delta is taken as a replacement by "New body". *)
Example unsplit_command_is_seen :
  let '(s, l) :=
    handleAskFollowUp
      {| delivered := ["answer: [replace_summary_with_new_text]" +:+ LF +:+ "New body"];
         failure := None |}
      (ready "Old summary" "Make it shorter") in
  isReplacingSummaryRef s = true ∧ displayText s = "New body".
Proof. vm_compute. repeat split. Qed.

End FollowUp.

(* ================================================================== *)
(** * The chat turn: folding a stream into the assistant message *)
(* ================================================================== *)

Section ChatTurn.

Import App Trace.

Lemma commit_app (us vs : list Update) (s : AppState) :
  commit (us ++ vs) s = commit vs (commit us s).
Proof. unfold commit. apply fold_left_app. Qed.

Lemma messageUpdates_app (us vs : list Update) (s : AppState) :
  messageUpdates (us ++ vs) s = messageUpdates us s ++ messageUpdates vs (commit us s).
Proof.
  revert s. induction us as [|u us IH]; intros s; [reflexivity |].
  cbn [app messageUpdates]. change (commit (u :: us) s) with (commit us (applyUpdate u s)).
  destruct u; rewrite IH; reflexivity.
Qed.

Lemma endsWith_last (s : AppState) (m : ChatMessageContent) :
  endsWith s m → lastMessage s = Some m.
Proof. intros [l H]. unfold lastMessage. rewrite H. apply last_snoc. Qed.

Lemma patch_endsWith (i : string) (f : ChatMessageContent → ChatMessageContent)
    (s : AppState) (m : ChatMessageContent) :
  endsWith s m → id m = i →
  endsWith (applyUpdate (SetMessages (patchMessage i f)) s) (f m).
Proof.
  intros [l H] Hid. exists (patchMessage i f l). cbn. rewrite H.
  unfold patchMessage. rewrite map_app. cbn. rewrite Hid, String.eqb_refl. reflexivity.
Qed.

Lemma withTitleJob_messages (job : option ChatContextForTitleUpdate) (s : AppState) :
  messages (withTitleJob job s) = messages s.
Proof. destruct job; reflexivity. Qed.

Lemma withTitleJob_allChats (job : option ChatContextForTitleUpdate) (s : AppState) :
  allChats (withTitleJob job s) = allChats s.
Proof. destruct job; reflexivity. Qed.

Lemma withTitleJob_error (job : option ChatContextForTitleUpdate) (s : AppState) :
  error (withTitleJob job s) = error s.
Proof. destruct job; reflexivity. Qed.

(** ** Opening the turn *)

Lemma beginTurn_accepts (inputText : string) (nowUser nowAi : N) (s : AppState) :
  truthy (trim inputText) = true → isLoading s = false →
  beginTurn inputText nowUser nowAi s
  = Some (turnOf inputText nowUser nowAi s, beginUpdates (turnOf inputText nowUser nowAi s)).
Proof. intros Hin Hload. unfold beginTurn. rewrite Hin, Hload. reflexivity. Qed.

Lemma beginUpdates_effect (t : Turn) :
  endsWith (commit (beginUpdates t) (render t)) (placeholder t)
  ∧ allChats (commit (beginUpdates t) (render t))
    = match truthyId (currentChatId (render t)) with
      | Some cid => storeMessages cid (updatedMessagesWithUser t) (allChats (render t))
      | None => allChats (render t)
      end.
Proof.
  unfold beginUpdates.
  destruct (truthyId (currentChatId (render t))) as [cid|];
    [destruct (isEffectivelyNewChat (render t)) |].
  - split; [eexists; cbn; rewrite withTitleJob_messages; reflexivity |].
    cbn. rewrite withTitleJob_allChats. reflexivity.
  - split; [eexists; reflexivity | reflexivity].
  - split; [eexists; reflexivity | reflexivity].
Qed.

(** ** The chunks *)

Lemma sameButText_refl (m : ChatMessageContent) : sameButText m m.
Proof. repeat split. Qed.

Lemma chunk_phase (t : Turn) (chunks : list string) :
  ∀ (acc : string) (s : AppState) (m : ChatMessageContent),
    endsWith s m → id m = aiResponseId t →
    let '(acc', us) := chunkUpdates t acc chunks in
    acc' = acc +:+ String.concat "" chunks
    ∧ map Stated.view (messageUpdates us s)
      = map (fun a => Some (a, isStreaming m)) (accumulations acc chunks)
    ∧ allChats (commit us s) = allChats s
    ∧ error (commit us s) = error s
    ∧ isLoading (commit us s) = isLoading s
    ∧ ∃ m', endsWith (commit us s) m' ∧ sameButText m m'.
Proof.
  induction chunks as [|c chunks IH]; intros acc s m Hends Hid.
  - cbn. rewrite append_empty_r. repeat split. exists m. split; [assumption | apply sameButText_refl].
  - cbn [chunkUpdates accumulations]. rewrite concat_cons. unfold onChunk.
    destruct (truthy c) eqn:Hc.
    + pose proof (patch_endsWith (aiResponseId t) (withText (acc +:+ c)) s m Hends Hid) as Hends'.
      specialize (IH (acc +:+ c) _ (withText (acc +:+ c) m) Hends' Hid).
      destruct (chunkUpdates t (acc +:+ c) chunks) as [acc' us].
      destruct IH as (Hacc & Htrace & Hchats & Herr & Hload & m' & Hm' & Hsame).
      split; [now rewrite Hacc, append_assoc |].
      split.
      { cbn [app messageUpdates map]. rewrite Htrace.
        rewrite (endsWith_last _ _ Hends'). reflexivity. }
      change (commit (_ ++ us) s) with
        (commit us (applyUpdate (SetMessages (patchMessage (aiResponseId t) (withText (acc +:+ c)))) s)).
      repeat (split; [assumption |]).
      exists m'. split; [assumption |].
      destruct Hsame as (H1 & H2 & H3 & H4 & H5). repeat split; assumption.
    + apply truthy_false in Hc. subst c. rewrite append_nil_l.
      specialize (IH acc s m Hends Hid).
      destruct (chunkUpdates t acc chunks) as [acc' us]. exact IH.
Qed.

(** ** The end of the stream *)

Lemma end_phase (t : Turn) (acc : string) (s : AppState) (m : ChatMessageContent) :
  endsWith s m → id m = aiResponseId t →
  map Stated.view (messageUpdates (onStreamEnd t acc) s)
  = [Some (acc, Some false); Some (acc, Some false)]
  ∧ endsWith (commit (onStreamEnd t acc) s) (finalAiMessage t acc)
  ∧ allChats (commit (onStreamEnd t acc) s)
    = match truthyId (currentChatId (render t)) with
      | Some cid => finalizeChats t cid acc (allChats s)
      | None => allChats s
      end
  ∧ error (commit (onStreamEnd t acc) s) = error s
  ∧ isLoading (commit (onStreamEnd t acc) s) = false.
Proof.
  intros Hends Hid. unfold onStreamEnd, finallyBlock.
  set (f1 := fun msg : ChatMessageContent =>
               {| id := id msg; text := acc; sender := sender msg;
                  isStreaming := Some false; isError := isError msg;
                  thinkingDetails := thinkingDetails msg |}).
  pose proof (patch_endsWith (aiResponseId t) f1 s m Hends Hid) as H1.
  assert (Hid1 : id (f1 m) = aiResponseId t) by exact Hid.
  pose proof (patch_endsWith (aiResponseId t) (fun _ => finalAiMessage t acc) _ _ H1 Hid1) as H2.
  cbn beta in H2.
  destruct (truthyId (currentChatId (render t))) as [cid|].
  - cbn [app messageUpdates map commit fold_left].
    rewrite (endsWith_last _ _ H1), (endsWith_last _ _ H2).
    split; [reflexivity |]. split.
    { destruct H2 as [l Hl]. exists l. cbn. rewrite withTitleJob_messages. exact Hl. }
    cbn. rewrite withTitleJob_allChats, withTitleJob_error. auto.
  - cbn [app messageUpdates map commit fold_left].
    rewrite (endsWith_last _ _ H1), (endsWith_last _ _ H2).
    split; [reflexivity |]. split.
    { destruct H2 as [l Hl]. exists l. exact Hl. }
    cbn. auto.
Qed.

(** ** A failing stream *)

Lemma error_phase (t : Turn) (acc e : string) (s : AppState) (m : ChatMessageContent) :
  endsWith s m → id m = aiResponseId t →
  map Stated.view (messageUpdates (onStreamError t acc e) s)
  = [Some (errorMessageOf e, Some false); Some (acc, Some false)]
  ∧ endsWith (commit (onStreamError t acc e) s)
      {| id := id m; text := acc; sender := sender m; isStreaming := Some false;
         isError := Some true; thinkingDetails := thinkingDetails m |}
  ∧ allChats (commit (onStreamError t acc e) s) = allChats s
  ∧ error (commit (onStreamError t acc e) s) = Some (errorMessageOf e)
  ∧ isLoading (commit (onStreamError t acc e) s) = false.
Proof.
  intros Hends Hid. unfold onStreamError, finallyBlock.
  set (f1 := fun msg : ChatMessageContent =>
               {| id := id msg; text := errorMessageOf e; sender := sender msg;
                  isStreaming := Some false; isError := Some true;
                  thinkingDetails := thinkingDetails msg |}).
  set (f2 := fun msg : ChatMessageContent =>
               {| id := id msg; text := acc; sender := sender msg;
                  isStreaming := Some false; isError := isError msg;
                  thinkingDetails := thinkingDetails msg |}).
  assert (H0 : endsWith (applyUpdate (SetError (Some (errorMessageOf e))) s) m).
  { destruct Hends as [l Hl]. exists l. exact Hl. }
  pose proof (patch_endsWith (aiResponseId t) f1 _ m H0 Hid) as H1.
  assert (H1' : endsWith (applyUpdate (SetIsLoading false)
                            (applyUpdate (SetMessages (patchMessage (aiResponseId t) f1))
                               (applyUpdate (SetError (Some (errorMessageOf e))) s))) (f1 m)).
  { destruct H1 as [l Hl]. exists l. exact Hl. }
  assert (Hid1 : id (f1 m) = aiResponseId t) by exact Hid.
  pose proof (patch_endsWith (aiResponseId t) f2 _ _ H1' Hid1) as H2.
  cbn [app messageUpdates map commit fold_left].
  rewrite (endsWith_last _ _ H1), (endsWith_last _ _ H2).
  split; [reflexivity |]. split; [exact H2 |]. cbn. auto.
Qed.


(** ** A whole stream *)

(** Stream fold, in general: each non-empty delta causes one update that
    carries the accumulated text with [streaming = true]; the end of the
    stream causes two updates with [streaming = false], both carrying the
    whole text. *)
Lemma fold_trace (inputText : string) (nowUser nowAi : N) (chunks : list string)
    (s : AppState) :
  truthy (trim inputText) = true → isLoading s = false →
  Stated.foldTrace inputText nowUser nowAi {| delivered := chunks; failure := None |} s
  = map (fun a => Some (a, Some true)) (accumulations "" chunks)
    ++ [Some (String.concat "" chunks, Some false);
        Some (String.concat "" chunks, Some false)]
  ∧ lastMessage (handleSendMessage inputText nowUser nowAi
                   {| delivered := chunks; failure := None |} s)
    = Some (finalAiMessage (turnOf inputText nowUser nowAi s) (String.concat "" chunks)).
Proof.
  intros Hin Hload.
  pose proof (beginTurn_accepts inputText nowUser nowAi s Hin Hload) as Hbegin.
  set (t := turnOf inputText nowUser nowAi s) in *.
  destruct (beginUpdates_effect t) as [Hends _].
  change (render t) with s in Hends.
  unfold Stated.foldTrace, handleSendMessage. rewrite Hbegin.
  unfold streamUpdates. cbn [delivered failure].
  pose proof (chunk_phase t chunks "" _ (placeholder t) Hends eq_refl) as Hc.
  destruct (chunkUpdates t "" chunks) as [acc cus].
  destruct Hc as (Hacc & Htrace & _ & _ & _ & m' & Hm' & Hsame).
  rewrite append_nil_l in Hacc. subst acc.
  assert (Hid' : id m' = aiResponseId t) by (destruct Hsame as [H _]; exact H).
  destruct (end_phase t (String.concat "" chunks) _ m' Hm' Hid')
    as (Hend & Hfinal & _).
  split.
  - rewrite messageUpdates_app, map_app, Htrace, Hend. reflexivity.
  - rewrite commit_app. apply endsWith_last. exact Hfinal.
Qed.

(** C3 (as amended).  For every accepted message, folding the deltas
    "Hel", "lo ", "world" gives the assistant message the final text
    "Hello world"; the three delta updates carry [streaming = true] and
    the accumulated prefix; and the end of the stream emits two updates
    with [streaming = false], the one of the [finally] block and the
    replacement by the final message, both carrying "Hello world". *)
Theorem hello_world_fold (inputText : string) (nowUser nowAi : N) (s : AppState) :
  truthy (trim inputText) = true → isLoading s = false →
  Stated.foldTrace inputText nowUser nowAi
    {| delivered := Sample.helloDeltas; failure := None |} s
  = [ Some ("Hel", Some true); Some ("Hello ", Some true);
      Some ("Hello world", Some true);
      Some ("Hello world", Some false); Some ("Hello world", Some false) ]
  ∧ Stated.view (lastMessage (handleSendMessage inputText nowUser nowAi
                                {| delivered := Sample.helloDeltas; failure := None |} s))
    = Some ("Hello world", Some false).
Proof.
  intros Hin Hload.
  destruct (fold_trace inputText nowUser nowAi Sample.helloDeltas s Hin Hload) as [Ht Hl].
  split; [exact Ht |]. rewrite Hl. reflexivity.
Qed.

Lemma hello_world_fold_witness :
  Stated.foldTrace "Say hello" 201 202
    {| delivered := Sample.helloDeltas; failure := None |} Sample.showingA
  = [ Some ("Hel", Some true); Some ("Hello ", Some true);
      Some ("Hello world", Some true);
      Some ("Hello world", Some false); Some ("Hello world", Some false) ]
  ∧ Stated.view (lastMessage (handleSendMessage "Say hello" 201 202
                                {| delivered := Sample.helloDeltas; failure := None |}
                                Sample.showingA))
    = Some ("Hello world", Some false).
Proof.
  apply (hello_world_fold "Say hello" 201 202 Sample.showingA); reflexivity.
Defined.

(** C3 (as stated) fails: in conversation A the fold of the three deltas
    emits two updates with [streaming = false], not exactly one. *)
Lemma two_terminal_updates :
  ¬ Stated.exactlyOneTerminalUpdate
      (Stated.foldTrace "Say hello" 201 202
         {| delivered := Sample.helloDeltas; failure := None |} Sample.showingA).
Proof. unfold Stated.exactlyOneTerminalUpdate. vm_compute. discriminate. Qed.

(** A failing stream, in general: the message ends with [isError] and
    without [isStreaming], the banner holds the error text, the store is
    as the opening of the turn left it; the text of the message is the
    accumulated text, which the [finally] block wrote over the error
    text. *)
Lemma failing_stream (inputText : string) (nowUser nowAi : N) (chunks : list string)
    (e : string) (s : AppState) :
  truthy (trim inputText) = true → isLoading s = false →
  let t := turnOf inputText nowUser nowAi s in
  let s' := handleSendMessage inputText nowUser nowAi
              {| delivered := chunks; failure := Some e |} s in
  lastMessage s'
  = Some {| id := aiResponseId t; text := String.concat "" chunks; sender := AI;
            isStreaming := Some false; isError := Some true;
            thinkingDetails := thinkingDetailsForMessage t |}
  ∧ error s' = Some (errorMessageOf e)
  ∧ isLoading s' = false
  ∧ allChats s' = allChats (commit (beginUpdates t) s)
  ∧ Stated.foldTrace inputText nowUser nowAi {| delivered := chunks; failure := Some e |} s
    = map (fun a => Some (a, Some true)) (accumulations "" chunks)
      ++ [Some (errorMessageOf e, Some false); Some (String.concat "" chunks, Some false)].
Proof.
  intros Hin Hload t s'.
  pose proof (beginTurn_accepts inputText nowUser nowAi s Hin Hload) as Hbegin.
  fold t in Hbegin.
  destruct (beginUpdates_effect t) as [Hends _].
  change (render t) with s in Hends.
  subst s'. unfold Stated.foldTrace, handleSendMessage. rewrite Hbegin.
  unfold streamUpdates. cbn [delivered failure].
  pose proof (chunk_phase t chunks "" _ (placeholder t) Hends eq_refl) as Hc.
  destruct (chunkUpdates t "" chunks) as [acc cus].
  destruct Hc as (Hacc & Htrace & Hchats & _ & _ & m' & Hm' & Hsame).
  rewrite append_nil_l in Hacc. subst acc.
  destruct Hsame as (Hid' & Hsender & _ & _ & Hthink).
  destruct (error_phase t (String.concat "" chunks) e _ m' Hm' Hid')
    as (Herr & Hfinal & Hstore & Hbanner & Hidle).
  rewrite !commit_app. rewrite (endsWith_last _ _ Hfinal).
  rewrite Hid', Hsender, Hthink, Hstore, Hchats.
  repeat (split; [first [reflexivity | assumption] |]).
  rewrite messageUpdates_app, map_app, Htrace, Herr. reflexivity.
Qed.

(** C4 (the code at the failing input).  In conversation A the stream
    delivers "Hel" and then fails with "boom": the [catch] block sets the
    text of the message to "Error: boom", and the [finally] block, which
    runs next, sets it back to "Hel".  The message ends with
    [isError = true], [isStreaming = false] and the text "Hel"; the error
    text is left in the banner only. *)
Theorem error_text_overwritten :
  let failing := {| delivered := ["Hel"]; failure := Some "boom" |} in
  let s' := handleSendMessage "Say hello" 201 202 failing Sample.showingA in
  Stated.foldTrace "Say hello" 201 202 failing Sample.showingA
  = [ Some ("Hel", Some true); Some ("Error: boom", Some false); Some ("Hel", Some false) ]
  ∧ (text <$> lastMessage s') = Some "Hel"
  ∧ (isError <$> lastMessage s') = Some (Some true)
  ∧ (isStreaming <$> lastMessage s') = Some (Some false)
  ∧ error s' = Some "Error: boom"
  ∧ allChats s' = allChats Sample.streamingA.
Proof. vm_compute. repeat split. Qed.

End ChatTurn.

(* ================================================================== *)
(** * Switching conversations while a stream is open *)
(* ================================================================== *)

Section StaleTurn.

Import App Trace.

Lemma switchChat_store (chatId : string) (s : AppState) :
  allChats (commit (switchChat chatId s) s) = allChats s.
Proof. unfold switchChat. destruct (findChat chatId (allChats s)); reflexivity. Qed.



Lemma step_chunk (t : Turn) (c : InFlight) (x : string) :
  step t c (Chunk x)
  = (fst (onChunk t (fst c) x), commit (snd (onChunk t (fst c) x)) (snd c)).
Proof. cbn. destruct (onChunk t (fst c) x). reflexivity. Qed.



Lemma patchMessage_absent (i : string) (f : ChatMessageContent → ChatMessageContent)
    (l : list ChatMessageContent) :
  forallb (fun m => negb (String.eqb (id m) i)) l = true → patchMessage i f l = l.
Proof.
  unfold patchMessage. induction l as [|m l IH]; intros H; [reflexivity |].
  cbn [forallb] in H. apply andb_prop in H as [Hm Hl].
  cbn [map]. rewrite (IH Hl).
  destruct (String.eqb (id m) i); [discriminate Hm | reflexivity].
Qed.

(** Chunks of a turn whose assistant message is not among the messages
    shown change nothing on screen. *)
Lemma late_chunks_not_shown (t : Turn) (late : list string) :
  ∀ c : InFlight,
    forallb (fun m => negb (String.eqb (id m) (aiResponseId t))) (messages (snd c)) = true →
    messages (snd (during t (map Chunk late) c)) = messages (snd c).
Proof.
  induction late as [|x late IH]; intros c Hc; [reflexivity |].
  unfold during in *. cbn [map fold_left].
  assert (Hstep : messages (snd (step t c (Chunk x))) = messages (snd c)).
  { rewrite step_chunk. cbn [snd]. unfold onChunk.
    destruct (truthy x); [| reflexivity]. cbn. now apply patchMessage_absent. }
  rewrite IH; [exact Hstep | now rewrite Hstep].
Qed.

Lemma findChat_map (g : StoredChat.t → StoredChat.t) (x : string) (l : list StoredChat.t) :
  (∀ c, StoredChat.id (g c) = StoredChat.id c) →
  findChat x (map g l) = g <$> findChat x l.
Proof.
  intros Hg. unfold findChat. induction l as [|c l IH]; [reflexivity |].
  cbn. rewrite Hg. destruct (String.eqb (StoredChat.id c) x); [reflexivity | exact IH].
Qed.

Lemma findChat_id (x : string) (l : list StoredChat.t) (c : StoredChat.t) :
  findChat x l = Some c → StoredChat.id c = x.
Proof.
  unfold findChat. intros H. apply find_some in H as [_ H].
  now apply String.eqb_eq.
Qed.

(** What the end of the stream stores: conversation [cid] gets the
    messages of the turn and the completed answer, every other
    conversation keeps its messages. *)
Lemma finalize_stored (t : Turn) (cid : string) (acc : string) (x : string)
    (chats : list StoredChat.t) :
  StoredChat.messages <$> findChat x (finalizeChats t cid acc chats)
  = (fun old => if String.eqb x cid then finalMessagesForStorage t acc else old)
      <$> (StoredChat.messages <$> findChat x chats).
Proof.
  unfold finalizeChats. rewrite findChat_map.
  - destruct (findChat x chats) as [c|] eqn:Hc; [| reflexivity].
    apply findChat_id in Hc. cbn. rewrite Hc.
    destruct (String.eqb x cid); reflexivity.
  - intros c. destruct (String.eqb (StoredChat.id c) cid); reflexivity.
Qed.





(** What is stored for A in that run, before and after. *)
Example abandoned_chat_before_and_after :
  let switched := step Sample.turnA
                    (step Sample.turnA ("", Sample.streamingA) (Chunk "Hel"))
                    (SwitchChat "chat-50") in
  let ended := streamEnds Sample.turnA
                 (during Sample.turnA [Chunk "lo "; Chunk "world"] switched) in
  (map text <$> Stated.storedMessages "chat-100" (snd switched))
  = Some ["Hi"; "Hello there"; "Say hello"]
  ∧ (map text <$> Stated.storedMessages "chat-100" ended)
    = Some ["Hi"; "Hello there"; "Say hello"; "Hello world"]
  ∧ map text (messages (snd switched)) = ["Plan my trip to Rome"; "Gladly."]
  ∧ map text (messages ended) = ["Plan my trip to Rome"; "Gladly."].
Proof. vm_compute. repeat split. Qed.

End StaleTurn.

(* ================================================================== *)
(** * The gateway: sessions, thinking budget, titles *)
(* ================================================================== *)

Section Gateway.

Import GeminiService.

Lemma hasKey_inv (env : Env) :
  hasKey env = true → ∃ k, API_KEY env = Some k ∧ truthy k = true.
Proof.
  unfold hasKey. destruct (API_KEY env) as [k|]; [| discriminate].
  intros H. now exists k.
Qed.

(** With a key, [initializeAI] returns and touches only [ai]. *)
Lemma initializeAI_returns (env : Env) (s : Service) :
  hasKey env = true →
  ∃ s', initializeAI env s = (Return (), s')
        ∧ is_Some (ai s')
        ∧ (is_Some (ai s) → s' = s)
        ∧ chatSessionInstance s' = chatSessionInstance s
        ∧ chatsCreated s' = chatsCreated s
        ∧ contentRequests s' = contentRequests s.
Proof.
  intros Hk. destruct (hasKey_inv env Hk) as (k & Hk1 & Hk2).
  unfold initializeAI. rewrite Hk1, Hk2.
  destruct (ai s) as [a|] eqn:Ha.
  - exists s. rewrite Ha. repeat split; eauto.
  - eexists. split; [reflexivity |]. cbn. repeat split; eauto.
    intros [? ?]; discriminate.
Qed.

(** Without a key it throws and leaves the module as it is. *)
Lemma initializeAI_throws (env : Env) (s : Service) :
  hasKey env = false →
  initializeAI env s
  = (Throw "API_KEY environment variable not set. Please ensure it is configured.", s).
Proof.
  unfold hasKey, initializeAI. destruct (API_KEY env) as [k|]; [| reflexivity].
  intros ->. reflexivity.
Qed.

Lemma initializeChatSession_returns (env : Env) (modelName : string)
    (history : option (list ChatMessageHistoryItem)) (budget : option Z) (s : Service) :
  hasKey env = true →
  ∃ s', initializeChatSession env modelName history budget s
        = (Return (sessionFor modelName history budget), s')
        ∧ is_Some (ai s')
        ∧ (is_Some (ai s) → ai s' = ai s)
        ∧ chatSessionInstance s' = Some (sessionFor modelName history budget)
        ∧ chatsCreated s' = chatsCreated s ++ [sessionFor modelName history budget]
        ∧ contentRequests s' = contentRequests s.
Proof.
  intros Hk. destruct (initializeAI_returns env s Hk) as (s0 & H0 & Hai & Hsame & Hc & Hcr & Hrq).
  unfold initializeChatSession, mbind. rewrite H0. cbn.
  eexists. split; [reflexivity |]. cbn. rewrite Hc || idtac. rewrite Hcr, Hrq.
  repeat split; try assumption. intros Hs. now rewrite (Hsame Hs).
Qed.

Lemma supported_is_flash (m : string) :
  listIncludes THINKING_CONFIG_SUPPORTED_MODELS m = String.eqb m "gemini-2.5-flash".
Proof. unfold listIncludes. cbn. apply orb_false_r. Qed.

(** C5 (as amended).  With the API key configured, two calls of
    [initializeChatSession] in a row with the same model, history and
    budget both return the same session, and after the second call the
    module holds the session, the client and the content requests it held
    after the first; but every call creates the session anew: the second
    call adds one more creation to those of the first. *)
Theorem rebuild_creates_again (env : Env) (modelName : string)
    (history : option (list ChatMessageHistoryItem)) (budget : option Z) (s : Service) :
  hasKey env = true →
  let first := initializeChatSession env modelName history budget s in
  let second := initializeChatSession env modelName history budget (snd first) in
  fst second = fst first
  ∧ chatSessionInstance (snd second) = chatSessionInstance (snd first)
  ∧ ai (snd second) = ai (snd first)
  ∧ contentRequests (snd second) = contentRequests (snd first)
  ∧ length (chatsCreated (snd first)) = S (length (chatsCreated s))
  ∧ length (chatsCreated (snd second)) = S (length (chatsCreated (snd first))).
Proof.
  intros Hk first second.
  destruct (initializeChatSession_returns env modelName history budget s Hk)
    as (s1 & H1 & Hai1 & _ & Hc1 & Hcr1 & Hrq1).
  destruct (initializeChatSession_returns env modelName history budget s1 Hk)
    as (s2 & H2 & _ & Hai2 & Hc2 & Hcr2 & Hrq2).
  subst first second. rewrite H1. cbn [fst snd]. rewrite H2. cbn [fst snd].
  rewrite Hc1, Hc2, Hcr2, Hcr1, Hrq2, (Hai2 Hai1), !length_app. cbn.
  repeat split; lia.
Qed.

Lemma rebuild_creates_again_witness :
  let first := initializeChatSession Sample.withKey "gemini-2.5-flash" (Some []) (Some 3%Z) fresh in
  let second := initializeChatSession Sample.withKey "gemini-2.5-flash" (Some []) (Some 3%Z)
                  (snd first) in
  fst second = fst first
  ∧ chatSessionInstance (snd second) = chatSessionInstance (snd first)
  ∧ ai (snd second) = ai (snd first)
  ∧ contentRequests (snd second) = contentRequests (snd first)
  ∧ length (chatsCreated (snd first)) = S (length (chatsCreated fresh))
  ∧ length (chatsCreated (snd second)) = S (length (chatsCreated (snd first))).
Proof.
  apply (rebuild_creates_again Sample.withKey "gemini-2.5-flash" (Some []) (Some 3%Z) fresh).
  reflexivity.
Defined.

(** C5 (as stated) fails: on a fresh module with the key configured, the
    second of two identical calls is not a no-op; it leaves two sessions
    created where the first left one. *)
Lemma second_rebuild_is_not_a_noop :
  ¬ Stated.rebuildIsNoOp Sample.withKey "gemini-2.5-flash" (Some []) (Some 3%Z) fresh.
Proof. unfold Stated.rebuildIsNoOp. vm_compute. discriminate. Qed.

(** C6 (as amended).  The thinking budget in the request configuration.
    In the proxy gateway the payload names the model it was given, carries
    no thinking configuration when that name is outside the
    thinking-supported set, and carries the budget of the caller unchanged
    when it is gemini-2.5-flash.  In the SDK gateway, with the API key set,
    [initializeChatSession] returns a session that it has created on the
    client (one creation, added last) and made the live session; that
    session carries no thinking configuration when the name given is an
    available model outside the supported set, the budget of the caller
    unchanged when it is gemini-2.5-flash, and, when the name given is not
    an available model, the default model gemini-2.5-flash together with
    the budget of the caller.  Without the key the call throws and the
    module is left as it was. *)
Theorem thinking_budget_by_model :
  (∀ (message : string + list Part) (history : list ChatMessageHistoryItem)
     (model : string) (budget : option Z),
      let p := ProxyService.chatPayload message history model budget in
      ProxyService.model p = model
      ∧ thinkingConfig (ProxyService.config p)
        = if listIncludes THINKING_CONFIG_SUPPORTED_MODELS model then budget else None)
  ∧ (∀ (env : Env) (modelName : string) (history : option (list ChatMessageHistoryItem))
       (budget : option Z) (s : Service),
        let r := initializeChatSession env modelName history budget s in
        if hasKey env then
          ∃ c, fst r = Return c
               ∧ chatsCreated (snd r) = chatsCreated s ++ [c]
               ∧ chatSessionInstance (snd r) = Some c
               ∧ contentRequests (snd r) = contentRequests s
               ∧ chatModel c = (if listIncludes AVAILABLE_CHAT_MODELS modelName
                                then modelName else DEFAULT_CHAT_MODEL)
               ∧ thinkingConfig (config c)
                 = if listIncludes AVAILABLE_CHAT_MODELS modelName
                   then (if listIncludes THINKING_CONFIG_SUPPORTED_MODELS modelName
                         then budget else None)
                   else budget
        else (∃ e, fst r = Throw e) ∧ snd r = s).
Proof.
  split.
  - intros message history model budget p. split; [reflexivity |].
    rewrite supported_is_flash. reflexivity.
  - intros env modelName history budget s r. subst r.
    destruct (hasKey env) eqn:Hk.
    + destruct (initializeChatSession_returns env modelName history budget s Hk)
        as (s' & H & _ & _ & Hlive & Hcreated & Hreq).
      rewrite H. cbn [fst snd]. exists (sessionFor modelName history budget).
      repeat (split; [first [reflexivity | assumption] |]).
      rewrite supported_is_flash. unfold sessionFor. cbn [config thinkingConfig].
      destruct (listIncludes AVAILABLE_CHAT_MODELS modelName); reflexivity.
    + unfold initializeChatSession, mbind. rewrite (initializeAI_throws env s Hk).
      cbn [fst snd]. split; [eexists |]; reflexivity.
Qed.

(** A name that is not an available model is sent as the default model,
    with the budget: the session created for "gemini-1.5-pro" and budget 3
    carries that budget. *)
Lemma unknown_model_is_sent_with_budget :
  ¬ Stated.budgetOmittedForName Sample.withKey "gemini-1.5-pro" None (Some 3%Z).
Proof.
  unfold Stated.budgetOmittedForName. intros H. specialize (H eq_refl).
  vm_compute in H. inversion H as [|c l Hc Hl]. discriminate Hc.
Qed.

(** An unsupported model, and the supported one with budget 4. *)
Example pro_has_no_thinking_config :
  thinkingConfig (ProxyService.config
                    (ProxyService.chatPayload (inl "hi") [] "gemini-2.5-pro" (Some 4%Z)))
  = None.
Proof. reflexivity. Qed.

Example flash_keeps_budget :
  thinkingConfig (ProxyService.config
                    (ProxyService.chatPayload (inl "hi") [] "gemini-2.5-flash" (Some 4%Z)))
  = Some 4%Z.
Proof. reflexivity. Qed.

(** ** Titles *)







(** C9 (as amended).  With the API key configured, for the empty list and
    for a null list [generateChatTitleWithAI] returns "New Chat" and
    sends no content request (nor creates any session). *)
Theorem empty_chat_title (env : Env)
    (backend : GenerateContentParameters → outcome GenerateContentResponse)
    (chatMessages : option (list ChatMessageContent)) (base : string) (s : Service) :
  hasKey env = true →
  default [] chatMessages = [] →
  let r := generateChatTitleWithAI env backend chatMessages base s in
  fst r = Return "New Chat"
  ∧ contentRequests (snd r) = contentRequests s
  ∧ chatsCreated (snd r) = chatsCreated s
  ∧ chatSessionInstance (snd r) = chatSessionInstance s.
Proof.
  intros Hk Hempty r. subst r.
  destruct (initializeAI_returns env s Hk) as (s0 & H0 & _ & _ & Hc & Hcr & Hrq).
  unfold generateChatTitleWithAI, mbind. rewrite H0.
  destruct chatMessages as [[|m rest]|]; [| discriminate Hempty |]; cbn; auto.
Qed.

Lemma empty_chat_title_witness :
  let r := generateChatTitleWithAI Sample.withKey Sample.unreachable (Some [])
             App.INITIAL_AI_WELCOME_TEXT_BASE fresh in
  fst r = Return "New Chat"
  ∧ contentRequests (snd r) = contentRequests fresh
  ∧ chatsCreated (snd r) = chatsCreated fresh
  ∧ chatSessionInstance (snd r) = chatSessionInstance fresh.
Proof.
  apply (empty_chat_title Sample.withKey Sample.unreachable (Some [])
           App.INITIAL_AI_WELCOME_TEXT_BASE fresh); reflexivity.
Defined.

(** C9 (as stated) fails: without the API key the call on the empty list
    throws the configuration error instead of returning "New Chat". *)
Lemma empty_chat_without_key_throws :
  ¬ Stated.emptyListYieldsNewChat Sample.withoutKey Sample.unreachable fresh.
Proof. unfold Stated.emptyListYieldsNewChat. vm_compute. discriminate. Qed.

(** Without the key nothing is requested either, whatever the list. *)
Lemma no_key_no_request (env : Env)
    (backend : GenerateContentParameters → outcome GenerateContentResponse)
    (chatMessages : option (list ChatMessageContent)) (base : string) (s : Service) :
  hasKey env = false →
  generateChatTitleWithAI env backend chatMessages base s
  = (Throw "API_KEY environment variable not set. Please ensure it is configured.", s).
Proof.
  intros Hk. unfold generateChatTitleWithAI, mbind.
  now rewrite (initializeAI_throws env s Hk).
Qed.

End Gateway.

(* ================================================================== *)
(** * Persistence: loads never throw, settings that are and are not kept *)
(* ================================================================== *)

Section Persistence.

Import LocalStorage App.

(** What each load returns, for every storage. *)
Lemma loadChats_returns (JSON_parse : string → outcome (list StoredChat.t)) (ls : Storage) :
  loadChats JSON_parse ls
  = Return (match stored ALL_CHATS_KEY ls with
            | Some j => if truthy j
                        then match JSON_parse j with
                             | Return chats => chats
                             | Throw _ => []
                             end
                        else []
            | None => []
            end).
Proof.
  unfold loadChats, stored, getItem.
  destruct (readable ls); cbn; [| reflexivity].
  destruct (items ls !! ALL_CHATS_KEY) as [j|]; [| reflexivity].
  destruct (truthy j); [| reflexivity].
  destruct (JSON_parse j); reflexivity.
Qed.

Lemma loadCustomCSS_returns (ls : Storage) :
  loadCustomCSS ls = Return (or_default (stored CUSTOM_CSS_KEY ls) "").
Proof. unfold loadCustomCSS, stored, getItem. destruct (readable ls); reflexivity. Qed.

Lemma load_text_returns (ls : Storage) :
  loadActiveChatId ls = Return (stored ACTIVE_CHAT_ID_KEY ls)
  ∧ loadBaseTheme ls = Return (stored BASE_THEME_KEY ls)
  ∧ loadAccentTheme ls = Return (stored ACCENT_THEME_KEY ls)
  ∧ loadTargetLanguage ls = Return (stored TARGET_LANGUAGE_KEY ls).
Proof.
  unfold loadActiveChatId, loadBaseTheme, loadAccentTheme, loadTargetLanguage, stored, getItem.
  destruct (readable ls); repeat split.
Qed.

(** C10.  No load operation of the adapter throws, whatever the storage
    holds and whether or not it can be read, and whatever [JSON.parse]
    does.  [loadChats] returns the parsed list when the stored text is
    present, non-empty and valid, and the empty list in every other case
    (absent, unreadable, empty, or not valid JSON); [loadCustomCSS]
    returns the stored text or the empty string; the other loads return
    the stored text or null. *)
Theorem loads_never_throw (JSON_parse : string → outcome (list StoredChat.t))
    (ls : Storage) :
  loadChats JSON_parse ls
  = Return (match stored ALL_CHATS_KEY ls with
            | Some j => if truthy j
                        then match JSON_parse j with
                             | Return chats => chats
                             | Throw _ => []
                             end
                        else []
            | None => []
            end)
  ∧ loadActiveChatId ls = Return (stored ACTIVE_CHAT_ID_KEY ls)
  ∧ loadCustomCSS ls = Return (or_default (stored CUSTOM_CSS_KEY ls) "")
  ∧ loadBaseTheme ls = Return (stored BASE_THEME_KEY ls)
  ∧ loadAccentTheme ls = Return (stored ACCENT_THEME_KEY ls)
  ∧ loadTargetLanguage ls = Return (stored TARGET_LANGUAGE_KEY ls).
Proof.
  destruct (load_text_returns ls) as (Hid & Hbase & Haccent & Hlang).
  split; [apply loadChats_returns |].
  split; [exact Hid |].
  split; [apply loadCustomCSS_returns |].
  repeat split; assumption.
Qed.

(** The three cases of [loadChats] that yield the empty list. *)
Corollary loadChats_absent (JSON_parse : string → outcome (list StoredChat.t))
    (ls : Storage) :
  items ls !! ALL_CHATS_KEY = None → loadChats JSON_parse ls = Return [].
Proof.
  intros H. rewrite loadChats_returns.
  unfold stored. rewrite H. now destruct (readable ls).
Qed.

Corollary loadChats_invalid_json (JSON_parse : string → outcome (list StoredChat.t))
    (ls : Storage) (j e : string) :
  items ls !! ALL_CHATS_KEY = Some j → JSON_parse j = Throw e →
  loadChats JSON_parse ls = Return [].
Proof.
  intros H Hp. rewrite loadChats_returns.
  unfold stored. destruct (readable ls); [| reflexivity].
  rewrite H. destruct (truthy j); [now rewrite Hp | reflexivity].
Qed.

Corollary loadChats_unreadable (JSON_parse : string → outcome (list StoredChat.t))
    (ls : Storage) :
  readable ls = false → loadChats JSON_parse ls = Return [].
Proof.
  intros H. rewrite loadChats_returns.
  unfold stored. now rewrite H.
Qed.

(** ** Saving and loading a setting *)

Lemma stored_put_eq (k v : string) (ls : Storage) :
  readable ls = true → stored k (put k v ls) = Some v.
Proof. intros H. unfold stored, put. cbn. rewrite H. apply lookup_insert_eq. Qed.

Lemma stored_put_ne (k k' v : string) (ls : Storage) :
  k ≠ k' → stored k' (put k v ls) = stored k' ls.
Proof.
  intros H. unfold stored, put. cbn.
  destruct (readable ls); [| reflexivity]. now rewrite lookup_insert_ne.
Qed.

Lemma save_puts (ls : Storage) (v : string) :
  writable ls = true →
  saveBaseTheme v ls = Return (put BASE_THEME_KEY v ls)
  ∧ saveAccentTheme v ls = Return (put ACCENT_THEME_KEY v ls)
  ∧ saveCustomCSS v ls = Return (put CUSTOM_CSS_KEY v ls)
  ∧ saveTargetLanguage v ls = Return (put TARGET_LANGUAGE_KEY v ls).
Proof.
  intros H.
  unfold saveBaseTheme, saveAccentTheme, saveCustomCSS, saveTargetLanguage, setItem, put.
  destruct ls as [m r w]. cbn in *. subst w. repeat split.
Qed.

(** A save never throws: a refused write is swallowed. *)
Lemma save_refused (ls : Storage) (v : string) :
  writable ls = false →
  saveBaseTheme v ls = Return ls ∧ saveAccentTheme v ls = Return ls
  ∧ saveCustomCSS v ls = Return ls ∧ saveTargetLanguage v ls = Return ls.
Proof.
  intros H.
  unfold saveBaseTheme, saveAccentTheme, saveCustomCSS, saveTargetLanguage, setItem.
  rewrite H. repeat split.
Qed.

Lemma initialSettings_returns (ls : Storage) :
  initialSettings ls
  = Return {| baseTheme := or_default (stored BASE_THEME_KEY ls) "dark";
              accentTheme := or_default (stored ACCENT_THEME_KEY ls) "default";
              customCSS := or_default (stored CUSTOM_CSS_KEY ls) "";
              targetLanguage := or_default (stored TARGET_LANGUAGE_KEY ls) DEFAULT_TARGET_LANGUAGE;
              thinkingBudget := 0;
              currentChatModel := DEFAULT_CHAT_MODEL |}.
Proof.
  unfold initialSettings.
  destruct (load_text_returns ls) as (_ & -> & -> & ->).
  rewrite loadCustomCSS_returns. reflexivity.
Qed.


Lemma or_else_empty (v : string) : or_else v "" = v.
Proof. now destruct v. Qed.




End Persistence.

(* ================================================================== *)
(** * Words, titles and the title prompt *)
(* ================================================================== *)

Section TitleText.

Import Words.

Lemma length_append (a b : string) :
  String.length (a +:+ b) = String.length a + String.length b.
Proof.
  induction a as [|x a IH]; [reflexivity |].
  rewrite append_cons. cbn. now rewrite IH.
Qed.

Lemma length_substring (n : nat) (s : string) :
  String.length (substring n s) = String.length s - n.
Proof.
  revert s. induction n as [|n IH]; intros s; cbn; [lia |].
  destruct s as [|x s]; cbn; [reflexivity | apply IH].
Qed.

Lemma slice0_take {A} (n : nat) (l : list A) : slice0 n l = take n l.
Proof. reflexivity. Qed.

Lemma split_nonempty (s : string) : split SPACE s ≠ [].
Proof.
  destruct s as [|c s]; cbn; [discriminate |].
  destruct (Ascii.eqb c SPACE); [discriminate |].
  destruct (split SPACE s); discriminate.
Qed.

Lemma split_spaceFree (s : string) : forallb spaceFree (split SPACE s) = true.
Proof.
  induction s as [|c s IH]; [reflexivity |].
  cbn [split]. destruct (Ascii.eqb c SPACE) eqn:Hc; [exact IH |].
  destruct (split SPACE s) as [|w ws]; cbn in *; rewrite Hc; cbn; [reflexivity | exact IH].
Qed.

Lemma join_cons2 (w w' : string) (l : list string) :
  join " " (w :: w' :: l) = w +:+ " " +:+ join " " (w' :: l).
Proof. reflexivity. Qed.

(** Joining the words of a text with spaces gives the text back. *)
Lemma join_split (s : string) : join " " (split SPACE s) = s.
Proof.
  induction s as [|c s IH]; [reflexivity |].
  cbn [split]. destruct (Ascii.eqb c SPACE) eqn:Hc.
  - apply Ascii.eqb_eq in Hc. subst c.
    pose proof (split_nonempty s) as Hne.
    destruct (split SPACE s) as [|w ws]; [congruence |].
    rewrite join_cons2, IH. reflexivity.
  - pose proof (split_nonempty s) as Hne.
    destruct (split SPACE s) as [|w ws]; [congruence |].
    destruct ws as [|w' ws].
    + cbn in IH. cbn. now rewrite IH.
    + rewrite join_cons2 in *. rewrite append_cons. now rewrite IH.
Qed.

Lemma split_cons_other (c : ascii) (s : string) :
  Ascii.eqb c SPACE = false →
  length (split SPACE (String c s)) = length (split SPACE s).
Proof.
  intros Hc. cbn [split]. rewrite Hc.
  pose proof (split_nonempty s). destruct (split SPACE s); [congruence | reflexivity].
Qed.

Lemma split_spaceFree_word (w : string) : spaceFree w = true → split SPACE w = [w].
Proof.
  induction w as [|c w IH]; [reflexivity |].
  cbn. intros H. apply andb_prop in H as [Hc Hw].
  apply negb_true_iff in Hc. rewrite Hc, (IH Hw). reflexivity.
Qed.

Lemma split_word_space (w rest : string) :
  spaceFree w = true →
  split SPACE (w +:+ " " +:+ rest) = w :: split SPACE rest.
Proof.
  induction w as [|c w IH]; intros H; [reflexivity |].
  cbn in H. apply andb_prop in H as [Hc Hw]. apply negb_true_iff in Hc.
  rewrite append_cons. cbn [split]. rewrite Hc, (IH Hw). reflexivity.
Qed.

(** Splitting what was joined gives the words back. *)
Lemma split_join (l : list string) :
  l ≠ [] → forallb spaceFree l = true → split SPACE (join " " l) = l.
Proof.
  induction l as [|w l IH]; [congruence |].
  intros _ H. cbn [forallb] in H. apply andb_prop in H as [Hw Hl].
  destruct l as [|w' l].
  - now apply split_spaceFree_word.
  - rewrite join_cons2, split_word_space by assumption.
    rewrite IH; [reflexivity | discriminate | assumption].
Qed.

Lemma split_append_word (s t : string) :
  spaceFree t = true →
  length (split SPACE (s +:+ t)) = length (split SPACE s).
Proof.
  intros Ht. induction s as [|c s IH].
  - rewrite append_nil_l, split_spaceFree_word by assumption. reflexivity.
  - rewrite append_cons. destruct (Ascii.eqb c SPACE) eqn:Hc.
    + cbn [split]. rewrite Hc. cbn [length]. now rewrite IH.
    + now rewrite !split_cons_other.
Qed.

Lemma forallb_take {A} (f : A → bool) (n : nat) (l : list A) :
  forallb f l = true → forallb f (take n l) = true.
Proof.
  revert n. induction l as [|x l IH]; intros [|n] H; try reflexivity.
  cbn in *. apply andb_prop in H as [Hx Hl]. now rewrite Hx, IH.
Qed.

Lemma spaceFree_append (a b : string) :
  spaceFree a = true → spaceFree b = true → spaceFree (a +:+ b) = true.
Proof.
  intros Ha Hb. induction a as [|c a IH]; [now rewrite append_nil_l |].
  rewrite append_cons. cbn in *. apply andb_prop in Ha as [Hc Ha].
  now rewrite Hc, IH.
Qed.

Lemma join_cons_more (w : string) (l : list string) :
  l ≠ [] → join " " (w :: l) = w +:+ " " +:+ join " " l.
Proof. destruct l; [congruence | reflexivity]. Qed.

(** The words of a joined list followed by a suffix without a space: the
    suffix goes to the last word. *)
Lemma split_join_snoc (l : list string) (w t : string) :
  forallb spaceFree l = true → spaceFree w = true → spaceFree t = true →
  split SPACE (join " " (l ++ [w]) +:+ t) = l ++ [w +:+ t].
Proof.
  intros Hl Hw Ht. induction l as [|x l IH].
  - cbn [app]. change (join " " [w]) with w.
    apply split_spaceFree_word. now apply spaceFree_append.
  - cbn [forallb] in Hl. apply andb_prop in Hl as [Hx Hl].
    change ((x :: l) ++ [w]) with (x :: (l ++ [w])).
    rewrite join_cons_more by (destruct l; discriminate).
    rewrite !append_assoc, split_word_space by assumption.
    rewrite (IH Hl). reflexivity.
Qed.

(** X1.  Title clean-up.  Whatever the backend answered, a cleaned title is
    not empty and has at most seven words.  When the answer, once trimmed
    and stripped of quotes and of a leading "title:", has more than seven
    words, the words of the title are its first six words followed by its
    seventh word with the ellipsis appended; otherwise the title is that
    text unchanged. *)
Theorem clean_title_at_most_seven_words (responseText cleanTitle : string) :
  cleanTitleOf responseText = Some cleanTitle →
  let words := split SPACE (titleText responseText) in
  truthy cleanTitle = true
  ∧ (length (split SPACE cleanTitle) ≤ 7)%nat
  ∧ if (7 <? length words)%nat
    then ∃ seventh, words !! 6%nat = Some seventh
                    ∧ split SPACE cleanTitle = take 6 words ++ [seventh +:+ "..."]
    else cleanTitle = titleText responseText.
Proof.
  unfold cleanTitleOf. fold (titleText responseText).
  set (c := titleText responseText). intros H. cbv zeta.
  destruct (7 <? length (split SPACE c))%nat eqn:Hlen.
  - destruct (truthy (join " " (slice0 7 (split SPACE c)) +:+ "...")) eqn:Ht; [| discriminate].
    assert (Heq : cleanTitle = join " " (slice0 7 (split SPACE c)) +:+ "...") by congruence.
    apply Nat.ltb_lt in Hlen.
    destruct (lookup_lt_is_Some_2 (split SPACE c) 6) as [seventh Hseventh]; [lia |].
    assert (Hseven : slice0 7 (split SPACE c) = take 6 (split SPACE c) ++ [seventh]).
    { rewrite slice0_take. now apply take_S_r. }
    assert (Hfree : forallb spaceFree (take 6 (split SPACE c) ++ [seventh]) = true).
    { rewrite <- Hseven, slice0_take. apply forallb_take, split_spaceFree. }
    rewrite forallb_app in Hfree. apply andb_prop in Hfree as [Hsix H7].
    cbn [forallb] in H7. rewrite andb_true_r in H7.
    assert (Hwords : split SPACE cleanTitle
                     = take 6 (split SPACE c) ++ [seventh +:+ "..."]).
    { rewrite Heq, Hseven. now apply split_join_snoc. }
    split; [now rewrite Heq |]. split.
    + rewrite Hwords, length_app, length_take. cbn [length]. lia.
    + exists seventh. split; assumption.
  - destruct (truthy c) eqn:Ht; [| discriminate].
    injection H as <-. split; [exact Ht |].
    apply Nat.ltb_ge in Hlen. split; [exact Hlen | reflexivity].
Qed.

Lemma clean_title_at_most_seven_words_witness :
  truthy "One two three four five six seven..." = true
  ∧ (length (split SPACE "One two three four five six seven...") ≤ 7)%nat
  ∧ if (7 <? length (split SPACE
                       (titleText "Title: One two three four five six seven eight nine")))%nat
    then ∃ seventh,
           split SPACE (titleText "Title: One two three four five six seven eight nine")
             !! 6%nat = Some seventh
           ∧ split SPACE "One two three four five six seven..."
             = take 6 (split SPACE
                         (titleText "Title: One two three four five six seven eight nine"))
               ++ [seventh +:+ "..."]
    else "One two three four five six seven..."
         = titleText "Title: One two three four five six seven eight nine".
Proof.
  apply (clean_title_at_most_seven_words
           "Title: One two three four five six seven eight nine"
           "One two three four five six seven...").
  reflexivity.
Defined.

(** X2.  Fallback title of a short first message: when the first user message
    is not empty and has at most four words, the fallback title is that
    message trimmed, with no ellipsis. *)
Theorem fallback_of_short_message (chatMessages : list ChatMessageContent)
    (m : ChatMessageContent) :
  List.find (fun msg => Sender_eqb (sender msg) User) chatMessages = Some m →
  truthy (text m) = true →
  (length (fallbackWords (text m)) ≤ 4)%nat →
  generateFallbackTitle chatMessages = trim (text m).
Proof.
  intros Hfind Ht Hlen. unfold generateFallbackTitle. rewrite Hfind, Ht.
  rewrite slice0_take, Nat.min_l by lia.
  rewrite firstn_all.
  assert (H4 : (4 <? length (fallbackWords (text m)))%nat = false) by (apply Nat.ltb_ge; lia).
  rewrite H4, append_empty_r. apply join_split.
Qed.

Lemma fallback_of_short_message_witness :
  generateFallbackTitle [Sample.aiSays "ai-1" "Hello"; Sample.userSays "user-2" "  Plan my trip "]
  = trim "  Plan my trip ".
Proof.
  apply (fallback_of_short_message _ (Sample.userSays "user-2" "  Plan my trip "));
    [reflexivity | reflexivity | vm_compute; lia].
Defined.


Lemma substring_suffix (n : nat) (s : string) :
  (n ≤ String.length s)%nat →
  ∃ dropped, s = dropped +:+ substring n s ∧ String.length dropped = n.
Proof.
  revert s. induction n as [|n IH]; intros s Hn.
  - exists "". now rewrite append_nil_l.
  - destruct s as [|x s]; cbn in Hn; [lia |].
    destruct (IH s) as (d & Hd & Hlen); [lia |].
    exists (String x d). rewrite append_cons. cbn [substring String.length].
    now rewrite <- Hd, Hlen.
Qed.

(** X3.  The conversation context put in the title prompt.  A transcript
    of at most 1500 characters is the context as it is.  A longer one is
    replaced by an ellipsis followed by its last 1500 characters: the
    transcript is some dropped text followed by a tail of exactly 1500
    characters, and the context is "..." followed by that tail.  So the
    context is never longer than 1503 characters. *)
Theorem title_context_is_bounded (historyForTitle : list ChatMessageHistoryItem) :
  let transcript := transcriptOf historyForTitle in
  (String.length (conversationContextOf historyForTitle) ≤ 1503)%nat
  ∧ if (1500 <? String.length transcript)%nat
    then ∃ dropped tail, transcript = dropped +:+ tail
                         ∧ String.length tail = 1500%nat
                         ∧ conversationContextOf historyForTitle = "..." +:+ tail
    else conversationContextOf historyForTitle = transcript.
Proof.
  unfold conversationContextOf. fold (transcriptOf historyForTitle).
  set (ctx := transcriptOf historyForTitle). cbv zeta.
  destruct (1500 <? String.length ctx)%nat eqn:H.
  - apply Nat.ltb_lt in H. split.
    + rewrite length_append, length_substring.
      change (String.length "...") with 3. lia.
    + destruct (substring_suffix (String.length ctx - 1500) ctx) as (d & Hd & _); [lia |].
      exists d, (substring (String.length ctx - 1500) ctx).
      split; [exact Hd |]. split; [| reflexivity].
      rewrite length_substring. lia.
  - apply Nat.ltb_ge in H. split; [lia | reflexivity].
Qed.


End TitleText.

(* ================================================================== *)
(** * The gateways: session lifecycle, requests and absorbed errors *)
(* ================================================================== *)

Section GatewayLifecycle.

Import GeminiService GeminiChat.

(** X4.  Session lifecycle of the SDK gateway.  With the API key configured:
    a message sent after [initializeChatSession] goes to the session that
    call created (its model, configuration and history) as one text part;
    after [resetChatSession] a send throws "Chat session is not active"
    and a further [initializeChatSession] makes sending work again. *)
Theorem session_lifecycle (env : Env) (modelName : string)
    (history : option (list ChatMessageHistoryItem)) (budget : option Z)
    (message : string) (s : Service) :
  hasKey env = true →
  let live := snd (initializeChatSession env modelName history budget s) in
  let dropped := snd (resetChatSession live) in
  let again := snd (initializeChatSession env modelName history budget dropped) in
  fst (sendMessageToChatStream (inl message) live)
  = Return (sessionFor modelName history budget, [TextPart message])
  ∧ fst (sendMessageToChatStream (inl message) dropped) = Throw notActive
  ∧ fst (sendMessageToChatStream (inl message) again)
    = Return (sessionFor modelName history budget, [TextPart message])
  ∧ snd (sendMessageToChatStream (inl message) live) = live.
Proof.
  intros Hk live dropped again.
  destruct (initializeChatSession_returns env modelName history budget s Hk)
    as (s1 & H1 & _ & _ & Hc1 & _).
  assert (Hlive : live = s1) by (subst live; now rewrite H1).
  destruct (initializeChatSession_returns env modelName history budget dropped Hk)
    as (s2 & H2 & _ & _ & Hc2 & _).
  assert (Hagain : again = s2) by (subst again; now rewrite H2).
  unfold sendMessageToChatStream.
  rewrite Hagain, Hc2.
  assert (Hd : chatSessionInstance dropped = None) by reflexivity.
  rewrite Hd. rewrite Hlive, Hc1. repeat split.
Qed.

Lemma session_lifecycle_witness :
  let live := snd (initializeChatSession Sample.withKey "gemini-2.5-pro" None (Some 2%Z) fresh) in
  let dropped := snd (resetChatSession live) in
  let again := snd (initializeChatSession Sample.withKey "gemini-2.5-pro" None (Some 2%Z) dropped) in
  fst (sendMessageToChatStream (inl "hi") live)
  = Return (sessionFor "gemini-2.5-pro" None (Some 2%Z), [TextPart "hi"])
  ∧ fst (sendMessageToChatStream (inl "hi") dropped) = Throw notActive
  ∧ fst (sendMessageToChatStream (inl "hi") again)
    = Return (sessionFor "gemini-2.5-pro" None (Some 2%Z), [TextPart "hi"])
  ∧ snd (sendMessageToChatStream (inl "hi") live) = live.
Proof.
  apply (session_lifecycle Sample.withKey "gemini-2.5-pro" None (Some 2%Z) "hi" fresh).
  reflexivity.
Defined.

(** X5.  Missing API key.  Without the key, [initializeChatSession] and
    [generateChatTitleWithAI] throw the configuration error and leave the
    module exactly as it was: no client, no session created, no request
    sent, and a session that was live stays live. *)
Theorem missing_key_changes_nothing (env : Env)
    (backend : GenerateContentParameters → outcome GenerateContentResponse)
    (modelName : string) (history : option (list ChatMessageHistoryItem))
    (budget : option Z) (chatMessages : option (list ChatMessageContent))
    (base : string) (s : Service) :
  hasKey env = false →
  initializeChatSession env modelName history budget s = (Throw notConfigured, s)
  ∧ generateChatTitleWithAI env backend chatMessages base s = (Throw notConfigured, s).
Proof.
  intros Hk. split.
  - unfold initializeChatSession, mbind. now rewrite (initializeAI_throws env s Hk).
  - apply no_key_no_request. exact Hk.
Qed.

Lemma missing_key_changes_nothing_witness :
  initializeChatSession Sample.withoutKey "gemini-2.5-flash" None (Some 1%Z) fresh
  = (Throw notConfigured, fresh)
  ∧ generateChatTitleWithAI Sample.withoutKey Sample.unreachable (Some Sample.romeChat)
      App.INITIAL_AI_WELCOME_TEXT_BASE fresh
    = (Throw notConfigured, fresh).
Proof.
  apply (missing_key_changes_nothing Sample.withoutKey Sample.unreachable
           "gemini-2.5-flash" None (Some 1%Z) (Some Sample.romeChat)
           App.INITIAL_AI_WELCOME_TEXT_BASE fresh).
  reflexivity.
Defined.



End GatewayLifecycle.

Section ProxyTitles.

Import ProxyGateway.

(** X7.  Title generation through the proxy never throws, whatever [fetch]
    does; it posts at most one prompt, and none for an empty or null
    conversation, whose title is "New Chat". *)
Theorem proxy_title_never_throws (fetch : string → outcome TitleResponse)
    (chatMessages : option (list ChatMessageContent)) (base : string) :
  let r := generateChatTitleWithAI fetch chatMessages base in
  (∃ newTitle, fst r = Return newTitle)
  ∧ (length (snd r) ≤ 1)%nat
  ∧ (default [] chatMessages = [] → r = (Return "New Chat", [])).
Proof.
  intros r. subst r. unfold generateChatTitleWithAI.
  destruct chatMessages as [[|m rest]|].
  - cbn. repeat split; eauto.
  - split; [| split; [| discriminate]].
    + destruct (length _ =? 0)%nat; [cbn; eauto |].
      cbn [fst]. destruct (fetch _) as [resp|e]; cbn; [| eauto].
      destruct (ok resp); cbn.
      * destruct (json resp) as [b|e]; cbn; [| eauto].
        destruct (textField b) as [t|]; [| eauto].
        destruct (truthy (trim t)); [| eauto].
        destruct (cleanTitleOf t); eauto.
      * destruct (json resp) as [b|e]; cbn; eauto.
    + destruct (length _ =? 0)%nat; cbn; lia.
  - cbn. repeat split; eauto.
Qed.

(** X8.  When the title request does not succeed, the title is the fallback
    title of the conversation. *)
Theorem proxy_title_falls_back (fetch : string → outcome TitleResponse)
    (chatMessages : list ChatMessageContent) (base : string) :
  chatMessages ≠ [] → refused fetch →
  fst (generateChatTitleWithAI fetch (Some chatMessages) base)
  = Return (generateFallbackTitle chatMessages).
Proof.
  intros Hne Href. unfold generateChatTitleWithAI.
  destruct chatMessages as [|m rest]; [congruence |].
  destruct (length _ =? 0)%nat; [reflexivity |].
  cbn [fst].
  match goal with |- context [fetch ?p] => specialize (Href p); destruct (fetch p) as [resp|e] end;
    [| reflexivity].
  cbn. destruct Href as [Hok | [e He]].
  - rewrite Hok. cbn. destruct (json resp); reflexivity.
  - rewrite He. destruct (ok resp); reflexivity.
Qed.

Lemma proxy_title_falls_back_witness :
  fst (generateChatTitleWithAI (fun _ => Throw "Failed to fetch") (Some Sample.romeChat)
         App.INITIAL_AI_WELCOME_TEXT_BASE)
  = Return (generateFallbackTitle Sample.romeChat).
Proof.
  apply (proxy_title_falls_back (fun _ => Throw "Failed to fetch") Sample.romeChat
           App.INITIAL_AI_WELCOME_TEXT_BASE).
  - discriminate.
  - intros p. exact I.
Defined.

End ProxyTitles.

(* ================================================================== *)
(** * The chat turn and the conversation store *)
(* ================================================================== *)

Section TurnAndStore.

Import App Trace Conversations.

Lemma startsWith_append (p s : string) : startsWith (p +:+ s) p = true.
Proof.
  induction p as [|c p IH]; [now destruct s |].
  rewrite append_cons. cbn. now rewrite Ascii.eqb_refl.
Qed.

Lemma welcome_isWelcome (now : N) (model : string) :
  isWelcome (createNewWelcomeMessage now model) = true.
Proof.
  unfold isWelcome, createNewWelcomeMessage, createAppInitialWelcomeText. cbn [sender text].
  rewrite ?append_assoc. now rewrite startsWith_append.
Qed.

(** X9.  History sent to the backend.  Every item of the mapped history comes
    from a message that is neither a welcome message nor blank, with the
    role of its sender and the message text as its only part; a
    conversation that holds only the welcome message maps to the empty
    history, for every model and instant. *)
Theorem history_excludes_welcome_and_blank (msgs : list ChatMessageContent) :
  Forall (fun item =>
            ∃ m, In m msgs ∧ isWelcome m = false ∧ truthy (trim (text m)) = true
                 ∧ item = {| role := roleOf (sender m); parts := [TextPart (text m)] |})
         (mapMessagesToGeminiHistory msgs)
  ∧ ∀ (now : N) (model : string),
      mapMessagesToGeminiHistory [createNewWelcomeMessage now model] = [].
Proof.
  split.
  - unfold mapMessagesToGeminiHistory. induction msgs as [|m l IH]; [constructor |].
    cbn [flat_map].
    assert (Htail : Forall (fun item =>
              ∃ m0, In m0 (m :: l) ∧ isWelcome m0 = false ∧ truthy (trim (text m0)) = true
                    ∧ item = {| role := roleOf (sender m0); parts := [TextPart (text m0)] |})
              (flat_map (fun msg =>
                 if isWelcome msg then []
                 else if negb (truthy (trim (text msg))) then []
                 else [{| role := roleOf (sender msg); parts := [TextPart (text msg)] |}]) l)).
    { eapply Forall_impl; [exact IH |].
      intros item (m0 & Hin & H1 & H2 & H3). exists m0. repeat split; try assumption.
      now right. }
    destruct (isWelcome m) eqn:Hw; [exact Htail |].
    destruct (truthy (trim (text m))) eqn:Ht; cbn [negb app]; [| exact Htail].
    constructor; [| exact Htail].
    exists m. repeat split; try assumption. now left.
  - intros now model. unfold mapMessagesToGeminiHistory. cbn [flat_map].
    now rewrite welcome_isWelcome.
Qed.

Lemma dropLast_snoc {A} (l : list A) (x : A) : dropLast (l ++ [x]) = l.
Proof.
  unfold dropLast. rewrite length_app. cbn [length].
  replace (length l + 1 - 1) with (length l) by lia.
  now rewrite take_app_length.
Qed.

Lemma history_app (l k : list ChatMessageContent) :
  mapMessagesToGeminiHistory (l ++ k)
  = mapMessagesToGeminiHistory l ++ mapMessagesToGeminiHistory k.
Proof. unfold mapMessagesToGeminiHistory. apply flat_map_app. Qed.

Lemma request_history (inputText : string) (nowUser nowAi : N) (s : AppState) :
  truthy (trim inputText) = true →
  ProxyService.history (request (turnOf inputText nowUser nowAi s))
  = mapMessagesToGeminiHistory (if isEffectivelyNewChat s then [] else messages s).
Proof.
  intros Hin. unfold turnOf. cbn [request ProxyService.chatPayload ProxyService.history].
  rewrite history_app.
  assert (Hlast : mapMessagesToGeminiHistory
                    [{| id := "user-" +:+ pretty nowUser; text := inputText; sender := User;
                        isStreaming := None; isError := None; thinkingDetails := None |}]
                  = [{| role := RoleUser; parts := [TextPart inputText] |}]).
  { unfold mapMessagesToGeminiHistory, isWelcome.
    cbn [flat_map sender text Sender_eqb andb app]. rewrite Hin. reflexivity. }
  rewrite Hlast. apply dropLast_snoc.
Qed.

(** X10.  What a turn sends.  For an accepted message the request carries the
    mapped history of the messages before the turn (none when the
    conversation is effectively new), the text typed as a separate single
    part, the model selected, and the thinking budget exactly when that
    model supports it. *)
Theorem turn_request (inputText : string) (nowUser nowAi : N) (s : AppState) :
  truthy (trim inputText) = true →
  let t := turnOf inputText nowUser nowAi s in
  ProxyService.history (request t)
  = mapMessagesToGeminiHistory (if isEffectivelyNewChat s then [] else messages s)
  ∧ ProxyService.messageParts (request t) = [TextPart inputText]
  ∧ ProxyService.model (request t) = currentChatModel (settings s)
  ∧ thinkingConfig (ProxyService.config (request t))
    = if listIncludes THINKING_CONFIG_SUPPORTED_MODELS (currentChatModel (settings s))
      then Some (thinkingBudget (settings s)) else None.
Proof.
  intros Hin t. subst t.
  split; [now apply request_history |].
  split; [reflexivity |]. split; [reflexivity |].
  unfold turnOf. cbn [request ProxyService.chatPayload ProxyService.config thinkingConfig].
  now rewrite supported_is_flash.
Qed.

Lemma turn_request_witness :
  let t := turnOf "Say hello" 201 202 Sample.showingA in
  ProxyService.history (request t)
  = mapMessagesToGeminiHistory
      (if isEffectivelyNewChat Sample.showingA then [] else messages Sample.showingA)
  ∧ ProxyService.messageParts (request t) = [TextPart "Say hello"]
  ∧ ProxyService.model (request t) = currentChatModel (settings Sample.showingA)
  ∧ thinkingConfig (ProxyService.config (request t))
    = if listIncludes THINKING_CONFIG_SUPPORTED_MODELS
           (currentChatModel (settings Sample.showingA))
      then Some (thinkingBudget (settings Sample.showingA)) else None.
Proof. apply (turn_request "Say hello" 201 202 Sample.showingA). reflexivity. Defined.

(** ** What a whole turn leaves in the store and on screen *)

Lemma stream_split (stream : Stream) :
  stream = {| delivered := delivered stream; failure := failure stream |}.
Proof. now destruct stream. Qed.

(** The store after a whole turn. *)
Lemma turn_store (inputText : string) (nowUser nowAi : N) (stream : Stream) (s : AppState) :
  truthy (trim inputText) = true → isLoading s = false →
  let t := turnOf inputText nowUser nowAi s in
  allChats (handleSendMessage inputText nowUser nowAi stream s)
  = match truthyId (currentChatId s) with
    | Some cid =>
        match failure stream with
        | None => finalizeChats t cid (String.concat "" (delivered stream))
                    (storeMessages cid (updatedMessagesWithUser t) (allChats s))
        | Some _ => storeMessages cid (updatedMessagesWithUser t) (allChats s)
        end
    | None => allChats s
    end.
Proof.
  intros Hin Hload t.
  pose proof (beginTurn_accepts inputText nowUser nowAi s Hin Hload) as Hbegin.
  fold t in Hbegin.
  destruct (beginUpdates_effect t) as [Hends Hstore0].
  change (render t) with s in Hends, Hstore0.
  unfold handleSendMessage. rewrite Hbegin. unfold streamUpdates.
  pose proof (chunk_phase t (delivered stream) "" _ (placeholder t) Hends eq_refl) as Hc.
  destruct (chunkUpdates t "" (delivered stream)) as [acc cus].
  destruct Hc as (Hacc & _ & Hchats & _ & _ & m' & Hm' & Hsame).
  rewrite append_nil_l in Hacc. subst acc.
  destruct Hsame as (Hid' & _).
  rewrite commit_app.
  destruct (failure stream) as [e|].
  - destruct (error_phase t (String.concat "" (delivered stream)) e _ m' Hm' Hid')
      as (_ & _ & Hstore & _).
    rewrite Hstore, Hchats, Hstore0. now destruct (truthyId (currentChatId s)).
  - destruct (end_phase t (String.concat "" (delivered stream)) _ m' Hm' Hid')
      as (_ & _ & Hstore & _).
    rewrite Hstore, Hchats, Hstore0. change (render t) with s.
    now destruct (truthyId (currentChatId s)).
Qed.

Lemma commit_keepsCurrent (us : list Update) (s : AppState) :
  forallb keepsCurrent us = true → currentChatId (commit us s) = currentChatId s.
Proof.
  revert s. induction us as [|u us IH]; intros s H; [reflexivity |].
  cbn [forallb] in H. apply andb_prop in H as [Hu Hus].
  change (commit (u :: us) s) with (commit us (applyUpdate u s)).
  rewrite (IH _ Hus). destruct u; try reflexivity; try discriminate.
  - cbn. now destruct (effect (allChats s)).
  - cbn. now destruct job.
Qed.

Lemma chunkUpdates_keepCurrent (t : Turn) (chunks : list string) (acc : string) :
  forallb keepsCurrent (snd (chunkUpdates t acc chunks)) = true.
Proof.
  revert acc. induction chunks as [|c chunks IH]; intros acc; [reflexivity |].
  cbn [chunkUpdates]. unfold onChunk. destruct (truthy c).
  - specialize (IH (acc +:+ c)). destruct (chunkUpdates t (acc +:+ c) chunks). exact IH.
  - specialize (IH acc). destruct (chunkUpdates t acc chunks). exact IH.
Qed.

Lemma turn_keeps_current (inputText : string) (nowUser nowAi : N) (stream : Stream)
    (s : AppState) :
  currentChatId (handleSendMessage inputText nowUser nowAi stream s) = currentChatId s.
Proof.
  unfold handleSendMessage, beginTurn.
  destruct (negb (truthy (trim inputText)) || isLoading s); [reflexivity |].
  cbv zeta. set (t := turnOf inputText nowUser nowAi s).
  rewrite commit_keepsCurrent.
  - apply commit_keepsCurrent. unfold beginUpdates.
    destruct (truthyId (currentChatId (render t))); [| reflexivity].
    now destruct (isEffectivelyNewChat (render t)).
  - unfold streamUpdates.
    pose proof (chunkUpdates_keepCurrent t (delivered stream) "") as Hc.
    destruct (chunkUpdates t "" (delivered stream)) as [acc cus]. cbn [snd] in Hc.
    rewrite forallb_app, Hc. cbn [andb].
    destruct (failure stream); [reflexivity |].
    unfold onStreamEnd. now destruct (truthyId (currentChatId (render t))).
Qed.

Lemma truthyId_current (cur : option string) (cid : string) :
  truthyId cur = Some cid → cur = Some cid.
Proof.
  unfold truthyId. destruct cur as [c|]; [| discriminate].
  destruct (truthy c); [congruence | discriminate].
Qed.

Lemma Forall2_map_same {A} (R : A → A → Prop) (g : A → A) (l : list A) :
  (∀ x, R x (g x)) → Forall2 R l (map g l).
Proof. intros H. induction l; constructor; auto. Qed.

Lemma turn_store_frame (inputText : string) (nowUser nowAi : N)
    (stream : Stream) (s : AppState) :
  Forall2 (fun old new =>
             StoredChat.id new = StoredChat.id old
             ∧ StoredChat.title new = StoredChat.title old
             ∧ StoredChat.createdAt new = StoredChat.createdAt old
             ∧ (isCurrent (currentChatId s) (StoredChat.id old) = false → new = old))
          (allChats s) (allChats (handleSendMessage inputText nowUser nowAi stream s)).
Proof.
  destruct (negb (truthy (trim inputText)) || isLoading s) eqn:Hguard.
  - unfold handleSendMessage, beginTurn. rewrite Hguard.
    rewrite <- (map_id (allChats s)) at 2. apply Forall2_map_same. auto.
  - apply orb_false_elim in Hguard as [Hin Hload]. apply negb_false_iff in Hin.
    rewrite (turn_store inputText nowUser nowAi stream s Hin Hload).
    destruct (truthyId (currentChatId s)) as [cid|] eqn:Hcur.
    + apply truthyId_current in Hcur. rewrite Hcur. cbn [isCurrent].
      destruct (failure stream).
      * unfold storeMessages. apply Forall2_map_same. intros c.
        destruct (String.eqb (StoredChat.id c) cid); cbn; auto.
        repeat split. discriminate.
      * unfold finalizeChats, storeMessages. rewrite map_map.
        apply Forall2_map_same. intros c.
        destruct (String.eqb (StoredChat.id c) cid) eqn:Hc; cbn; rewrite ?Hc; cbn; auto.
        repeat split. discriminate.
    + rewrite <- (map_id (allChats s)) at 2. apply Forall2_map_same. auto.
Qed.

(** X11.  A turn changes only the current conversation.  Whatever the input and
    whatever the stream does, [handleSendMessage] keeps the current
    conversation id, keeps the stored conversations in place with their
    ids, titles and creation dates, and leaves every conversation other
    than the current one exactly as it was. *)
Theorem turn_touches_only_current (inputText : string) (nowUser nowAi : N)
    (stream : Stream) (s : AppState) :
  let s' := handleSendMessage inputText nowUser nowAi stream s in
  currentChatId s' = currentChatId s
  ∧ Forall2 (fun old new =>
               StoredChat.id new = StoredChat.id old
               ∧ StoredChat.title new = StoredChat.title old
               ∧ StoredChat.createdAt new = StoredChat.createdAt old
               ∧ (isCurrent (currentChatId s) (StoredChat.id old) = false → new = old))
            (allChats s) (allChats s').
Proof.
  intros s'. subst s'. split.
  - apply turn_keeps_current.
  - apply turn_store_frame.
Qed.

(** ** The list shown against the list stored *)

Lemma patch_exact (i : string) (f : ChatMessageContent → ChatMessageContent)
    (s : AppState) (l : list ChatMessageContent) (m : ChatMessageContent) :
  messages s = l ++ [m] →
  forallb (fun x => negb (String.eqb (id x) i)) l = true → id m = i →
  messages (applyUpdate (SetMessages (patchMessage i f)) s) = l ++ [f m].
Proof.
  intros H Hl Hid. cbn. rewrite H.
  assert (Hp : patchMessage i f (l ++ [m]) = patchMessage i f l ++ [f m]).
  { unfold patchMessage. rewrite map_app. cbn. now rewrite Hid, String.eqb_refl. }
  rewrite Hp. now rewrite patchMessage_absent.
Qed.

Lemma chunk_phase_exact (t : Turn) (l : list ChatMessageContent) (chunks : list string) :
  forallb (fun x => negb (String.eqb (id x) (aiResponseId t))) l = true →
  ∀ (acc : string) (s : AppState) (m : ChatMessageContent),
    messages s = l ++ [m] → id m = aiResponseId t →
    ∃ m', messages (commit (snd (chunkUpdates t acc chunks)) s) = l ++ [m']
          ∧ sameButText m m'.
Proof.
  intros Hl. induction chunks as [|c chunks IH]; intros acc s m Hs Hid.
  - exists m. split; [exact Hs | apply sameButText_refl].
  - cbn [chunkUpdates]. unfold onChunk. destruct (truthy c).
    + pose proof (patch_exact _ (withText (acc +:+ c)) s l m Hs Hl Hid) as Hs'.
      destruct (IH (acc +:+ c) _ (withText (acc +:+ c) m) Hs' Hid) as (m' & Hm' & Hsame).
      destruct (chunkUpdates t (acc +:+ c) chunks) as [acc' us]. cbn [snd] in *.
      exists m'. split; [exact Hm' |].
      destruct Hsame as (H1 & H2 & H3 & H4 & H5). repeat split; assumption.
    + destruct (IH acc s m Hs Hid) as (m' & Hm' & Hsame).
      destruct (chunkUpdates t acc chunks) as [acc' us]. cbn [snd] in *.
      exists m'. split; assumption.
Qed.

Lemma begin_exact (t : Turn) :
  messages (commit (beginUpdates t) (render t))
  = updatedMessagesWithUser t ++ [placeholder t].
Proof.
  unfold beginUpdates.
  destruct (truthyId (currentChatId (render t))) as [cid|];
    [destruct (isEffectivelyNewChat (render t)) |]; cbn;
    rewrite ?withTitleJob_messages; reflexivity.
Qed.

Lemma filter_fresh (i : string) (l : list ChatMessageContent) :
  forallb (fun x => negb (String.eqb (id x) i)) l = true →
  List.filter (fun m => negb (String.eqb (id m) i)) l = l.
Proof.
  induction l as [|x l IH]; intros H; [reflexivity |].
  cbn in *. apply andb_prop in H as [Hx Hl]. now rewrite Hx, IH.
Qed.

Lemma store_stored (cid : string) (msgs : list ChatMessageContent) (x : string)
    (chats : list StoredChat.t) :
  StoredChat.messages <$> findChat x (storeMessages cid msgs chats)
  = (fun old => if String.eqb x cid then msgs else old)
      <$> (StoredChat.messages <$> findChat x chats).
Proof.
  unfold storeMessages. rewrite findChat_map.
  - destruct (findChat x chats) as [c|] eqn:Hc; [| reflexivity].
    apply findChat_id in Hc. cbn. rewrite Hc.
    destruct (String.eqb x cid); reflexivity.
  - intros c. destruct (String.eqb (StoredChat.id c) cid); reflexivity.
Qed.

(** X12.  A completed turn is stored as it is shown.  For an accepted message in
    a current conversation, with an assistant id that no message of the
    turn already has: when the stream ends normally the list shown is the
    messages of the turn followed by the completed answer, and that same
    list is what is stored for the current conversation. *)
Theorem completed_turn_is_stored_as_shown (inputText : string) (nowUser nowAi : N)
    (chunks : list string) (cid : string) (s : AppState) :
  truthy (trim inputText) = true → isLoading s = false →
  truthyId (currentChatId s) = Some cid →
  let t := turnOf inputText nowUser nowAi s in
  forallb (fun x => negb (String.eqb (id x) (aiResponseId t)))
          (updatedMessagesWithUser t) = true →
  let s' := handleSendMessage inputText nowUser nowAi
              {| delivered := chunks; failure := None |} s in
  messages s' = updatedMessagesWithUser t ++ [finalAiMessage t (String.concat "" chunks)]
  ∧ Stated.storedMessages cid s'
    = (fun _ => messages s') <$> Stated.storedMessages cid s.
Proof.
  intros Hin Hload Hcur t Hfresh s'.
  assert (Hshown : messages s'
                   = updatedMessagesWithUser t ++ [finalAiMessage t (String.concat "" chunks)]).
  { subst s'. unfold handleSendMessage.
    rewrite (beginTurn_accepts inputText nowUser nowAi s Hin Hload). fold t.
    unfold streamUpdates. cbn [delivered failure].
    pose proof (begin_exact t) as Hb. change (render t) with s in Hb.
    destruct (chunk_phase_exact t _ chunks Hfresh "" _ (placeholder t) Hb eq_refl)
      as (m' & Hm' & Hsame).
    destruct (chunkUpdates t "" chunks) as [acc cus] eqn:Hcu. cbn [snd] in Hm'.
    pose proof (chunk_phase t chunks "" (commit (beginUpdates t) s) (placeholder t)) as Hc.
    rewrite Hcu in Hc.
    destruct Hc as (Hacc & _); [eexists; exact Hb | reflexivity |].
    rewrite append_nil_l in Hacc. subst acc.
    destruct Hsame as (Hid' & _).
    rewrite commit_app. unfold onStreamEnd, finallyBlock.
    rewrite !commit_app.
    set (f1 := fun msg : ChatMessageContent =>
                 {| id := id msg; text := String.concat "" chunks; sender := sender msg;
                    isStreaming := Some false; isError := isError msg;
                    thinkingDetails := thinkingDetails msg |}).
    pose proof (patch_exact _ f1 _ _ m' Hm' Hfresh Hid') as H1.
    pose proof (patch_exact _ (fun _ => finalAiMessage t (String.concat "" chunks))
                  _ _ (f1 m') H1 Hfresh Hid') as H2.
    change (render t) with s. rewrite Hcur.
    cbn [commit fold_left]. cbn [applyUpdate messages] in *.
    cbn. rewrite withTitleJob_messages. exact H2. }
  split; [exact Hshown |].
  unfold Stated.storedMessages. subst s'.
  rewrite (turn_store inputText nowUser nowAi _ s Hin Hload), Hcur. cbn [failure delivered].
  fold t. rewrite finalize_stored, store_stored, String.eqb_refl.
  rewrite Hshown. unfold finalMessagesForStorage. rewrite (filter_fresh _ _ Hfresh).
  now destruct (findChat cid (allChats s)).
Qed.

Lemma completed_turn_is_stored_as_shown_witness :
  let t := turnOf "Say hello" 201 202 Sample.showingA in
  let s' := handleSendMessage "Say hello" 201 202
              {| delivered := Sample.helloDeltas; failure := None |} Sample.showingA in
  messages s'
  = updatedMessagesWithUser t ++ [finalAiMessage t (String.concat "" Sample.helloDeltas)]
  ∧ Stated.storedMessages "chat-100" s'
    = (fun _ => messages s') <$> Stated.storedMessages "chat-100" Sample.showingA.
Proof.
  apply (completed_turn_is_stored_as_shown "Say hello" 201 202 Sample.helloDeltas
           "chat-100" Sample.showingA); reflexivity.
Defined.

(** X13.  A failed turn stores the question but not the errored answer.  Under
    the same conditions, when the stream fails the list shown ends with
    the errored assistant message, while what is stored for the current
    conversation is the messages of the turn without it. *)
Theorem failed_turn_answer_is_not_stored (inputText : string) (nowUser nowAi : N)
    (chunks : list string) (e : string) (cid : string) (s : AppState) :
  truthy (trim inputText) = true → isLoading s = false →
  truthyId (currentChatId s) = Some cid →
  let t := turnOf inputText nowUser nowAi s in
  forallb (fun x => negb (String.eqb (id x) (aiResponseId t)))
          (updatedMessagesWithUser t) = true →
  let s' := handleSendMessage inputText nowUser nowAi
              {| delivered := chunks; failure := Some e |} s in
  messages s'
  = updatedMessagesWithUser t
    ++ [{| id := aiResponseId t; text := String.concat "" chunks; sender := AI;
           isStreaming := Some false; isError := Some true;
           thinkingDetails := thinkingDetailsForMessage t |}]
  ∧ Stated.storedMessages cid s'
    = (fun _ => updatedMessagesWithUser t) <$> Stated.storedMessages cid s.
Proof.
  intros Hin Hload Hcur t Hfresh s'. split.
  - subst s'. unfold handleSendMessage.
    rewrite (beginTurn_accepts inputText nowUser nowAi s Hin Hload). fold t.
    unfold streamUpdates. cbn [delivered failure].
    pose proof (begin_exact t) as Hb. change (render t) with s in Hb.
    destruct (chunk_phase_exact t _ chunks Hfresh "" _ (placeholder t) Hb eq_refl)
      as (m' & Hm' & Hsame).
    destruct (chunkUpdates t "" chunks) as [acc cus] eqn:Hcu. cbn [snd] in Hm'.
    pose proof (chunk_phase t chunks "" (commit (beginUpdates t) s) (placeholder t)) as Hc.
    rewrite Hcu in Hc.
    destruct Hc as (Hacc & _); [eexists; exact Hb | reflexivity |].
    rewrite append_nil_l in Hacc. subst acc.
    destruct Hsame as (Hid' & Hsender & _ & _ & Hthink).
    rewrite commit_app. unfold onStreamError, finallyBlock.
    set (f1 := fun msg : ChatMessageContent =>
                 {| id := id msg; text := errorMessageOf e; sender := sender msg;
                    isStreaming := Some false; isError := Some true;
                    thinkingDetails := thinkingDetails msg |}).
    set (f2 := fun msg : ChatMessageContent =>
                 {| id := id msg; text := String.concat "" chunks; sender := sender msg;
                    isStreaming := Some false; isError := isError msg;
                    thinkingDetails := thinkingDetails msg |}).
    assert (H0 : messages (applyUpdate (SetError (Some (errorMessageOf e)))
                             (commit cus (commit (beginUpdates t) s)))
                 = updatedMessagesWithUser t ++ [m']) by exact Hm'.
    pose proof (patch_exact _ f1 _ _ m' H0 Hfresh Hid') as H1.
    assert (H1' : messages (applyUpdate (SetIsLoading false)
                              (applyUpdate (SetMessages (patchMessage (aiResponseId t) f1))
                                 (applyUpdate (SetError (Some (errorMessageOf e)))
                                    (commit cus (commit (beginUpdates t) s)))))
                  = updatedMessagesWithUser t ++ [f1 m']) by exact H1.
    pose proof (patch_exact _ f2 _ _ (f1 m') H1' Hfresh Hid') as H2.
    etransitivity; [exact H2 |]. subst f1 f2. cbn.
    now rewrite Hid', Hsender, Hthink.
  - unfold Stated.storedMessages. subst s'.
    rewrite (turn_store inputText nowUser nowAi _ s Hin Hload), Hcur. cbn [failure].
    fold t. rewrite store_stored, String.eqb_refl. reflexivity.
Qed.

Lemma failed_turn_answer_is_not_stored_witness :
  let t := turnOf "Say hello" 201 202 Sample.showingA in
  let s' := handleSendMessage "Say hello" 201 202
              {| delivered := ["Hel"]; failure := Some "boom" |} Sample.showingA in
  messages s'
  = updatedMessagesWithUser t
    ++ [{| id := aiResponseId t; text := String.concat "" ["Hel"]; sender := AI;
           isStreaming := Some false; isError := Some true;
           thinkingDetails := thinkingDetailsForMessage t |}]
  ∧ Stated.storedMessages "chat-100" s'
    = (fun _ => updatedMessagesWithUser t) <$> Stated.storedMessages "chat-100" Sample.showingA.
Proof.
  apply (failed_turn_answer_is_not_stored "Say hello" 201 202 ["Hel"] "boom"
           "chat-100" Sample.showingA); reflexivity.
Defined.

(** ** New conversations, deletion and the current conversation *)

Lemma startNewChat_state (now nowWelcome : N) (iso : string) (s : AppState) :
  let s1 := commit (startNewChat now nowWelcome iso s) s in
  let welcome := createNewWelcomeMessage nowWelcome (currentChatModel (settings s)) in
  messages s1 = [welcome]
  ∧ currentChatId s1 = Some ("chat-" +:+ pretty now)
  ∧ isLoading s1 = false
  ∧ error s1 = None
  ∧ allChats s1
    = {| StoredChat.id := "chat-" +:+ pretty now; StoredChat.title := "New Chat";
         StoredChat.createdAt := iso; StoredChat.messages := [welcome];
         StoredChat.aiMessagesSinceLastTitleUpdate := Some 0 |}
      :: List.filter (fun c => negb (String.eqb (StoredChat.id c) ("chat-" +:+ pretty now)))
           (allChats s).
Proof. unfold startNewChat. destruct (isSidebarOpen s); repeat split. Qed.

(** X14.  A new conversation.  After [startNewChat] the list shown is the
    welcome message alone, the new conversation is current, first in the
    store and holds that same list, every conversation with another id is
    kept in order, and the state is effectively new.  The first message
    then sent replaces the welcome message instead of following it, and
    its request carries an empty history. *)
Theorem new_chat_starts_clean (now nowWelcome : N) (iso : string) (s : AppState) :
  let s1 := commit (startNewChat now nowWelcome iso s) s in
  let welcome := createNewWelcomeMessage nowWelcome (currentChatModel (settings s)) in
  messages s1 = [welcome]
  ∧ currentChatId s1 = Some ("chat-" +:+ pretty now)
  ∧ allChats s1
    = {| StoredChat.id := "chat-" +:+ pretty now; StoredChat.title := "New Chat";
         StoredChat.createdAt := iso; StoredChat.messages := [welcome];
         StoredChat.aiMessagesSinceLastTitleUpdate := Some 0 |}
      :: List.filter (fun c => negb (String.eqb (StoredChat.id c) ("chat-" +:+ pretty now)))
           (allChats s)
  ∧ isEffectivelyNewChat s1 = true
  ∧ ∀ (inputText : string) (nowUser nowAi : N),
      let t := turnOf inputText nowUser nowAi s1 in
      updatedMessagesWithUser t = [userMessage t]
      ∧ (truthy (trim inputText) = true → ProxyService.history (request t) = []).
Proof.
  intros s1 welcome.
  destruct (startNewChat_state now nowWelcome iso s) as (Hm & Hc & Hl & _ & Ha).
  fold s1 welcome in Hm, Hc, Hl, Ha.
  assert (Hnew : isEffectivelyNewChat s1 = true).
  { unfold isEffectivelyNewChat. rewrite Hm, Hl. subst welcome.
    now rewrite welcome_isWelcome. }
  repeat (split; [assumption |]).
  intros inputText nowUser nowAi t. split.
  - subst t. unfold turnOf. cbn [updatedMessagesWithUser userMessage]. now rewrite Hnew.
  - intros Hin. subst t. rewrite request_history by assumption. now rewrite Hnew.
Qed.

Lemma findChat_filter (x del : string) (l : list StoredChat.t) :
  String.eqb x del = false →
  findChat x (List.filter (fun c => negb (String.eqb (StoredChat.id c) del)) l) = findChat x l.
Proof.
  intros Hx. unfold findChat. induction l as [|c l IH]; [reflexivity |].
  cbn [List.filter]. destruct (String.eqb (StoredChat.id c) del) eqn:Hc; cbn [negb List.find].
  - apply String.eqb_eq in Hc.
    destruct (String.eqb (StoredChat.id c) x) eqn:Hcx; [| exact IH].
    apply String.eqb_eq in Hcx. rewrite <- Hcx, Hc, String.eqb_refl in Hx. discriminate.
  - destruct (String.eqb (StoredChat.id c) x); [reflexivity | exact IH].
Qed.

Lemma findChat_In (c : StoredChat.t) (l : list StoredChat.t) :
  In c l → is_Some (findChat (StoredChat.id c) l).
Proof.
  unfold findChat. induction l as [|d l IH]; intros H; [destruct H |].
  cbn. destruct (String.eqb (StoredChat.id d) (StoredChat.id c)) eqn:Hd; [eauto |].
  destruct H as [-> | H]; [now rewrite String.eqb_refl in Hd | now apply IH].
Qed.

Lemma findChat_same_ids (x : string) (l l' : list StoredChat.t) :
  Forall2 (fun old new => StoredChat.id new = StoredChat.id old) l l' →
  is_Some (findChat x l) → is_Some (findChat x l').
Proof.
  unfold findChat. induction 1 as [|c c' l l' Hc _ IH]; [auto |].
  cbn. rewrite Hc. destruct (String.eqb (StoredChat.id c) x); eauto.
Qed.

Lemma startNewChat_current (now nowWelcome : N) (iso : string) (s : AppState) :
  currentInStore (commit (startNewChat now nowWelcome iso s) s).
Proof.
  destruct (startNewChat_state now nowWelcome iso s) as (_ & Hc & _ & _ & Ha).
  unfold currentInStore. cbv zeta in Hc, Ha. rewrite Hc, Ha.
  unfold findChat. cbn. rewrite String.eqb_refl. eauto.
Qed.

Lemma switchChat_current (chatId : string) (s : AppState) :
  currentInStore s → currentInStore (commit (switchChat chatId s) s).
Proof.
  intros H. unfold currentInStore. rewrite switchChat_store.
  unfold switchChat.
  destruct (findChat chatId (allChats s)) as [c|] eqn:Hc; [| exact H].
  change (is_Some (findChat chatId (allChats s))). rewrite Hc. eauto.
Qed.

Lemma deleteChat_current (chatIdToDelete : string) (now nowWelcome : N) (iso : string)
    (s : AppState) :
  currentInStore s → currentInStore (commit (deleteChat chatIdToDelete now nowWelcome iso s) s).
Proof.
  intros H. unfold deleteChat.
  set (updated := List.filter _ (allChats s)).
  set (s0 := applyUpdate (SetAllChats (fun _ => updated) (fun _ => None)) s).
  destruct (isCurrent (currentChatId s) chatIdToDelete) eqn:Hcur.
  - destruct updated as [|c rest] eqn:Hupd.
    + (* nothing is left: a new conversation is started *)
      change (commit (_ :: startNewChat now nowWelcome iso s) s)
        with (commit (startNewChat now nowWelcome iso s) s0).
      unfold startNewChat, currentInStore.
      destruct (isSidebarOpen s); cbn; unfold findChat; cbn;
        rewrite String.eqb_refl; eauto.
    + (* the first remaining conversation becomes current *)
      change (commit (_ :: switchChat (StoredChat.id c) s) s)
        with (commit (switchChat (StoredChat.id c) s) s0).
      assert (Hin : In c (allChats s)).
      { assert (Hc : In c updated) by (rewrite Hupd; now left).
        subst updated. apply filter_In in Hc. tauto. }
      unfold switchChat.
      destruct (findChat_In c (allChats s) Hin) as [c0 Hc0]. rewrite Hc0.
      unfold currentInStore. cbn. unfold findChat. cbn. rewrite String.eqb_refl. eauto.
  - change (commit [_] s) with s0.
    unfold currentInStore in *.
    change (currentChatId s0) with (currentChatId s).
    change (allChats s0) with updated.
    destruct (currentChatId s) as [cur|]; [| exact I].
    unfold isCurrent in Hcur. subst updated. rewrite findChat_filter; [exact H |].
    now rewrite String.eqb_sym.
Qed.

(** X15.  The current conversation is always in the store.  [startNewChat]
    establishes it; [switchChat] (to a known or an unknown id),
    [deleteChat] (of the current conversation, of the last one, or of
    another) and a whole [handleSendMessage] (whatever the stream does)
    preserve it. *)
Theorem current_conversation_stays_stored (s : AppState) :
  currentInStore s →
  (∀ now nowWelcome iso, currentInStore (commit (startNewChat now nowWelcome iso s) s))
  ∧ (∀ chatId, currentInStore (commit (switchChat chatId s) s))
  ∧ (∀ chatIdToDelete now nowWelcome iso,
       currentInStore (commit (deleteChat chatIdToDelete now nowWelcome iso s) s))
  ∧ (∀ inputText nowUser nowAi stream,
       currentInStore (handleSendMessage inputText nowUser nowAi stream s)).
Proof.
  intros H. split; [| split; [| split]].
  - intros. apply startNewChat_current.
  - intros. now apply switchChat_current.
  - intros. now apply deleteChat_current.
  - intros inputText nowUser nowAi stream. unfold currentInStore in *.
    rewrite turn_keeps_current. destruct (currentChatId s) as [cur|]; [| exact I].
    eapply findChat_same_ids; [| exact H].
    eapply Forall2_impl; [apply turn_store_frame |]. cbn. tauto.
Qed.

Lemma current_conversation_stays_stored_witness :
  (∀ now nowWelcome iso,
     currentInStore (commit (startNewChat now nowWelcome iso Sample.showingA) Sample.showingA))
  ∧ (∀ chatId, currentInStore (commit (switchChat chatId Sample.showingA) Sample.showingA))
  ∧ (∀ chatIdToDelete now nowWelcome iso,
       currentInStore
         (commit (deleteChat chatIdToDelete now nowWelcome iso Sample.showingA) Sample.showingA))
  ∧ (∀ inputText nowUser nowAi stream,
       currentInStore (handleSendMessage inputText nowUser nowAi stream Sample.showingA)).
Proof.
  apply (current_conversation_stays_stored Sample.showingA).
  vm_compute. eauto.
Defined.

(** Deleting the current conversation with others left shows the first
    of them; deleting the only conversation starts a new one. *)
Example delete_current_then_last :
  let s1 := commit (deleteChat "chat-100" 300 301 "2025-02-01T00:00:00.000Z" Sample.showingA)
              Sample.showingA in
  let s2 := commit (deleteChat "chat-50" 400 401 "2025-02-02T00:00:00.000Z" s1) s1 in
  currentChatId s1 = Some "chat-50"
  ∧ map StoredChat.id (allChats s1) = ["chat-50"]
  ∧ map text (messages s1) = ["Plan my trip to Rome"; "Gladly."]
  ∧ currentChatId s2 = Some "chat-400"
  ∧ map StoredChat.id (allChats s2) = ["chat-400"]
  ∧ isEffectivelyNewChat s2 = true.
Proof. vm_compute. repeat split. Qed.

(** ** The title job of a first message *)





(** A title job for a conversation with a real exchange does call the
    generator, and commits the title it returns with the counter reset;
    if the generator throws, nothing is committed. *)
Lemma title_job_commits (captured : option string)
    (generate : list ChatMessageContent → string → outcome string)
    (job : ChatContextForTitleUpdate) (s : AppState) (loading : bool) :
  titleUpdateQueue s = Some job →
  isCurrent captured (ctxId job) = true →
  hasUserMessage (messagesForContext job) = true →
  processTitleUpdateQueue captured generate {| app := s; isTitleLoading := loading |}
  = (match generate (messagesForContext job) INITIAL_AI_WELCOME_TEXT_BASE with
     | Return newTitle =>
         {| app := withAllChats (retitle (ctxId job) newTitle true (allChats s))
                     (clearTitleQueue s);
            isTitleLoading := false |}
     | Throw _ => {| app := clearTitleQueue s; isTitleLoading := false |}
     end, [messagesForContext job]).
Proof.
  intros Hq Hcur Hu. unfold processTitleUpdateQueue. cbn [app].
  rewrite Hq, Hcur, Hu. reflexivity.
Qed.

(** ** Later turns of a conversation that has no generated title *)

Lemma commit_setMessages (us : list Update) (s : AppState) :
  forallb isSetMessages us = true →
  titleUpdateQueue (commit us s) = titleUpdateQueue s
  ∧ titleUpdateTimeout (commit us s) = titleUpdateTimeout s
  ∧ allChats (commit us s) = allChats s.
Proof.
  revert s. induction us as [|u us IH]; intros s H; [auto |].
  cbn [forallb] in H. apply andb_prop in H as [Hu Hus].
  change (commit (u :: us) s) with (commit us (applyUpdate u s)).
  destruct (IH (applyUpdate u s) Hus) as (-> & -> & ->).
  destruct u; try discriminate. auto.
Qed.

Lemma chunkUpdates_setMessages (t : Turn) (chunks : list string) (acc : string) :
  forallb isSetMessages (snd (chunkUpdates t acc chunks)) = true.
Proof.
  revert acc. induction chunks as [|c chunks IH]; intros acc; [reflexivity |].
  cbn [chunkUpdates]. unfold onChunk. destruct (truthy c).
  - specialize (IH (acc +:+ c)). destruct (chunkUpdates t (acc +:+ c) chunks). exact IH.
  - specialize (IH acc). destruct (chunkUpdates t acc chunks). exact IH.
Qed.

Lemma finalizeSchedules_untitled (t : Turn) (cid : string) (chats : list StoredChat.t) :
  forallb (fun chat => negb (String.eqb (StoredChat.id chat) cid)
                       || String.eqb (StoredChat.title chat) "New Chat") chats = true →
  finalizeSchedules t cid chats = None.
Proof.
  intros H. unfold finalizeSchedules.
  assert (Hex : existsb (fun chat =>
                  String.eqb (StoredChat.id chat) cid
                  && (TITLE_UPDATE_MESSAGE_THRESHOLD <=? newAiMessageCount chat)%nat
                  && negb (String.eqb (StoredChat.title chat) "New Chat")) chats = false).
  { induction chats as [|c chats IH]; [reflexivity |].
    cbn [forallb existsb] in *. apply andb_prop in H as [Hc Hrest].
    rewrite (IH Hrest), orb_false_r.
    destruct (String.eqb (StoredChat.id c) cid); [| reflexivity].
    cbn [negb orb] in Hc. rewrite Hc. now rewrite andb_false_r. }
  now rewrite Hex.
Qed.

Lemma storeMessages_titles (cid : string) (msgs : list ChatMessageContent)
    (P : StoredChat.t → bool) (chats : list StoredChat.t) :
  (∀ c c', StoredChat.id c' = StoredChat.id c → StoredChat.title c' = StoredChat.title c →
           P c' = P c) →
  forallb P (storeMessages cid msgs chats) = forallb P chats.
Proof.
  intros HP. unfold storeMessages. induction chats as [|c chats IH]; [reflexivity |].
  cbn [map forallb]. rewrite IH. f_equal.
  destruct (String.eqb (StoredChat.id c) cid); [| reflexivity]. now apply HP.
Qed.

Lemma same_titles_untitled (cur : option string) (l l' : list StoredChat.t) :
  Forall2 (fun old new =>
             StoredChat.id new = StoredChat.id old
             ∧ StoredChat.title new = StoredChat.title old
             ∧ StoredChat.createdAt new = StoredChat.createdAt old
             ∧ (isCurrent cur (StoredChat.id old) = false → new = old)) l l' →
  forallb (fun chat => negb (isCurrent cur (StoredChat.id chat))
                       || String.eqb (StoredChat.title chat) "New Chat") l = true →
  forallb (fun chat => negb (isCurrent cur (StoredChat.id chat))
                       || String.eqb (StoredChat.title chat) "New Chat") l' = true.
Proof.
  induction 1 as [|c c' l l' (Hid & Htitle & _) _ IH]; [auto |].
  cbn [forallb]. intros H. apply andb_prop in H as [Hc Hl].
  rewrite Hid, Htitle, Hc. now apply IH.
Qed.

Lemma chunkUpdates_length (t : Turn) (chunks : list string) :
  ∀ (acc : string) (s : AppState),
    length (messages (commit (snd (chunkUpdates t acc chunks)) s)) = length (messages s).
Proof.
  induction chunks as [|c chunks IH]; intros acc s; [reflexivity |].
  cbn [chunkUpdates]. unfold onChunk. destruct (truthy c).
  - specialize (IH (acc +:+ c)
                  (applyUpdate (SetMessages (patchMessage (aiResponseId t)
                                               (withText (acc +:+ c)))) s)).
    destruct (chunkUpdates t (acc +:+ c) chunks) as [acc' us]. cbn [snd] in *.
    change (commit ([_] ++ us) s)
      with (commit us (applyUpdate (SetMessages (patchMessage (aiResponseId t)
                                                   (withText (acc +:+ c)))) s)).
    rewrite IH. cbn. unfold patchMessage. apply length_map.
  - specialize (IH acc s). destruct (chunkUpdates t acc chunks) as [acc' us]. exact IH.
Qed.

Lemma turn_tail_length (t : Turn) (acc : string) (failed : option string) (s : AppState) :
  let us := match failed with
            | None => onStreamEnd t acc
            | Some e => onStreamError t acc e
            end in
  length (messages (commit us s)) = length (messages s)
  ∧ isLoading (commit us s) = false.
Proof.
  destruct failed as [e|]; cbv zeta.
  - cbn. unfold patchMessage. rewrite !length_map. auto.
  - unfold onStreamEnd. destruct (truthyId (currentChatId (render t))) as [cid|]; cbn.
    + rewrite withTitleJob_messages. cbn. unfold patchMessage. rewrite !length_map. auto.
    + unfold patchMessage. rewrite !length_map. auto.
Qed.

(** X28.  A conversation that still has the title "New Chat" is not given
    another by later turns.  When a message is accepted in a conversation
    that is no longer effectively new and whose stored entries all carry
    the title "New Chat", the whole turn (whatever the stream does, and
    however many answers the conversation has had) queues no title update
    and arms no timer, and the title is still "New Chat" afterwards: so the
    same holds of every later turn. *)
Theorem untitled_conversation_stays_untitled (inputText : string) (nowUser nowAi : N)
    (stream : Stream) (s : AppState) :
  truthy (trim inputText) = true → isLoading s = false →
  isEffectivelyNewChat s = false → untitled s = true →
  let s' := handleSendMessage inputText nowUser nowAi stream s in
  titleUpdateQueue s' = titleUpdateQueue s
  ∧ titleUpdateTimeout s' = titleUpdateTimeout s
  ∧ untitled s' = true
  ∧ isEffectivelyNewChat s' = false
  ∧ isLoading s' = false.
Proof.
  intros Hin Hload Hnew Hun s'.
  assert (Hshape : (2 ≤ length (messages s'))%nat ∧ isLoading s' = false).
  { subst s'. unfold handleSendMessage.
    rewrite (beginTurn_accepts inputText nowUser nowAi s Hin Hload).
    set (t := turnOf inputText nowUser nowAi s). unfold streamUpdates.
    pose proof (chunkUpdates_length t (delivered stream) "" (commit (beginUpdates t) s)) as Hc.
    destruct (chunkUpdates t "" (delivered stream)) as [acc cus]. cbn [snd] in Hc.
    rewrite commit_app.
    destruct (turn_tail_length t acc (failure stream) (commit cus (commit (beginUpdates t) s)))
      as [Hlen Hidle].
    rewrite Hlen, Hc, Hidle. split; [| reflexivity].
    pose proof (begin_exact t) as Hb. change (render t) with s in Hb.
    rewrite Hb, length_app. subst t. unfold turnOf. cbn [updatedMessagesWithUser].
    rewrite length_app. cbn [length]. lia. }
  destruct Hshape as [Hlen Hidle].
  assert (Hun' : untitled s' = true).
  { unfold untitled. subst s'. rewrite turn_keeps_current.
    apply (same_titles_untitled (currentChatId s) (allChats s)); [| exact Hun].
    apply turn_store_frame. }
  assert (Hnew' : isEffectivelyNewChat s' = false).
  { unfold isEffectivelyNewChat.
    assert (Hle : (length (messages s') <=? 1)%nat = false) by (apply Nat.leb_gt; lia).
    now rewrite Hle. }
  split; [| split; [| repeat split; assumption]].
  all: subst s'; unfold handleSendMessage;
    rewrite (beginTurn_accepts inputText nowUser nowAi s Hin Hload);
    set (t := turnOf inputText nowUser nowAi s);
    unfold streamUpdates;
    pose proof (chunkUpdates_setMessages t (delivered stream) "") as Hc;
    destruct (chunkUpdates t "" (delivered stream)) as [acc cus]; cbn [snd] in Hc;
    rewrite commit_app;
    destruct (commit_setMessages cus (commit (beginUpdates t) s) Hc) as (Hq & Ht & Ha);
    set (s1 := commit cus (commit (beginUpdates t) s)) in *;
    assert (Hb : titleUpdateQueue (commit (beginUpdates t) s) = titleUpdateQueue s
                 ∧ titleUpdateTimeout (commit (beginUpdates t) s) = titleUpdateTimeout s)
      by (unfold beginUpdates; change (render t) with s; rewrite Hnew;
          destruct (truthyId (currentChatId s)); split; reflexivity);
    destruct Hb as [Hbq Hbt];
    (destruct (failure stream) as [e|];
     [ cbn; congruence |]);
    unfold onStreamEnd; change (render t) with s;
    (destruct (truthyId (currentChatId s)) as [cid|] eqn:Hcur;
     [| cbn; congruence]);
    assert (Hnone : finalizeSchedules t cid (allChats s1) = None)
      by (apply finalizeSchedules_untitled; rewrite Ha;
          destruct (beginUpdates_effect t) as [_ Hstore]; change (render t) with s in Hstore;
          rewrite Hstore, Hcur;
          rewrite storeMessages_titles by (intros c c' H1 H2; now rewrite H1, H2);
          unfold untitled in Hun; rewrite (truthyId_current _ _ Hcur) in Hun;
          exact Hun);
    cbn; rewrite Hnone; cbn; congruence.
Qed.

Lemma untitled_conversation_stays_untitled_witness :
  let s := handleSendMessage "Plan my trip to Rome" 502 503
             {| delivered := ["Gladly."]; failure := None |}
             (commit (startNewChat 500 501 "2025-03-01T00:00:00.000Z" Sample.showingA)
                Sample.showingA) in
  let s' := handleSendMessage "And to Milan" 504 505
              {| delivered := ["Of "; "course."]; failure := None |} s in
  titleUpdateQueue s' = titleUpdateQueue s
  ∧ titleUpdateTimeout s' = titleUpdateTimeout s
  ∧ untitled s' = true
  ∧ isEffectivelyNewChat s' = false
  ∧ isLoading s' = false.
Proof.
  apply (untitled_conversation_stays_untitled "And to Milan" 504 505
           {| delivered := ["Of "; "course."]; failure := None |}
           (handleSendMessage "Plan my trip to Rome" 502 503
              {| delivered := ["Gladly."]; failure := None |}
              (commit (startNewChat 500 501 "2025-03-01T00:00:00.000Z" Sample.showingA)
                 Sample.showingA))); reflexivity.
Defined.

(** ** A refused chat request *)

Lemma truthy_append_l (a b : string) : truthy a = true → truthy (a +:+ b) = true.
Proof. destruct a; [discriminate | reflexivity]. Qed.

Lemma errorText_truthy (r : ProxyGateway.ChatResponse) :
  truthy (ProxyGateway.errorTextOf r) = true.
Proof.
  unfold ProxyGateway.errorTextOf.
  assert (Hd : truthy ("API request failed with status " +:+ pretty (ProxyGateway.status r)) = true)
    by (now apply truthy_append_l).
  destruct (ProxyGateway.errorJson r) as [[e|]|]; cbn [or_default]; try exact Hd.
  unfold or_else. destruct (truthy e) eqn:He; [exact He | exact Hd].
Qed.

(** X17.  A refused chat request.  When the proxy answers a chat request with a
    status that is not ok (or without a body), an accepted turn ends with
    the banner "Error: " followed by the error text of the answer (its
    [error] field when the body is JSON and has a non-empty one, otherwise
    "API request failed with status N"), with the assistant message
    marked as an error and not streaming, the application idle again, and
    nothing but the question stored. *)
Theorem refused_chat_request (inputText : string) (nowUser nowAi : N)
    (r : ProxyGateway.ChatResponse) (s : AppState) :
  truthy (trim inputText) = true → isLoading s = false →
  ProxyGateway.chatOk r = false ∨ ProxyGateway.body r = None →
  let t := turnOf inputText nowUser nowAi s in
  let s' := handleSendMessage inputText nowUser nowAi
              (ProxyGateway.sendMessageToChatStream (Return r)) s in
  error s' = Some ("Error: " +:+ ProxyGateway.errorTextOf r)
  ∧ isLoading s' = false
  ∧ (isError <$> lastMessage s') = Some (Some true)
  ∧ (isStreaming <$> lastMessage s') = Some (Some false)
  ∧ allChats s' = allChats (commit (beginUpdates t) s).
Proof.
  intros Hin Hload Href t s'.
  assert (Hstream : ProxyGateway.sendMessageToChatStream (Return r)
                    = {| delivered := []; failure := Some (ProxyGateway.errorTextOf r) |}).
  { unfold ProxyGateway.sendMessageToChatStream.
    destruct (ProxyGateway.body r) as [b|]; [| reflexivity].
    destruct (ProxyGateway.chatOk r); [| reflexivity].
    destruct Href; discriminate. }
  subst s'. rewrite Hstream.
  destruct (failing_stream inputText nowUser nowAi [] (ProxyGateway.errorTextOf r) s Hin Hload)
    as (Hlast & Herr & Hidle & Hstore & _).
  fold t in Hlast, Hstore. rewrite Hlast, Herr, Hidle, Hstore.
  unfold errorMessageOf, or_else. rewrite errorText_truthy. repeat split.
Qed.

Lemma refused_chat_request_witness :
  let r := {| ProxyGateway.chatOk := false; ProxyGateway.status := 500;
              ProxyGateway.body := None;
              ProxyGateway.errorJson := Return (Some "API key not configured on the server") |} in
  let t := turnOf "Say hello" 201 202 Sample.showingA in
  let s' := handleSendMessage "Say hello" 201 202
              (ProxyGateway.sendMessageToChatStream (Return r)) Sample.showingA in
  error s' = Some ("Error: " +:+ ProxyGateway.errorTextOf r)
  ∧ isLoading s' = false
  ∧ (isError <$> lastMessage s') = Some (Some true)
  ∧ (isStreaming <$> lastMessage s') = Some (Some false)
  ∧ allChats s' = allChats (commit (beginUpdates t) Sample.showingA).
Proof.
  apply (refused_chat_request "Say hello" 201 202
           {| ProxyGateway.chatOk := false; ProxyGateway.status := 500;
              ProxyGateway.body := None;
              ProxyGateway.errorJson := Return (Some "API key not configured on the server") |}
           Sample.showingA); [reflexivity | reflexivity | left; reflexivity].
Defined.

End TurnAndStore.

(* ================================================================== *)
(** * The summarization page *)
(* ================================================================== *)

Section SummaryPage.

Import Summarize.

Lemma truthy_append (a b : string) : truthy (a +:+ b) = truthy a || truthy b.
Proof. destruct a; [reflexivity |]. now rewrite append_cons. Qed.


(** The loop of [handleSummarize]: the accumulator is empty until the
    first non-empty chunk and is shown from then on. *)
Lemma summary_loop (chunks : list string) :
  ∀ (p : Page) (first : bool) (acc : string),
    (first = false → acc = "") → (first = true → displayText p = acc) →
    let '(p', (first', acc')) := fold_left summaryChunk chunks (p, (first, acc)) in
    acc' = acc +:+ String.concat "" chunks
    ∧ first' = first || truthy (String.concat "" chunks)
    ∧ (first' = true → displayText p' = acc')
    ∧ (first' = false → p' = p)
    ∧ aiInstance p' = aiInstance p ∧ originalText p' = originalText p
    ∧ isSummarizing p' = isSummarizing p ∧ summaryError p' = summaryError p
    ∧ isSummaryComplete p' = isSummaryComplete p.
Proof.
  induction chunks as [|c chunks IH]; intros p first acc Hacc Hshown.
  - cbn. rewrite append_empty_r, orb_false_r. repeat split; auto.
  - cbn [fold_left]. rewrite concat_cons. unfold summaryChunk at 2.
    destruct (truthy c) eqn:Hc.
    + destruct first; cbn [negb].
      * specialize (IH (setDisplayText (acc +:+ c) p) true (acc +:+ c)).
        destruct (fold_left summaryChunk chunks _) as [p' [first' acc']].
        destruct IH as (H1 & H2 & H3 & H4 & H5 & H6 & H7 & H8 & H9);
          [discriminate | reflexivity |].
        rewrite H1, H2, append_assoc. cbn [orb].
        repeat split; auto.
        -- intros _. rewrite H3 by (now rewrite H2). now rewrite H1, append_assoc.
        -- discriminate.
      * rewrite (Hacc eq_refl), append_nil_l.
        specialize (IH (setDisplayText c p) true c).
        destruct (fold_left summaryChunk chunks _) as [p' [first' acc']].
        destruct IH as (H1 & H2 & H3 & H4 & H5 & H6 & H7 & H8 & H9);
          [discriminate | reflexivity |].
        rewrite H1, H2, truthy_append, Hc. cbn [orb].
        repeat split; auto.
        -- intros _. rewrite H3 by (now rewrite H2). exact H1.
        -- discriminate.
    + apply truthy_false in Hc. subst c. rewrite !append_nil_l.
      specialize (IH p first acc Hacc Hshown).
      destruct (fold_left summaryChunk chunks _) as [p' [first' acc']]. exact IH.
Qed.

(** X18.  A summary stream that ends normally.  Once [handleSummarize] is
    accepted (service ready, original text not blank, not already
    summarizing), the text shown is the concatenation of the chunks; when
    that is empty the page reports "AI returned an empty summary.",
    otherwise no error; and the page is no longer summarizing and the
    summary is complete. *)
Theorem summary_is_the_concatenation (chunks : list string) (p : Page) :
  aiInstance p = true → truthy (trim (originalText p)) = true → isSummarizing p = false →
  let p' := handleSummarize {| delivered := chunks; failure := None |} p in
  displayText p' = String.concat "" chunks
  ∧ summaryError p' = (if truthy (String.concat "" chunks) then None
                       else Some "AI returned an empty summary.")
  ∧ isSummarizing p' = false
  ∧ isSummaryComplete p' = true.
Proof.
  intros Hai Htext Hbusy p'. subst p'. unfold handleSummarize.
  rewrite Hai, Htext, Hbusy. cbn [negb orb delivered failure].
  pose proof (summary_loop chunks
                (setIsSummaryComplete false (setSummaryError None (setIsSummarizing true p)))
                false "" (fun _ => eq_refl)) as Hloop.
  destruct (fold_left summaryChunk chunks _) as [p1 [first acc]].
  destruct Hloop as (Hacc & Hfirst & Hshown & Hsame & _ & _ & _ & Herr & _);
    [discriminate |].
  rewrite append_nil_l in Hacc. cbn [orb] in Hfirst. subst acc first.
  destruct (truthy (String.concat "" chunks)) eqn:Ht; cbn [negb andb].
  - cbn. rewrite (Hshown eq_refl), Herr. repeat split.
  - cbn. apply truthy_false in Ht. rewrite Ht. repeat split.
Qed.

Lemma summary_is_the_concatenation_witness :
  let p := {| aiInstance := true; originalText := "A long text."; displayText := "A long text.";
              isSummarizing := false; summaryError := None; isSummaryComplete := false |} in
  let p' := handleSummarize {| delivered := ["Short"; ""; " text."]; failure := None |} p in
  displayText p' = String.concat "" ["Short"; ""; " text."]
  ∧ summaryError p' = (if truthy (String.concat "" ["Short"; ""; " text."]) then None
                       else Some "AI returned an empty summary.")
  ∧ isSummarizing p' = false
  ∧ isSummaryComplete p' = true.
Proof.
  apply (summary_is_the_concatenation ["Short"; ""; " text."]
           {| aiInstance := true; originalText := "A long text."; displayText := "A long text.";
              isSummarizing := false; summaryError := None; isSummaryComplete := false |});
    reflexivity.
Defined.

(** X19.  A summary stream that fails.  The page reports "Summarization
    failed: ..." and is marked complete all the same; what is shown is the
    text accumulated before the failure, or, when no non-empty chunk had
    arrived, the text that was shown before (the original text), which so
    becomes the editable summary. *)
Theorem failed_summary_keeps_what_arrived (chunks : list string) (e : string) (p : Page) :
  aiInstance p = true → truthy (trim (originalText p)) = true → isSummarizing p = false →
  let p' := handleSummarize {| delivered := chunks; failure := Some e |} p in
  displayText p' = (if truthy (String.concat "" chunks)
                    then String.concat "" chunks else displayText p)
  ∧ summaryError p' = Some (summaryFailed e)
  ∧ isSummarizing p' = false
  ∧ isSummaryComplete p' = true.
Proof.
  intros Hai Htext Hbusy p'. subst p'. unfold handleSummarize.
  rewrite Hai, Htext, Hbusy. cbn [negb orb delivered failure].
  pose proof (summary_loop chunks
                (setIsSummaryComplete false (setSummaryError None (setIsSummarizing true p)))
                false "" (fun _ => eq_refl)) as Hloop.
  destruct (fold_left summaryChunk chunks _) as [p1 [first acc]].
  destruct Hloop as (Hacc & Hfirst & Hshown & Hsame & _);
    [discriminate |].
  rewrite append_nil_l in Hacc. cbn [orb] in Hfirst. subst acc first.
  destruct (truthy (String.concat "" chunks)) eqn:Ht.
  - cbn. rewrite (Hshown eq_refl). repeat split.
  - cbn. rewrite (Hsame eq_refl). repeat split.
Qed.

Lemma failed_summary_keeps_what_arrived_witness :
  let p := {| aiInstance := true; originalText := "A long text."; displayText := "A long text.";
              isSummarizing := false; summaryError := None; isSummaryComplete := false |} in
  let p' := handleSummarize {| delivered := []; failure := Some "quota" |} p in
  displayText p' = (if truthy (String.concat "" []) then String.concat "" [] else displayText p)
  ∧ summaryError p' = Some (summaryFailed "quota")
  ∧ isSummarizing p' = false
  ∧ isSummaryComplete p' = true.
Proof.
  apply (failed_summary_keeps_what_arrived [] "quota"
           {| aiInstance := true; originalText := "A long text."; displayText := "A long text.";
              isSummarizing := false; summaryError := None; isSummaryComplete := false |});
    reflexivity.
Defined.

End SummaryPage.

Section FollowUpModes.

Import Summarizer.


(** The loop never writes the error. *)
Lemma followUpLoop_error (chunks : list string) :
  ∀ (s : State) (l : Locals),
    followUpError (fst (followUpLoop chunks (s, l))) = followUpError s.
Proof.
  induction chunks as [|c cs IH]; intros st lc; [reflexivity |].
  unfold followUpLoop in *. cbn [fold_left].
  destruct (followUpChunk c (st, lc)) as [st' lc'] eqn:Hstep. rewrite IH.
  unfold followUpChunk in Hstep. destruct (truthy c); cbn [negb] in Hstep.
  - destruct (negb (isReplacingSummaryRef st) && includes c REPLACE_SUMMARY_COMMAND).
    + destruct (truthy (textAfterCommand c)); now inversion Hstep.
    + destruct (isReplacingSummaryRef st); now inversion Hstep.
  - now inversion Hstep.
Qed.

(** While no command has been seen, the answer shown is the accumulator. *)
Lemma followUpLoop_response (chunks : list string) :
  ∀ (s : State) (l : Locals),
    isReplacingSummaryRef s = false →
    Forall (fun c => includes c REPLACE_SUMMARY_COMMAND = false) chunks →
    followUpResponse s = currentFollowUpTextAccumulator l →
    followUpResponse (fst (followUpLoop chunks (s, l)))
    = currentFollowUpTextAccumulator (snd (followUpLoop chunks (s, l))).
Proof.
  induction chunks as [|c cs IH]; intros st lc Hrep Hall Hinv; [exact Hinv |].
  inversion Hall as [|? ? Hin Hrest]; subst.
  unfold followUpLoop in *. cbn [fold_left]. unfold followUpChunk at 2 4.
  rewrite Hrep, Hin. destruct (truthy c); cbn [negb andb].
  - apply IH; [exact Hrep | exact Hrest | reflexivity].
  - apply IH; assumption.
Qed.

(** The state after the reset of [handleAskFollowUp] and a run of deltas
    without the command. *)
Lemma followUp_prefix (chunks : list string) (s : State) :
  Forall (fun c => includes c REPLACE_SUMMARY_COMMAND = false) chunks →
  let '(s', l') :=
    followUpLoop chunks
      (setIsReplacingSummaryRef false
         (setDidFollowUpActAsReplacement false
            (setFollowUpResponse "" (setFollowUpError None (setIsAskingFollowUp true s)))),
       {| revisedSummaryAccumulator := ""; currentFollowUpTextAccumulator := "" |}) in
  isReplacingSummaryRef s' = false
  ∧ revisedSummaryAccumulator l' = ""
  ∧ followUpResponse s' = String.concat "" chunks
  ∧ displayText s' = displayText s
  ∧ didFollowUpActAsReplacement s' = false
  ∧ followUpError s' = None.
Proof.
  intros Hall.
  set (s0 := setIsReplacingSummaryRef false _).
  set (l0 := {| revisedSummaryAccumulator := ""; currentFollowUpTextAccumulator := "" |}).
  pose proof (followUpLoop_plain chunks s0 l0 eq_refl Hall) as Hloop.
  pose proof (followUpLoop_response chunks s0 l0 eq_refl Hall eq_refl) as Hshown.
  pose proof (followUpLoop_error chunks s0 l0) as Herr.
  destruct (followUpLoop chunks (s0, l0)) as [s1 l1].
  destruct Hloop as (Hrep1 & Hrev1 & Hcur1 & Hdisp1 & Hdid1).
  cbn [fst snd] in Herr, Hshown. cbn in Hcur1.
  rewrite Hshown, Hcur1. repeat split; assumption.
Qed.

(** X20.  A follow-up that is an answer.  When [handleAskFollowUp] is accepted
    (service ready, question and summary not blank, summary complete) and no
    delta contains the replace command, the follow-up is shown as the
    answer: the answer text is the concatenation of the deltas, the summary
    is left as it was, the page is not marked as having replaced it, and the
    request is over; a failure of the stream is reported as "Follow-up
    failed: ...". *)
Theorem follow_up_answer (chunks : list string) (failed : option string) (s : State) :
  aiInstance s = true → truthy (trim (followUpQuestion s)) = true →
  truthy (trim (displayText s)) = true → isSummaryComplete s = true →
  Forall (fun c => includes c REPLACE_SUMMARY_COMMAND = false) chunks →
  let s' := fst (handleAskFollowUp {| delivered := chunks; failure := failed |} s) in
  followUpResponse s' = String.concat "" chunks
  ∧ displayText s' = displayText s
  ∧ didFollowUpActAsReplacement s' = false
  ∧ isAskingFollowUp s' = false
  ∧ followUpError s' = (followUpFailed <$> failed).
Proof.
  intros Hai Hq Hd Hc Hall s'. subst s'. unfold handleAskFollowUp.
  rewrite Hai, Hq, Hd, Hc. cbn [negb orb delivered failure].
  pose proof (followUp_prefix chunks s Hall) as Hp.
  destruct (followUpLoop chunks _) as [s1 l1].
  destruct Hp as (Hrep1 & Hrev1 & Hresp1 & Hdisp1 & Hdid1 & Herr1).
  destruct failed as [e|]; cbn [fst].
  - cbn. rewrite Hresp1, Hdisp1, Hdid1. repeat split.
  - unfold afterLoop. rewrite Hrep1. cbn [andb fst]. cbn.
    rewrite Hresp1, Hdisp1, Hdid1, Herr1. repeat split.
Qed.

Lemma follow_up_answer_witness :
  let s' := fst (handleAskFollowUp {| delivered := ["The source "; "is a blog."];
                                      failure := None |}
                   (ready "Old summary" "What was the source?")) in
  followUpResponse s' = String.concat "" ["The source "; "is a blog."]
  ∧ displayText s' = displayText (ready "Old summary" "What was the source?")
  ∧ didFollowUpActAsReplacement s' = false
  ∧ isAskingFollowUp s' = false
  ∧ followUpError s' = (followUpFailed <$> None).
Proof.
  apply (follow_up_answer ["The source "; "is a blog."] None
           (ready "Old summary" "What was the source?"));
    [reflexivity | reflexivity | reflexivity | reflexivity | repeat constructor].
Defined.



End FollowUpModes.

(* ================================================================== *)
(** * Saving, and opening the application again *)
(* ================================================================== *)

Section Reopening.

Import App LocalStorage Conversations Reopen.

Lemma put_same (k v : string) (ls : Storage) :
  items ls !! k = Some v → put k v ls = ls.
Proof. intros H. destruct ls as [m r w]. unfold put. cbn in *. f_equal. now apply insert_id. Qed.

Lemma stored_put_same (k v : string) (ls : Storage) :
  stored k (put k v ls) = if readable ls then Some v else None.
Proof.
  unfold stored, put. cbn. destruct (readable ls); [apply lookup_insert_eq | reflexivity].
Qed.

Lemma or_default_truthy (a : option string) (d : string) :
  truthy d = true → truthy (or_default a d) = true.
Proof.
  intros Hd. destruct a as [v|]; [| exact Hd]. unfold or_default, or_else.
  destruct (truthy v) eqn:Hv; assumption.
Qed.

Lemma or_default_again (a : option string) (d : string) :
  truthy d = true → or_default (Some (or_default a d)) d = or_default a d.
Proof.
  intros Hd. change (or_default (Some ?x) d) with (or_else x d). unfold or_else at 1.
  now rewrite or_default_truthy.
Qed.

Lemma saves_never_throw_aux (JSON_stringify : list StoredChat.t → outcome string)
    (chats : list StoredChat.t) (activeId : option string) (ls : Storage) :
  saveChats JSON_stringify chats ls
  = Return (match JSON_stringify chats with
            | Return j => if writable ls then put ALL_CHATS_KEY j ls else ls
            | Throw _ => ls
            end)
  ∧ saveActiveChatId activeId ls
    = Return (if writable ls
              then match truthyId activeId with
                   | Some i => put ACTIVE_CHAT_ID_KEY i ls
                   | None => removed ACTIVE_CHAT_ID_KEY ls
                   end
              else ls).
Proof.
  unfold saveChats, saveActiveChatId, setItem, removeItem, put, removed, truthyId, swallow.
  split.
  - destruct (JSON_stringify chats); cbn; [| reflexivity]. destruct (writable ls); reflexivity.
  - destruct activeId as [i|]; [destruct (truthy i) |]; destruct (writable ls); reflexivity.
Qed.

(** X22.  No save of the adapter throws.  When the write is accepted the value
    is stored under the key of the setting (an absent or empty active
    conversation id removes its key instead); when the write is refused,
    or the conversations cannot be serialised, the storage is left as it
    was. *)
Theorem saves_never_throw (JSON_stringify : list StoredChat.t → outcome string)
    (chats : list StoredChat.t) (activeId : option string) (v : string) (ls : Storage) :
  saveChats JSON_stringify chats ls
  = Return (match JSON_stringify chats with
            | Return j => if writable ls then put ALL_CHATS_KEY j ls else ls
            | Throw _ => ls
            end)
  ∧ saveActiveChatId activeId ls
    = Return (if writable ls
              then match truthyId activeId with
                   | Some i => put ACTIVE_CHAT_ID_KEY i ls
                   | None => removed ACTIVE_CHAT_ID_KEY ls
                   end
              else ls)
  ∧ saveCustomCSS v ls = Return (if writable ls then put CUSTOM_CSS_KEY v ls else ls)
  ∧ saveBaseTheme v ls = Return (if writable ls then put BASE_THEME_KEY v ls else ls)
  ∧ saveAccentTheme v ls = Return (if writable ls then put ACCENT_THEME_KEY v ls else ls)
  ∧ saveTargetLanguage v ls
    = Return (if writable ls then put TARGET_LANGUAGE_KEY v ls else ls).
Proof.
  unfold saveChats, saveActiveChatId, saveCustomCSS, saveBaseTheme, saveAccentTheme,
    saveTargetLanguage, setItem, removeItem, put, removed, truthyId, swallow.
  repeat split.
  - destruct (JSON_stringify chats); cbn; [| reflexivity]. destruct (writable ls); reflexivity.
  - destruct activeId as [i|]; [destruct (truthy i) |]; destruct (writable ls); reflexivity.
  - destruct (writable ls); reflexivity.
  - destruct (writable ls); reflexivity.
  - destruct (writable ls); reflexivity.
  - destruct (writable ls); reflexivity.
Qed.

(** X23.  Opening the application twice.  Whatever the storage holds and
    whether or not it can be read or written, mounting never throws, and
    mounting again on the storage the first mount left gives the same
    settings and leaves that storage as it is. *)
Theorem reload_is_stable (ls : Storage) :
  ∃ c, mount ls = Return c ∧ reload c = Return c.
Proof.
  unfold reload, mount. rewrite initialSettings_returns. cbn [bind baseTheme accentTheme].
  destruct (writable ls) eqn:Hw.
  - destruct (save_puts ls (or_default (stored BASE_THEME_KEY ls) "dark") Hw) as (-> & _).
    cbn [bind].
    set (b := or_default (stored BASE_THEME_KEY ls) "dark").
    set (a := or_default (stored ACCENT_THEME_KEY ls) "default").
    destruct (save_puts (put BASE_THEME_KEY b ls) a Hw) as (_ & -> & _). cbn [bind].
    set (ls1 := put ACCENT_THEME_KEY a (put BASE_THEME_KEY b ls)).
    eexists. split; [reflexivity |]. cbn [snd].
    rewrite initialSettings_returns. cbn [bind baseTheme accentTheme].
    assert (Hb : or_default (stored BASE_THEME_KEY ls1) "dark" = b).
    { subst ls1. rewrite stored_put_ne by discriminate. rewrite stored_put_same.
      destruct (readable ls) eqn:Hr; [now apply or_default_again |].
      subst b. unfold stored. now rewrite Hr. }
    assert (Ha : or_default (stored ACCENT_THEME_KEY ls1) "default" = a).
    { subst ls1. rewrite stored_put_same. cbn [readable put].
      destruct (readable ls) eqn:Hr; [now apply or_default_again |].
      subst a. unfold stored. now rewrite Hr. }
    assert (Hc : stored CUSTOM_CSS_KEY ls1 = stored CUSTOM_CSS_KEY ls).
    { subst ls1. now rewrite !stored_put_ne by discriminate. }
    assert (Ht : stored TARGET_LANGUAGE_KEY ls1 = stored TARGET_LANGUAGE_KEY ls).
    { subst ls1. now rewrite !stored_put_ne by discriminate. }
    rewrite Hb, Ha, Hc, Ht.
    assert (Hw1 : writable ls1 = true) by exact Hw.
    destruct (save_puts ls1 b Hw1) as (-> & _). cbn [bind].
    assert (Hsame : put BASE_THEME_KEY b ls1 = ls1).
    { apply put_same. subst ls1. cbn [items put].
      rewrite lookup_insert_ne by discriminate. apply lookup_insert_eq. }
    rewrite Hsame.
    destruct (save_puts ls1 a Hw1) as (_ & -> & _). cbn [bind].
    rewrite put_same; [reflexivity |]. subst ls1. cbn [items put]. apply lookup_insert_eq.
  - destruct (save_refused ls (or_default (stored BASE_THEME_KEY ls) "dark") Hw) as (-> & _).
    cbn [bind].
    destruct (save_refused ls (or_default (stored ACCENT_THEME_KEY ls) "default") Hw)
      as (_ & -> & _).
    cbn [bind]. eexists. split; [reflexivity |]. cbn [snd].
    rewrite initialSettings_returns. cbn [bind baseTheme accentTheme].
    destruct (save_refused ls (or_default (stored BASE_THEME_KEY ls) "dark") Hw) as (-> & _).
    cbn [bind].
    destruct (save_refused ls (or_default (stored ACCENT_THEME_KEY ls) "default") Hw)
      as (_ & -> & _).
    reflexivity.
Qed.

Lemma existsb_findChat (a : string) (l : list StoredChat.t) :
  existsb (fun chat => String.eqb (StoredChat.id chat) a) l = true →
  is_Some (findChat a l).
Proof.
  unfold findChat. induction l as [|c l IH]; [discriminate |].
  cbn. destruct (String.eqb (StoredChat.id c) a); [eauto | exact IH].
Qed.

Lemma findChat_existsb (a : string) (l : list StoredChat.t) (c : StoredChat.t) :
  findChat a l = Some c →
  existsb (fun chat => String.eqb (StoredChat.id chat) a) l = true.
Proof.
  unfold findChat. induction l as [|d l IH]; [discriminate |].
  cbn. destruct (String.eqb (StoredChat.id d) a); [reflexivity | exact IH].
Qed.

(** The state after the mount effect when the stored active id names a
    loaded conversation. *)
Lemma restoreChats_found (loadedChats : list StoredChat.t) (a : string) (chat : StoredChat.t)
    (now nowWelcome : N) (iso : string) (r : AppState) :
  truthy a = true → findChat a loadedChats = Some chat →
  let s := commit (restoreChats loadedChats (Some a) now nowWelcome iso r) r in
  allChats s = loadedChats ∧ currentChatId s = Some a
  ∧ messages s = StoredChat.messages chat.
Proof.
  intros Ha Hfind. unfold restoreChats, truthyId. rewrite Ha.
  rewrite (findChat_existsb a loadedChats chat Hfind), Hfind.
  cbn. rewrite (findChat_id a loadedChats chat Hfind). repeat split.
Qed.

(** The state after the mount effect when a new conversation is started. *)
Lemma restoreChats_new (loadedChats : list StoredChat.t)
    (now nowWelcome : N) (iso : string) (r : AppState) :
  let s := commit (SetAllChats (fun _ => loadedChats) (fun _ => None)
                   :: startNewChat now nowWelcome iso r) r in
  let welcome := createNewWelcomeMessage nowWelcome (currentChatModel (settings r)) in
  currentChatId s = Some ("chat-" +:+ pretty now)
  ∧ messages s = [welcome]
  ∧ allChats s
    = {| StoredChat.id := "chat-" +:+ pretty now; StoredChat.title := "New Chat";
         StoredChat.createdAt := iso; StoredChat.messages := [welcome];
         StoredChat.aiMessagesSinceLastTitleUpdate := Some 0 |}
      :: List.filter (fun c => negb (String.eqb (StoredChat.id c) ("chat-" +:+ pretty now)))
           loadedChats.
Proof.
  set (s0 := applyUpdate (SetAllChats (fun _ => loadedChats) (fun _ => None)) r).
  change (commit (_ :: startNewChat now nowWelcome iso r) r)
    with (commit (startNewChat now nowWelcome iso s0) s0).
  destruct (startNewChat_state now nowWelcome iso s0) as (Hm & Hc & _ & _ & Hall).
  cbv zeta in *. rewrite Hm, Hc, Hall. repeat split.
Qed.

Lemma findChat_not_existsb (a : string) (l : list StoredChat.t) :
  findChat a l = None →
  existsb (fun chat => String.eqb (StoredChat.id chat) a) l = false.
Proof.
  unfold findChat. induction l as [|d l IH]; [reflexivity |].
  cbn. destruct (String.eqb (StoredChat.id d) a); [discriminate | exact IH].
Qed.

(** X24.  What the mount effect shows.  When the stored active id is not
    empty and names a loaded conversation, that conversation is restored:
    the store is exactly what was loaded, the conversation is current and
    its stored messages are shown.  In every other case (the id is absent,
    empty, or names no loaded conversation) a new conversation is started:
    it is current, the welcome message alone is shown, and the store is
    the new conversation followed by the loaded ones with another id.  In
    both cases the current conversation is in the store and the messages
    shown are the messages stored for it. *)
Theorem mount_shows_a_stored_conversation (loadedChats : list StoredChat.t)
    (activeId : option string) (now nowWelcome : N) (iso : string) (r : AppState) :
  let s := commit (restoreChats loadedChats activeId now nowWelcome iso r) r in
  let welcome := createNewWelcomeMessage nowWelcome (currentChatModel (settings r)) in
  let newChat :=
    {| StoredChat.id := "chat-" +:+ pretty now; StoredChat.title := "New Chat";
       StoredChat.createdAt := iso; StoredChat.messages := [welcome];
       StoredChat.aiMessagesSinceLastTitleUpdate := Some 0 |} in
  match truthyId activeId ≫= (fun a => findChat a loadedChats) with
  | Some chat =>
      allChats s = loadedChats
      ∧ currentChatId s = activeId
      ∧ currentChatId s = Some (StoredChat.id chat)
      ∧ messages s = StoredChat.messages chat
  | None =>
      allChats s
      = newChat :: List.filter (fun c => negb (String.eqb (StoredChat.id c)
                                                 ("chat-" +:+ pretty now))) loadedChats
      ∧ currentChatId s = Some ("chat-" +:+ pretty now)
      ∧ messages s = [welcome]
  end
  ∧ ∃ c chat, currentChatId s = Some c
              ∧ findChat c (allChats s) = Some chat
              ∧ messages s = StoredChat.messages chat.
Proof.
  cbv zeta.
  destruct (truthyId activeId) as [a|] eqn:Hid; cbn [mbind option_bind].
  - assert (Hact : activeId = Some a ∧ truthy a = true).
    { unfold truthyId in Hid. destruct activeId as [i|]; [| discriminate].
      destruct (truthy i) eqn:Hi; [| discriminate]. injection Hid as ->. auto. }
    destruct Hact as [-> Ha].
    destruct (findChat a loadedChats) as [chat|] eqn:Hfind.
    + destruct (restoreChats_found loadedChats a chat now nowWelcome iso r Ha Hfind)
        as (Hall & Hcur & Hmsg).
      rewrite Hall, Hcur, Hmsg, (findChat_id a loadedChats chat Hfind).
      split; [repeat split |]. exists a, chat. auto.
    + unfold restoreChats. rewrite Hid, (findChat_not_existsb a loadedChats Hfind).
      destruct (restoreChats_new loadedChats now nowWelcome iso r) as (Hc & Hm & Hall).
      cbv zeta in Hc, Hm, Hall. rewrite Hc, Hm, Hall.
      split; [repeat split |]. eexists _, _. split; [reflexivity |].
      unfold findChat. cbn [List.find StoredChat.id]. rewrite String.eqb_refl.
      split; reflexivity.
  - unfold restoreChats. rewrite Hid.
    destruct (restoreChats_new loadedChats now nowWelcome iso r) as (Hc & Hm & Hall).
    cbv zeta in Hc, Hm, Hall. rewrite Hc, Hm, Hall.
    split; [repeat split |]. eexists _, _. split; [reflexivity |].
    unfold findChat. cbn [List.find StoredChat.id]. rewrite String.eqb_refl.
    split; reflexivity.
Qed.

(** X25.  Closing and opening again.  On a storage that can be read and
    written, with a serialisation of the conversations that is not empty and
    that [JSON.parse] reads back, the two saving effects followed by the
    mount effect give back the same conversations, the same current
    conversation, and show the messages stored for it. *)
Theorem reopening_restores_the_conversations
    (JSON_parse : string → outcome (list StoredChat.t))
    (JSON_stringify : list StoredChat.t → outcome string)
    (s r : AppState) (ls : Storage) (j c : string) (chat : StoredChat.t)
    (now nowWelcome : N) (iso : string) :
  readable ls = true → writable ls = true →
  JSON_stringify (allChats s) = Return j → truthy j = true →
  JSON_parse j = Return (allChats s) →
  currentChatId s = Some c → truthy c = true →
  findChat c (allChats s) = Some chat →
  ∃ ls' us,
    persist JSON_stringify s ls = Return ls'
    ∧ restore JSON_parse now nowWelcome iso r ls' = Return us
    ∧ allChats (commit us r) = allChats s
    ∧ currentChatId (commit us r) = Some c
    ∧ messages (commit us r) = StoredChat.messages chat.
Proof.
  intros Hr Hw Hj Htj Hparse Hcur Htc Hfind.
  set (ls' := put ACTIVE_CHAT_ID_KEY c (put ALL_CHATS_KEY j ls)).
  exists ls', (restoreChats (allChats s) (Some c) now nowWelcome iso r).
  destruct (restoreChats_found (allChats s) c chat now nowWelcome iso r Htc Hfind)
    as (Hall & Hc & Hm).
  repeat split; try assumption.
  - destruct (saves_never_throw_aux JSON_stringify (allChats s) (Some c) ls) as [Hs1 _].
    unfold persist. rewrite Hs1, Hj, Hw. cbn [bind].
    destruct (saves_never_throw_aux JSON_stringify (allChats s) (Some c)
                (put ALL_CHATS_KEY j ls)) as [_ Hs2].
    rewrite Hcur, Hs2. cbn [writable put]. rewrite Hw. unfold truthyId. now rewrite Htc.
  - unfold restore. rewrite loadChats_returns.
    destruct (load_text_returns ls') as (-> & _).
    assert (H1 : stored ALL_CHATS_KEY ls' = Some j).
    { subst ls'. rewrite stored_put_ne by discriminate. now apply stored_put_eq. }
    assert (H2 : stored ACTIVE_CHAT_ID_KEY ls' = Some c).
    { subst ls'. now apply stored_put_eq. }
    rewrite H1, H2, Htj, Hparse. reflexivity.
Qed.

Lemma reopening_restores_the_conversations_witness :
  ∃ ls' us,
    persist (fun _ => Return "[A,B]") Sample.showingA Sample.emptyStorage = Return ls'
    ∧ restore (fun _ => Return [Sample.chatA; Sample.chatB]) 300 301 "2025-01-02T00:00:00.000Z"
        Sample.showingA ls' = Return us
    ∧ allChats (commit us Sample.showingA) = allChats Sample.showingA
    ∧ currentChatId (commit us Sample.showingA) = Some "chat-100"
    ∧ messages (commit us Sample.showingA) = StoredChat.messages Sample.chatA.
Proof.
  apply (reopening_restores_the_conversations
           (fun _ => Return [Sample.chatA; Sample.chatB]) (fun _ => Return "[A,B]")
           Sample.showingA Sample.showingA Sample.emptyStorage "[A,B]" "chat-100" Sample.chatA
           300 301 "2025-01-02T00:00:00.000Z"); reflexivity.
Defined.

End Reopening.

(* ================================================================== *)
(** * The server side of the proxy *)
(* ================================================================== *)

Section ServerProxy.

Import ApiProxy.

Lemma webStream_texts (cs : list (option string)) :
  flat_map (fun text => match text with
                        | Some t => if truthy t then [t] else []
                        | None => []
                        end) cs
  = List.filter truthy (map textOf cs).
Proof.
  induction cs as [|c cs IH]; [reflexivity |].
  cbn [flat_map map]. rewrite IH.
  destruct c as [t|].
  - change (textOf (Some t)) with t. cbn [List.filter].
    destruct (truthy t); reflexivity.
  - change (textOf None) with "". reflexivity.
Qed.

Lemma concat_filter_truthy (l : list string) :
  String.concat "" (List.filter truthy l) = String.concat "" l.
Proof.
  induction l as [|t l IH]; [reflexivity |].
  cbn [List.filter]. rewrite (concat_cons t l). destruct (truthy t) eqn:Ht.
  - now rewrite concat_cons, IH.
  - apply truthy_false in Ht. subst t. now rewrite append_nil_l.
Qed.

Lemma errorMessage_truthy (nestedMessage : string → outcome (option string)) (e : string) :
  truthy (errorMessageOf nestedMessage e) = true.
Proof.
  unfold errorMessageOf. destruct (truthy e) eqn:He; [| reflexivity].
  destruct (nestedMessage e) as [[m|]|]; try exact He.
  destruct (truthy m) eqn:Hm; assumption.
Qed.

(** X26.  What the handler answers.  For every request, key, SDK behaviour and
    error text, the handler makes at most one call on the SDK client, and
    none unless the method is POST and the key is set; its answer is
    either an error in JSON with a status other than 200 and a message
    that is not empty, or a 200 answer made after exactly one SDK call
    that returned. *)
Theorem proxy_answers (API_KEY : option string) (sdk : Sdk)
    (nestedMessage : string → outcome (option string)) (req : Request) :
  let '(resp, calls) := handler API_KEY sdk nestedMessage req in
  (length calls ≤ 1)%nat
  ∧ (calls ≠ [] → method req = "POST" ∧ ∃ k, API_KEY = Some k ∧ truthy k = true)
  ∧ match body resp with
    | ErrorJson e =>
        truthy e = true ∧ contentType resp = "application/json"
        ∧ (status resp = 400 ∨ status resp = 405 ∨ status resp = 500)%N
    | TextJson _ | WebStream _ => status resp = 200%N ∧ length calls = 1%nat
    end.
Proof.
  unfold handler.
  destruct (String.eqb (method req) "POST") eqn:Hm; cbn [negb].
  2:{ cbn. split; [lia |]. split; [intros Hne; now contradiction Hne |]. auto. }
  apply String.eqb_eq in Hm.
  assert (Hkey : truthy (or_default API_KEY "") = true →
                 ∃ k, API_KEY = Some k ∧ truthy k = true).
  { destruct API_KEY as [k|]; [| discriminate]. cbn [or_default].
    rewrite or_else_empty. eauto. }
  destruct (truthy (or_default API_KEY "")) eqn:Hk; cbn [negb].
  2:{ cbn. split; [lia |]. split; [intros Hne; now contradiction Hne |]. auto. }
  specialize (Hkey eq_refl).
  destruct (json req) as [[payload|titlePrompt|followUp prompt model|type]|e].
  - split; [cbn; lia |]. split; [auto |].
    destruct (sendMessageStream sdk payload) as [stream|e]; cbn [length body streamed jsonError].
    + auto.
    + rewrite errorMessage_truthy. auto.
  - split; [cbn; lia |]. split; [auto |].
    destruct (generateContent sdk _) as [text|e]; cbn [length body jsonError].
    + auto.
    + rewrite errorMessage_truthy. auto.
  - split; [cbn; lia |]. split; [auto |].
    destruct (generateContentStream sdk model prompt) as [stream|e];
      cbn [length body streamed jsonError].
    + auto.
    + rewrite errorMessage_truthy. auto.
  - cbn. split; [lia |]. split; [intros Hne; now contradiction Hne |]. auto.
  - cbn [length body jsonError]. rewrite errorMessage_truthy.
    split; [lia |]. split; [intros Hne; now contradiction Hne |]. auto.
Qed.

(** X27.  What the handler streams.  For a chat request, or a summary or
    follow-up request, that the SDK accepts, the answer is a 200 plain-text
    stream.  The chunks put on it are exactly the chunk texts of the SDK
    stream that are not empty (an undefined text counting as empty), one
    chunk each and in the same order; so no chunk sent is empty and their
    concatenation is the concatenation of all chunk texts; and the stream
    ends as the SDK stream does. *)
Theorem proxy_forwards_the_text (API_KEY : option string) (sdk : Sdk)
    (nestedMessage : string → outcome (option string)) (req : Request) (stream : SdkStream) :
  method req = "POST" → truthy (or_default API_KEY "") = true →
  (∃ payload, json req = Return (ChatType payload)
              ∧ sendMessageStream sdk payload = Return stream)
  ∨ (∃ followUp prompt model, json req = Return (SummarizeType followUp prompt model)
                              ∧ generateContentStream sdk model prompt = Return stream) →
  ∃ out,
    fst (handler API_KEY sdk nestedMessage req)
    = {| status := 200; contentType := "text/plain; charset=utf-8"; body := WebStream out |}
    ∧ delivered out = List.filter truthy (map textOf (chunks stream))
    ∧ String.concat "" (delivered out) = String.concat "" (map textOf (chunks stream))
    ∧ Forall (fun t => truthy t = true) (delivered out)
    ∧ failure out = broken stream.
Proof.
  intros Hm Hk Hreq. exists (geminiStreamToWebStream stream).
  assert (Hout : delivered (geminiStreamToWebStream stream)
                 = List.filter truthy (map textOf (chunks stream)))
    by apply webStream_texts.
  assert (Hrest : String.concat "" (delivered (geminiStreamToWebStream stream))
                  = String.concat "" (map textOf (chunks stream))
                  ∧ Forall (fun t => truthy t = true)
                           (delivered (geminiStreamToWebStream stream))).
  { rewrite Hout. split; [apply concat_filter_truthy |].
    apply List.Forall_forall. intros t Ht. apply filter_In in Ht. tauto. }
  destruct Hrest as [Hcat Hne].
  unfold handler. rewrite Hm, Hk. cbn [String.eqb negb].
  assert (HP : String.eqb "POST" "POST" = true) by reflexivity.
  destruct Hreq as [(payload & -> & Hs) | (followUp & prompt & model & -> & Hs)];
    rewrite ?HP; cbn [negb]; rewrite Hs; repeat split; assumption.
Qed.

Lemma proxy_forwards_the_text_witness :
  let sdk := {| sendMessageStream := fun _ => Return {| chunks := [Some "Hel"; None; Some "";
                                                                    Some "lo"];
                                                        broken := None |};
                generateContent := fun _ => Throw "unused";
                generateContentStream := fun _ _ => Throw "unused" |} in
  let req := {| method := "POST";
                json := Return (ChatType (ProxyService.chatPayload (inl "Hi") []
                                            "gemini-2.5-flash" (Some 0%Z))) |} in
  ∃ out,
    fst (handler (Some "k") sdk (fun _ => Throw "SyntaxError") req)
    = {| status := 200; contentType := "text/plain; charset=utf-8"; body := WebStream out |}
    ∧ delivered out = List.filter truthy (map textOf [Some "Hel"; None; Some ""; Some "lo"])
    ∧ String.concat "" (delivered out)
      = String.concat "" (map textOf [Some "Hel"; None; Some ""; Some "lo"])
    ∧ Forall (fun t => truthy t = true) (delivered out)
    ∧ failure out = None.
Proof.
  apply (proxy_forwards_the_text (Some "k")
           {| sendMessageStream := fun _ => Return {| chunks := [Some "Hel"; None; Some "";
                                                                 Some "lo"];
                                                     broken := None |};
              generateContent := fun _ => Throw "unused";
              generateContentStream := fun _ _ => Throw "unused" |}
           (fun _ => Throw "SyntaxError")
           {| method := "POST";
              json := Return (ChatType (ProxyService.chatPayload (inl "Hi") []
                                          "gemini-2.5-flash" (Some 0%Z))) |}
           {| chunks := [Some "Hel"; None; Some ""; Some "lo"]; broken := None |});
    [reflexivity | reflexivity | left; eexists; split; reflexivity].
Defined.

End ServerProxy.
